(** * Voxel-Project: the shader wrapper, the mesh wrapper and the main loop

    A shallow embedding of [Shader.cpp], [Mesh.cpp] and [main.cpp].  The
    program is a sequence of calls into SDL and OpenGL, so it is written in a
    state monad over a [World] that holds the state of the windowing
    subsystem, the state of the current OpenGL context, the text written to
    [std::cout] and the chronological list of the API calls issued.  What the
    platform decides (whether initialisation succeeds, whether GLSL compiles
    and links, which uniforms a program has) is read from a [Platform]
    record; what the user does (window events, keys held) is read from a
    list of [FrameInput], one per iteration of the main loop. *)

From Stdlib Require Import ZArith NArith Floats.SpecFloat.
From stdpp Require Import gmap strings list fin_maps.

Local Open Scope Z_scope.

(** ** Single-precision numbers

    The C++ type [float] is IEEE-754 binary32: 24 bits of precision, the
    largest exponent 128, every operation rounded to nearest, ties to even.
    A finite value [S754_finite s m e] stands for (-1)^s * m * 2^e. *)

Definition float : Type := spec_float.

Definition b32_prec : Z := 24.
Definition b32_emax : Z := 128.

Definition b32_add : float -> float -> float := SFadd b32_prec b32_emax.
Definition b32_sub : float -> float -> float := SFsub b32_prec b32_emax.
Definition b32_mul : float -> float -> float := SFmul b32_prec b32_emax.
Definition b32_div : float -> float -> float := SFdiv b32_prec b32_emax.

(** An integer as a [float] (exact below 2^24). *)
Definition b32_of_Z (z : Z) : float :=
  binary_normalize b32_prec b32_emax z 0 false.

(** Every finite binary32 number is a whole multiple of 2^-149, the smallest
    subnormal; [b32_units x] is that multiple, the exact value of [x]. *)
Definition b32_units (x : float) : option Z :=
  match x with
  | S754_zero _ => Some 0
  | S754_finite s m e => Some (cond_Zopp s (Z.pos m) * 2 ^ (e + 149))
  | _ => None
  end.

(** The literals of the sources, as the nearest binary32 numbers. *)
Definition lit_0_0 : float := S754_zero false.
Definition lit_1_0 : float := S754_finite false 8388608 (-23).
Definition lit_2_0 : float := S754_finite false 8388608 (-22).
Definition lit_0_5 : float := S754_finite false 8388608 (-24).
Definition lit_neg_0_5 : float := S754_finite true 8388608 (-24).
Definition lit_neg_5_0 : float := S754_finite true 10485760 (-21).
Definition lit_0_01 : float := S754_finite false 10737418 (-30).
Definition lit_0_0025 : float := S754_finite false 10737418 (-32).
Definition lit_0_2 : float := S754_finite false 13421773 (-26).
Definition lit_0_3 : float := S754_finite false 10066330 (-25).
Definition lit_60_0 : float := S754_finite false 15728640 (-18).
Definition lit_100_0 : float := S754_finite false 13107200 (-17).
Definition lit_600_0 : float := S754_finite false 9830400 (-14).
Definition lit_800_0 : float := S754_finite false 13107200 (-14).

(** ** GLM

    The linear-algebra library is a header-only dependency.  Its matrices are
    kept as the terms that build them: two equal terms denote equal matrices
    whatever the library computes, and nothing below relies on two different
    terms being different matrices. *)

Definition vec3 : Type := float * float * float.

Inductive mat4 : Type :=
| mat4_diag (d : float)                           (* glm::mat4(d) *)
| perspective (fovy aspect zNear zFar : float)    (* glm::perspective *)
| lookAt (eye center up : vec3)                   (* glm::lookAt *)
| rotate (m : mat4) (angle : float) (axis : vec3) (* glm::rotate *)
| mat4_mul (a b : mat4).                          (* operator* *)

(** [glm::radians]: degrees times pi/180, the factor rounded to [float]. *)
Definition lit_pi_over_180 : float := S754_finite false 9370165 (-29).
Definition radians (degrees : float) : float := b32_mul degrees lit_pi_over_180.

(** ** OpenGL and SDL types *)

Abbreviation GLuint := N (only parsing).
Abbreviation GLint := Z (only parsing).
Abbreviation GLsizei := Z (only parsing).

Inductive ShaderType := GL_VERTEX_SHADER | GL_FRAGMENT_SHADER.
Inductive BufferTarget := GL_ARRAY_BUFFER | GL_ELEMENT_ARRAY_BUFFER.
Inductive BufferUsage := GL_STATIC_DRAW.
Inductive DataType := GL_FLOAT | GL_UNSIGNED_INT.
Inductive DrawMode := GL_TRIANGLES.
Inductive Capability := GL_DEPTH_TEST.
Inductive ShaderParam := GL_COMPILE_STATUS.
Inductive ProgramParam := GL_LINK_STATUS.
Inductive GLerror := GL_INVALID_VALUE | GL_INVALID_OPERATION.
Inductive UniformType := U_float | U_mat4.

Definition GL_COLOR_BUFFER_BIT : N := 0x4000.
Definition GL_DEPTH_BUFFER_BIT : N := 0x100.

#[global] Instance ShaderType_eq_dec : EqDecision ShaderType.
Proof. solve_decision. Defined.
#[global] Instance UniformType_eq_dec : EqDecision UniformType.
Proof. solve_decision. Defined.

(** [sizeof(float)] and [sizeof(unsigned int)] on the 32-bit target of the
    build files; [size_t] and [unsigned int] are 32 bits wide there. *)
Definition sizeof_float : N := 4.
Definition sizeof_unsigned_int : N := 4.
Definition wrap32 (n : N) : N := (n mod 2 ^ 32)%N.

(** [std::vector::size()], a [size_t]. *)
Definition vector_size {A} (v : list A) : N := wrap32 (N.of_nat (length v)).

(** Conversion of an [unsigned int] to the signed 32-bit [GLsizei]. *)
Definition to_GLsizei (n : N) : GLsizei :=
  let z := Z.of_N (wrap32 n) in
  if z <? 2 ^ 31 then z else z - 2 ^ 32.

Inductive SDL_GLattr :=
| SDL_GL_CONTEXT_MAJOR_VERSION
| SDL_GL_CONTEXT_MINOR_VERSION
| SDL_GL_CONTEXT_PROFILE_MASK.

Definition SDL_GL_CONTEXT_PROFILE_CORE : Z := 1.
Definition SDL_INIT_VIDEO : N := 0x20.
Definition SDL_WINDOWPOS_CENTERED : Z := 0x2FFF0000.
Definition SDL_WINDOW_OPENGL : N := 0x2.
Definition SDL_WINDOW_SHOWN : N := 0x4.
Definition SDL_QUIT : N := 0x100.
Definition GLEW_OK : N := 0.

(** An [SDL_Event], of which the program reads the [type] field only. *)
Record SDL_Event := { type : N }.

Inductive SDL_Scancode :=
| SDL_SCANCODE_W
| SDL_SCANCODE_S
| SDL_SCANCODE_D
| SDL_SCANCODE_A
| SDL_SCANCODE_SPACE
| SDL_SCANCODE_LSHIFT.

(** The array behind [SDL_GetKeyboardState]: one [Uint8] per scancode, not
    zero while the key is down. *)
Definition KeyboardState : Type := SDL_Scancode -> N.

(** What one iteration of the main loop receives: the events pending when it
    starts polling, and the keyboard as it is once they are drained. *)
Record FrameInput := {
  events : list SDL_Event;
  keyboardState : KeyboardState
}.

(** ** The state of an OpenGL context

    The part of the OpenGL state machine that the program touches: the four
    object tables, the binding points, the clear colour, the depth test and
    the error flag.  Pixel contents are not modelled; what is drawn is read
    from the list of calls. *)

Inductive BufferData :=
| NoData
| FloatData (values : list float)
| UIntData (values : list N).

Record BufferObject := {
  buf_size : N;
  buf_usage : option BufferUsage;
  buf_data : BufferData
}.

Record AttribPointer := {
  ap_size : Z;
  ap_type : DataType;
  ap_normalized : bool;
  ap_stride : N;
  ap_offset : N;
  ap_buffer : GLuint
}.

Record VertexArrayObject := {
  vao_element_buffer : GLuint;
  vao_attribs : gmap N AttribPointer;
  vao_enabled : gset N
}.

Record ShaderObject := {
  sh_type : ShaderType;
  sh_source : string;
  sh_compiled : bool;
  sh_log : string;
  sh_delete_pending : bool
}.

Inductive UniformValue :=
| UFloat (v : float)
| UMat4 (m : mat4).

Record ProgramObject := {
  pr_attached : list GLuint;
  pr_linked : bool;
  pr_log : string;
  pr_uniforms : list (string * UniformType);   (* location = position *)
  pr_values : gmap N UniformValue;
  pr_delete_pending : bool
}.

Record Device := {
  vertex_arrays : gmap N VertexArrayObject;
  buffers : gmap N BufferObject;
  shaders : gmap N ShaderObject;
  programs : gmap N ProgramObject;
  vertex_array_binding : GLuint;
  array_buffer_binding : GLuint;
  current_program : GLuint;
  depth_test : bool;
  clear_color : float * float * float * float;
  gl_error : option GLerror
}.

Definition new_buffer : BufferObject :=
  {| buf_size := 0; buf_usage := None; buf_data := NoData |}.

Definition new_vertex_array : VertexArrayObject :=
  {| vao_element_buffer := 0%N; vao_attribs := ∅; vao_enabled := ∅ |}.

Definition new_shader (t : ShaderType) : ShaderObject :=
  {| sh_type := t; sh_source := EmptyString; sh_compiled := false;
     sh_log := EmptyString; sh_delete_pending := false |}.

Definition new_program : ProgramObject :=
  {| pr_attached := []; pr_linked := false; pr_log := EmptyString;
     pr_uniforms := []; pr_values := ∅; pr_delete_pending := false |}.

(** The state of a context that has just been created. *)
Definition new_device : Device :=
  {| vertex_arrays := ∅; buffers := ∅; shaders := ∅; programs := ∅;
     vertex_array_binding := 0%N; array_buffer_binding := 0%N;
     current_program := 0%N; depth_test := false;
     clear_color := (lit_0_0, lit_0_0, lit_0_0, lit_0_0);
     gl_error := None |}.

Definition set_vertex_arrays (m : gmap N VertexArrayObject) (d : Device) : Device :=
  {| vertex_arrays := m; buffers := buffers d; shaders := shaders d;
     programs := programs d; vertex_array_binding := vertex_array_binding d;
     array_buffer_binding := array_buffer_binding d;
     current_program := current_program d; depth_test := depth_test d;
     clear_color := clear_color d; gl_error := gl_error d |}.

Definition set_buffers (m : gmap N BufferObject) (d : Device) : Device :=
  {| vertex_arrays := vertex_arrays d; buffers := m; shaders := shaders d;
     programs := programs d; vertex_array_binding := vertex_array_binding d;
     array_buffer_binding := array_buffer_binding d;
     current_program := current_program d; depth_test := depth_test d;
     clear_color := clear_color d; gl_error := gl_error d |}.

Definition set_shaders (m : gmap N ShaderObject) (d : Device) : Device :=
  {| vertex_arrays := vertex_arrays d; buffers := buffers d; shaders := m;
     programs := programs d; vertex_array_binding := vertex_array_binding d;
     array_buffer_binding := array_buffer_binding d;
     current_program := current_program d; depth_test := depth_test d;
     clear_color := clear_color d; gl_error := gl_error d |}.

Definition set_programs (m : gmap N ProgramObject) (d : Device) : Device :=
  {| vertex_arrays := vertex_arrays d; buffers := buffers d;
     shaders := shaders d; programs := m;
     vertex_array_binding := vertex_array_binding d;
     array_buffer_binding := array_buffer_binding d;
     current_program := current_program d; depth_test := depth_test d;
     clear_color := clear_color d; gl_error := gl_error d |}.

Definition set_vertex_array_binding (n : GLuint) (d : Device) : Device :=
  {| vertex_arrays := vertex_arrays d; buffers := buffers d;
     shaders := shaders d; programs := programs d; vertex_array_binding := n;
     array_buffer_binding := array_buffer_binding d;
     current_program := current_program d; depth_test := depth_test d;
     clear_color := clear_color d; gl_error := gl_error d |}.

Definition set_array_buffer_binding (n : GLuint) (d : Device) : Device :=
  {| vertex_arrays := vertex_arrays d; buffers := buffers d;
     shaders := shaders d; programs := programs d;
     vertex_array_binding := vertex_array_binding d;
     array_buffer_binding := n; current_program := current_program d;
     depth_test := depth_test d; clear_color := clear_color d;
     gl_error := gl_error d |}.

Definition set_current_program (n : GLuint) (d : Device) : Device :=
  {| vertex_arrays := vertex_arrays d; buffers := buffers d;
     shaders := shaders d; programs := programs d;
     vertex_array_binding := vertex_array_binding d;
     array_buffer_binding := array_buffer_binding d; current_program := n;
     depth_test := depth_test d; clear_color := clear_color d;
     gl_error := gl_error d |}.

Definition set_depth_test (b : bool) (d : Device) : Device :=
  {| vertex_arrays := vertex_arrays d; buffers := buffers d;
     shaders := shaders d; programs := programs d;
     vertex_array_binding := vertex_array_binding d;
     array_buffer_binding := array_buffer_binding d;
     current_program := current_program d; depth_test := b;
     clear_color := clear_color d; gl_error := gl_error d |}.

Definition set_clear_color (c : float * float * float * float) (d : Device) : Device :=
  {| vertex_arrays := vertex_arrays d; buffers := buffers d;
     shaders := shaders d; programs := programs d;
     vertex_array_binding := vertex_array_binding d;
     array_buffer_binding := array_buffer_binding d;
     current_program := current_program d; depth_test := depth_test d;
     clear_color := c; gl_error := gl_error d |}.

(** An erroneous command sets the error flag, unless one is already
    recorded, and has no other effect. *)
Definition gl_fail (e : GLerror) (d : Device) : Device :=
  {| vertex_arrays := vertex_arrays d; buffers := buffers d;
     shaders := shaders d; programs := programs d;
     vertex_array_binding := vertex_array_binding d;
     array_buffer_binding := array_buffer_binding d;
     current_program := current_program d; depth_test := depth_test d;
     clear_color := clear_color d;
     gl_error := match gl_error d with Some e0 => Some e0 | None => Some e end |}.

(** A name that is neither zero nor in use. *)
Definition fresh_name (used : gset N) : N := fresh ({[0%N]} ∪ used).

(** Shader and program objects share one name space. *)
Definition shader_program_names (d : Device) : gset N :=
  dom (shaders d) ∪ dom (programs d).

(** The number of vertex arrays and buffers that are allocated. *)
Definition allocation_count (d : Device) : nat :=
  size (vertex_arrays d) + size (buffers d).

(** ** What the platform decides *)

Record Platform := {
  (* the value returned by [SDL_Init] *)
  plat_SDL_Init : Z;
  (* the pointers returned by [SDL_CreateWindow] and [SDL_GL_CreateContext],
     0 for [NULL] *)
  plat_SDL_CreateWindow : N;
  plat_SDL_GL_CreateContext : N;
  (* the value returned by [glewInit] *)
  plat_glewInit : N;
  (* the text returned by [SDL_GetError] *)
  plat_SDL_GetError : string;
  (* the GLSL compiler: status and information log for a stage's source *)
  plat_compile : ShaderType -> string -> bool * string;
  (* the GLSL linker: status, information log and active uniforms for the
     attached shader objects *)
  plat_link : list ShaderObject -> bool * string * list (string * UniformType);
  (* what a local variable holds before anything is stored in it *)
  plat_uninit_int : Z;
  plat_uninit_uint : N;
  plat_uninit_text : string
}.

(** ** The OpenGL commands, on the state of the context *)

Module GL.

(** The vertex array object that is bound; zero means none is. *)
Definition bound_vertex_array (d : Device) : option VertexArrayObject :=
  if decide (vertex_array_binding d = 0%N) then None
  else vertex_arrays d !! vertex_array_binding d.

Definition with_bound_vertex_array
    (f : VertexArrayObject -> VertexArrayObject) (d : Device) : Device :=
  match bound_vertex_array d with
  | Some vao =>
      set_vertex_arrays
        (<[vertex_array_binding d := f vao]> (vertex_arrays d)) d
  | None => gl_fail GL_INVALID_OPERATION d
  end.

Definition set_element_buffer (b : GLuint) (vao : VertexArrayObject) :=
  {| vao_element_buffer := b; vao_attribs := vao_attribs vao;
     vao_enabled := vao_enabled vao |}.

Definition set_attrib (i : N) (p : AttribPointer) (vao : VertexArrayObject) :=
  {| vao_element_buffer := vao_element_buffer vao;
     vao_attribs := <[i := p]> (vao_attribs vao);
     vao_enabled := vao_enabled vao |}.

Definition enable_attrib (i : N) (vao : VertexArrayObject) :=
  {| vao_element_buffer := vao_element_buffer vao;
     vao_attribs := vao_attribs vao;
     vao_enabled := {[i]} ∪ vao_enabled vao |}.

Definition GenVertexArrays (d : Device) : GLuint * Device :=
  let n := fresh_name (dom (vertex_arrays d)) in
  (n, set_vertex_arrays (<[n := new_vertex_array]> (vertex_arrays d)) d).

Definition GenBuffers (d : Device) : GLuint * Device :=
  let n := fresh_name (dom (buffers d)) in
  (n, set_buffers (<[n := new_buffer]> (buffers d)) d).

Definition BindVertexArray (n : GLuint) (d : Device) : Device :=
  if decide (n = 0%N) then set_vertex_array_binding 0%N d
  else match vertex_arrays d !! n with
       | Some _ => set_vertex_array_binding n d
       | None => gl_fail GL_INVALID_OPERATION d
       end.

Definition BindBuffer (target : BufferTarget) (b : GLuint) (d : Device) : Device :=
  if decide (b ≠ 0%N ∧ buffers d !! b = None) then gl_fail GL_INVALID_OPERATION d
  else match target with
       | GL_ARRAY_BUFFER => set_array_buffer_binding b d
       | GL_ELEMENT_ARRAY_BUFFER => with_bound_vertex_array (set_element_buffer b) d
       end.

Definition bound_buffer (target : BufferTarget) (d : Device) : GLuint :=
  match target with
  | GL_ARRAY_BUFFER => array_buffer_binding d
  | GL_ELEMENT_ARRAY_BUFFER =>
      match bound_vertex_array d with
      | Some vao => vao_element_buffer vao
      | None => 0%N
      end
  end.

Definition BufferData (target : BufferTarget) (size : N) (data : BufferData)
    (usage : BufferUsage) (d : Device) : Device :=
  let b := bound_buffer target d in
  match (if decide (b = 0%N) then None else buffers d !! b) with
  | Some _ =>
      set_buffers
        (<[b := {| buf_size := size; buf_usage := Some usage;
                   buf_data := data |}]> (buffers d)) d
  | None => gl_fail GL_INVALID_OPERATION d
  end.

Definition VertexAttribPointer (index : N) (size : Z) (type : DataType)
    (normalized : bool) (stride : N) (pointer : N) (d : Device) : Device :=
  with_bound_vertex_array
    (set_attrib index
       {| ap_size := size; ap_type := type; ap_normalized := normalized;
          ap_stride := stride; ap_offset := pointer;
          ap_buffer := array_buffer_binding d |}) d.

Definition EnableVertexAttribArray (index : N) (d : Device) : Device :=
  with_bound_vertex_array (enable_attrib index) d.

(** Deleting a name that is not in use is silently ignored; deleting the
    bound object resets the binding to zero. *)
Definition DeleteVertexArrays (n : GLuint) (d : Device) : Device :=
  match vertex_arrays d !! n with
  | Some _ =>
      let d1 := set_vertex_arrays (delete n (vertex_arrays d)) d in
      if decide (vertex_array_binding d = n)
      then set_vertex_array_binding 0%N d1 else d1
  | None => d
  end.

Definition DeleteBuffers (n : GLuint) (d : Device) : Device :=
  match buffers d !! n with
  | Some _ =>
      let d1 := set_buffers (delete n (buffers d)) d in
      let d2 := if decide (array_buffer_binding d = n)
                then set_array_buffer_binding 0%N d1 else d1 in
      match bound_vertex_array d2 with
      | Some vao =>
          if decide (vao_element_buffer vao = n)
          then with_bound_vertex_array (set_element_buffer 0%N) d2 else d2
      | None => d2
      end
  | None => d
  end.

Definition DrawElements (mode : DrawMode) (count : GLsizei) (type : DataType)
    (indices : N) (d : Device) : Device :=
  if count <? 0 then gl_fail GL_INVALID_VALUE d
  else match bound_vertex_array d with
       | Some _ => d
       | None => gl_fail GL_INVALID_OPERATION d
       end.

Definition Enable (cap : Capability) (d : Device) : Device :=
  match cap with GL_DEPTH_TEST => set_depth_test true d end.

Definition ClearColor (r g b a : float) (d : Device) : Device :=
  set_clear_color (r, g, b, a) d.

Definition Clear (mask : N) (d : Device) : Device :=
  if decide (N.land mask (N.lnot (N.lor (N.lor GL_COLOR_BUFFER_BIT GL_DEPTH_BUFFER_BIT) 0x400) 32) = 0%N)
  then d else gl_fail GL_INVALID_VALUE d.

(** *** Shader and program objects *)

Definition set_source (src : string) (o : ShaderObject) : ShaderObject :=
  {| sh_type := sh_type o; sh_source := src; sh_compiled := sh_compiled o;
     sh_log := sh_log o; sh_delete_pending := sh_delete_pending o |}.

Definition set_compiled (r : bool * string) (o : ShaderObject) : ShaderObject :=
  {| sh_type := sh_type o; sh_source := sh_source o; sh_compiled := r.1;
     sh_log := r.2; sh_delete_pending := sh_delete_pending o |}.

Definition flag_shader (o : ShaderObject) : ShaderObject :=
  {| sh_type := sh_type o; sh_source := sh_source o;
     sh_compiled := sh_compiled o; sh_log := sh_log o;
     sh_delete_pending := true |}.

Definition attach (s : GLuint) (o : ProgramObject) : ProgramObject :=
  {| pr_attached := pr_attached o ++ [s]; pr_linked := pr_linked o;
     pr_log := pr_log o; pr_uniforms := pr_uniforms o;
     pr_values := pr_values o; pr_delete_pending := pr_delete_pending o |}.

Definition set_linked (r : bool * string * list (string * UniformType))
    (o : ProgramObject) : ProgramObject :=
  {| pr_attached := pr_attached o; pr_linked := r.1.1; pr_log := r.1.2;
     pr_uniforms := if r.1.1 then r.2 else []; pr_values := ∅;
     pr_delete_pending := pr_delete_pending o |}.

Definition set_value (loc : N) (v : UniformValue) (o : ProgramObject) : ProgramObject :=
  {| pr_attached := pr_attached o; pr_linked := pr_linked o;
     pr_log := pr_log o; pr_uniforms := pr_uniforms o;
     pr_values := <[loc := v]> (pr_values o);
     pr_delete_pending := pr_delete_pending o |}.

Definition flag_program (o : ProgramObject) : ProgramObject :=
  {| pr_attached := pr_attached o; pr_linked := pr_linked o;
     pr_log := pr_log o; pr_uniforms := pr_uniforms o;
     pr_values := pr_values o; pr_delete_pending := true |}.

(** The error for a name that is not a shader object: [INVALID_OPERATION]
    when it names a program, [INVALID_VALUE] otherwise; and conversely. *)
Definition not_a_shader (s : GLuint) (d : Device) : Device :=
  match programs d !! s with
  | Some _ => gl_fail GL_INVALID_OPERATION d
  | None => gl_fail GL_INVALID_VALUE d
  end.

Definition not_a_program (p : GLuint) (d : Device) : Device :=
  match shaders d !! p with
  | Some _ => gl_fail GL_INVALID_OPERATION d
  | None => gl_fail GL_INVALID_VALUE d
  end.

Definition CreateShader (t : ShaderType) (d : Device) : GLuint * Device :=
  let n := fresh_name (shader_program_names d) in
  (n, set_shaders (<[n := new_shader t]> (shaders d)) d).

Definition ShaderSource (s : GLuint) (src : string) (d : Device) : Device :=
  match shaders d !! s with
  | Some o => set_shaders (<[s := set_source src o]> (shaders d)) d
  | None => not_a_shader s d
  end.

Definition CompileShader (P : Platform) (s : GLuint) (d : Device) : Device :=
  match shaders d !! s with
  | Some o =>
      set_shaders
        (<[s := set_compiled (plat_compile P (sh_type o) (sh_source o)) o]>
           (shaders d)) d
  | None => not_a_shader s d
  end.

(** The queries write through a pointer; on an error nothing is written and
    the caller's variable keeps [old]. *)
Definition GetShaderiv (s : GLuint) (pname : ShaderParam) (old : GLint)
    (d : Device) : GLint * Device :=
  match shaders d !! s with
  | Some o => (if sh_compiled o then 1 else 0, d)
  | None => (old, not_a_shader s d)
  end.

(** At most [bufSize - 1] characters of the log are returned, followed by
    the terminating zero. *)
Definition truncate_log (bufSize : N) (log : string) : string :=
  String.substring 0 (N.to_nat bufSize - 1) log.

Definition GetShaderInfoLog (s : GLuint) (bufSize : N) (old : string)
    (d : Device) : string * Device :=
  match shaders d !! s with
  | Some o => (truncate_log bufSize (sh_log o), d)
  | None => (old, not_a_shader s d)
  end.

Definition CreateProgram (d : Device) : GLuint * Device :=
  let n := fresh_name (shader_program_names d) in
  (n, set_programs (<[n := new_program]> (programs d)) d).

Definition AttachShader (p s : GLuint) (d : Device) : Device :=
  match programs d !! p with
  | Some o =>
      match shaders d !! s with
      | Some _ =>
          if decide (s ∈ pr_attached o) then gl_fail GL_INVALID_OPERATION d
          else set_programs (<[p := attach s o]> (programs d)) d
      | None => not_a_shader s d
      end
  | None => not_a_program p d
  end.

(** Linking fails when an attached shader is not compiled; otherwise the
    platform's linker decides. *)
Definition LinkProgram (P : Platform) (p : GLuint) (d : Device) : Device :=
  match programs d !! p with
  | Some o =>
      let stages := omap (λ s, shaders d !! s) (pr_attached o) in
      let r := plat_link P stages in
      set_programs
        (<[p := set_linked (forallb sh_compiled stages && r.1.1, r.1.2, r.2) o]>
           (programs d)) d
  | None => not_a_program p d
  end.

Definition GetProgramiv (p : GLuint) (pname : ProgramParam) (old : GLint)
    (d : Device) : GLint * Device :=
  match programs d !! p with
  | Some o => (if pr_linked o then 1 else 0, d)
  | None => (old, not_a_program p d)
  end.

Definition GetProgramInfoLog (p : GLuint) (bufSize : N) (old : string)
    (d : Device) : string * Device :=
  match programs d !! p with
  | Some o => (truncate_log bufSize (pr_log o), d)
  | None => (old, not_a_program p d)
  end.

Definition is_attached (s : GLuint) (d : Device) : bool :=
  bool_decide (map_Exists (λ _ o, s ∈ pr_attached o) (programs d)).

(** A shader that is attached to a program is only flagged; it is deleted
    when it is no longer attached to any program. *)
Definition DeleteShader (s : GLuint) (d : Device) : Device :=
  match shaders d !! s with
  | Some o =>
      if is_attached s d
      then set_shaders (<[s := flag_shader o]> (shaders d)) d
      else set_shaders (delete s (shaders d)) d
  | None => if decide (s = 0%N) then d else not_a_shader s d
  end.

Definition release_shader (s : GLuint) (d : Device) : Device :=
  match shaders d !! s with
  | Some o =>
      if sh_delete_pending o && negb (is_attached s d)
      then set_shaders (delete s (shaders d)) d else d
  | None => d
  end.

Definition remove_program (p : GLuint) (d : Device) : Device :=
  match programs d !! p with
  | Some o =>
      foldr release_shader (set_programs (delete p (programs d)) d)
            (pr_attached o)
  | None => d
  end.

(** A program that is current is only flagged; it is deleted when it is no
    longer current. *)
Definition DeleteProgram (p : GLuint) (d : Device) : Device :=
  match programs d !! p with
  | Some o =>
      if decide (current_program d = p)
      then set_programs (<[p := flag_program o]> (programs d)) d
      else remove_program p d
  | None => if decide (p = 0%N) then d else not_a_program p d
  end.

Definition make_current (p : GLuint) (d : Device) : Device :=
  let old := current_program d in
  let d1 := set_current_program p d in
  match programs d !! old with
  | Some o =>
      if pr_delete_pending o && negb (bool_decide (old = p))
      then remove_program old d1 else d1
  | None => d1
  end.

Definition UseProgram (p : GLuint) (d : Device) : Device :=
  if decide (p = 0%N) then make_current 0%N d
  else match programs d !! p with
       | Some o =>
           if pr_linked o then make_current p d
           else gl_fail GL_INVALID_OPERATION d
       | None => not_a_program p d
       end.

(** The position of [name] among the active uniforms. *)
Fixpoint uniform_index (name : string) (us : list (string * UniformType))
    : option nat :=
  match us with
  | [] => None
  | (n, _) :: us' =>
      if decide (n = name) then Some O
      else S <$> uniform_index name us'
  end.

(** -1 when [name] is not an active uniform of the program; that is not an
    error.  A program that is not linked is one. *)
Definition GetUniformLocation (p : GLuint) (name : string) (d : Device)
    : GLint * Device :=
  match programs d !! p with
  | Some o =>
      if pr_linked o
      then (match uniform_index name (pr_uniforms o) with
            | Some i => Z.of_nat i
            | None => -1
            end, d)
      else (-1, gl_fail GL_INVALID_OPERATION d)
  | None => (-1, not_a_program p d)
  end.

(** A write goes to the program in use; with none in use it is an error,
    whatever the location.  With one in use, a write to location -1 is
    silently ignored, and any other write must name a uniform of that
    program and match its type. *)
Definition write_uniform (t : UniformType) (location : GLint)
    (v : UniformValue) (d : Device) : Device :=
  match (if decide (current_program d = 0%N) then None
         else programs d !! current_program d) with
  | Some o =>
      if decide (location = -1) then d
      else match pr_uniforms o !! Z.to_nat location with
           | Some (_, t') =>
               if decide (0 <= location ∧ t' = t)
               then set_programs
                      (<[current_program d := set_value (Z.to_N location) v o]>
                         (programs d)) d
               else gl_fail GL_INVALID_OPERATION d
           | None => gl_fail GL_INVALID_OPERATION d
           end
  | None => gl_fail GL_INVALID_OPERATION d
  end.

Definition Uniform1f (location : GLint) (v0 : float) (d : Device) : Device :=
  write_uniform U_float location (UFloat v0) d.

Definition UniformMatrix4fv (location : GLint) (count : GLsizei)
    (transpose : bool) (value : mat4) (d : Device) : Device :=
  write_uniform U_mat4 location (UMat4 value) d.

End GL.

(** ** The world and the calls *)

Inductive Call :=
| Call_SDL_Init (flags : N) (ret : Z)
| Call_SDL_GetError (ret : string)
| Call_SDL_GL_SetAttribute (attr : SDL_GLattr) (value : Z)
| Call_SDL_CreateWindow (title : string) (x y w h : Z) (flags : N) (ret : N)
| Call_SDL_GL_CreateContext (win : N) (ret : N)
| Store_glewExperimental (value : bool)      (* glewExperimental = value *)
| Call_glewInit (ret : N)
| Call_SDL_GetKeyboardState
| Call_SDL_PollEvent (ret : option SDL_Event)
| Call_SDL_GL_SwapWindow (win : N)
| Call_SDL_GL_DeleteContext (ctx : N)
| Call_SDL_DestroyWindow (win : N)
| Call_SDL_Quit
| Call_glEnable (cap : Capability)
| Call_glClearColor (r g b a : float)
| Call_glClear (mask : N)
| Call_glCreateShader (t : ShaderType) (ret : GLuint)
| Call_glShaderSource (s : GLuint) (src : string)
| Call_glCompileShader (s : GLuint)
| Call_glGetShaderiv (s : GLuint) (pname : ShaderParam) (ret : GLint)
| Call_glGetShaderInfoLog (s : GLuint) (bufSize : N) (ret : string)
| Call_glCreateProgram (ret : GLuint)
| Call_glAttachShader (p s : GLuint)
| Call_glLinkProgram (p : GLuint)
| Call_glGetProgramiv (p : GLuint) (pname : ProgramParam) (ret : GLint)
| Call_glGetProgramInfoLog (p : GLuint) (bufSize : N) (ret : string)
| Call_glDeleteShader (s : GLuint)
| Call_glDeleteProgram (p : GLuint)
| Call_glUseProgram (p : GLuint)
| Call_glGetUniformLocation (p : GLuint) (name : string) (ret : GLint)
| Call_glUniform1f (location : GLint) (v0 : float)
| Call_glUniformMatrix4fv (location : GLint) (count : GLsizei)
    (transpose : bool) (value : mat4)
| Call_glGenVertexArrays (n : GLsizei) (ret : GLuint)
| Call_glGenBuffers (n : GLsizei) (ret : GLuint)
| Call_glBindVertexArray (array : GLuint)
| Call_glBindBuffer (target : BufferTarget) (buffer : GLuint)
| Call_glBufferData (target : BufferTarget) (size : N) (data : BufferData)
    (usage : BufferUsage)
| Call_glVertexAttribPointer (index : N) (size : Z) (t : DataType)
    (normalized : bool) (stride : N) (pointer : N)
| Call_glEnableVertexAttribArray (index : N)
| Call_glDeleteVertexArrays (n : GLsizei) (array : GLuint)
| Call_glDeleteBuffers (n : GLsizei) (buffer : GLuint)
| Call_glDrawElements (mode : DrawMode) (count : GLsizei) (t : DataType)
    (indices : N).

Record World := {
  platform : Platform;
  (* is the windowing subsystem initialised *)
  sdl_initialized : bool;
  (* the window that exists, if any *)
  window : option N;
  (* the OpenGL context that is current, if any, and its state *)
  gl_context : option N;
  device : option Device;
  (* the statements written to std::cout, oldest first *)
  console : list string;
  (* the API calls issued (and the stores to library variables), oldest first *)
  calls : list Call
}.

(** The world when the process starts. *)
Definition initial_world (P : Platform) : World :=
  {| platform := P; sdl_initialized := false; window := None;
     gl_context := None; device := None; console := []; calls := [] |}.

(** Programs are functions from the world to a result and the next world. *)
Definition M (A : Type) : Type := World -> A * World.

#[global] Instance M_ret : MRet M := λ A a w, (a, w).

#[global] Instance M_bind : MBind M :=
  λ A B k m w, let r := m w in k r.1 r.2.

Definition record (c : Call) (w : World) : World :=
  {| platform := platform w; sdl_initialized := sdl_initialized w;
     window := window w; gl_context := gl_context w; device := device w;
     console := console w; calls := calls w ++ [c] |}.

Definition set_device (d : option Device) (w : World) : World :=
  {| platform := platform w; sdl_initialized := sdl_initialized w;
     window := window w; gl_context := gl_context w; device := d;
     console := console w; calls := calls w |}.

(** [std::cout << ... << std::endl], one statement. *)
Definition cout (text : string) : M unit :=
  λ w, (tt, {| platform := platform w; sdl_initialized := sdl_initialized w;
               window := window w; gl_context := gl_context w;
               device := device w; console := console w ++ [text];
               calls := calls w |}).

Definition endl : string := String (Ascii.ascii_of_nat 10) EmptyString.

(** An OpenGL command acts on the state of the current context.  With no
    current context its behaviour is not defined by OpenGL; here such a
    call is recorded and changes nothing, and a query leaves the caller's
    variable as it was. *)
Definition gl_query {A} (c : A -> Call) (f : Device -> A * Device) (old : A)
    : M A :=
  λ w, match device w with
       | Some d => let r := f d in (r.1, record (c r.1) (set_device (Some r.2) w))
       | None => (old, record (c old) w)
       end.

Definition gl_command (c : Call) (f : Device -> Device) : M unit :=
  gl_query (λ _, c) (λ d, (tt, f d)) tt.

Definition get_platform : M Platform := λ w, (platform w, w).

Definition set_sdl_initialized (b : bool) (w : World) : World :=
  {| platform := platform w; sdl_initialized := b; window := window w;
     gl_context := gl_context w; device := device w; console := console w;
     calls := calls w |}.

Definition set_window (h : option N) (w : World) : World :=
  {| platform := platform w; sdl_initialized := sdl_initialized w;
     window := h; gl_context := gl_context w; device := device w;
     console := console w; calls := calls w |}.

Definition set_gl_context (h : option N) (d : option Device) (w : World) : World :=
  {| platform := platform w; sdl_initialized := sdl_initialized w;
     window := window w; gl_context := h; device := d;
     console := console w; calls := calls w |}.

(** [std::string::c_str()] read as a C string: the characters before the
    first zero. *)
Fixpoint c_str (s : string) : string :=
  match s with
  | EmptyString => EmptyString
  | String c s' =>
      if Ascii.eqb c Ascii.zero then EmptyString else String c (c_str s')
  end.

(** ** SDL and GLEW *)

Definition SDL_Init (flags : N) : M Z :=
  λ w, let r := plat_SDL_Init (platform w) in
       (r, record (Call_SDL_Init flags r) (set_sdl_initialized (0 <=? r) w)).

Definition SDL_GetError : M string :=
  λ w, let r := plat_SDL_GetError (platform w) in
       (r, record (Call_SDL_GetError r) w).

Definition SDL_GL_SetAttribute (attr : SDL_GLattr) (value : Z) : M unit :=
  λ w, (tt, record (Call_SDL_GL_SetAttribute attr value) w).

Definition SDL_CreateWindow (title : string) (x y w h : Z) (flags : N) : M N :=
  λ w0, let r := plat_SDL_CreateWindow (platform w0) in
        (r, record (Call_SDL_CreateWindow title x y w h flags r)
              (if decide (r = 0%N) then w0 else set_window (Some r) w0)).

(** A context that is created is made current; its state is the initial
    state of OpenGL. *)
Definition SDL_GL_CreateContext (win : N) : M N :=
  λ w, let r := plat_SDL_GL_CreateContext (platform w) in
       (r, record (Call_SDL_GL_CreateContext win r)
             (if decide (r = 0%N) then w
              else set_gl_context (Some r) (Some new_device) w)).

(** The assignment [glewExperimental = value], a store to a variable of
    GLEW. *)
Definition set_glewExperimental (value : bool) : M unit :=
  λ w, (tt, record (Store_glewExperimental value) w).

Definition glewInit : M N :=
  λ w, let r := plat_glewInit (platform w) in (r, record (Call_glewInit r) w).

Definition SDL_GetKeyboardState : M unit :=
  λ w, (tt, record Call_SDL_GetKeyboardState w).

(** One call of [SDL_PollEvent]: [Some e] when it stores the event [e] and
    returns 1, [None] when the queue is empty and it returns 0. *)
Definition SDL_PollEvent (r : option SDL_Event) : M unit :=
  λ w, (tt, record (Call_SDL_PollEvent r) w).

Definition SDL_GL_SwapWindow (win : N) : M unit :=
  λ w, (tt, record (Call_SDL_GL_SwapWindow win) w).

Definition SDL_GL_DeleteContext (ctx : N) : M unit :=
  λ w, (tt, record (Call_SDL_GL_DeleteContext ctx)
              (if decide (gl_context w = Some ctx)
               then set_gl_context None None w else w)).

Definition SDL_DestroyWindow (win : N) : M unit :=
  λ w, (tt, record (Call_SDL_DestroyWindow win)
              (if decide (window w = Some win) then set_window None w else w)).

Definition SDL_Quit : M unit :=
  λ w, (tt, record Call_SDL_Quit (set_window None (set_sdl_initialized false w))).

(** ** OpenGL, as called by the program *)

Definition glEnable (cap : Capability) : M unit :=
  gl_command (Call_glEnable cap) (GL.Enable cap).

Definition glClearColor (r g b a : float) : M unit :=
  gl_command (Call_glClearColor r g b a) (GL.ClearColor r g b a).

Definition glClear (mask : N) : M unit :=
  gl_command (Call_glClear mask) (GL.Clear mask).

Definition glCreateShader (t : ShaderType) : M GLuint :=
  P ← get_platform;
  gl_query (Call_glCreateShader t) (GL.CreateShader t) (plat_uninit_uint P).

Definition glShaderSource (s : GLuint) (src : string) : M unit :=
  gl_command (Call_glShaderSource s src) (GL.ShaderSource s src).

Definition glCompileShader (s : GLuint) : M unit :=
  P ← get_platform;
  gl_command (Call_glCompileShader s) (GL.CompileShader P s).

Definition glGetShaderiv (s : GLuint) (pname : ShaderParam) (old : GLint) : M GLint :=
  gl_query (Call_glGetShaderiv s pname) (GL.GetShaderiv s pname old) old.

Definition glGetShaderInfoLog (s : GLuint) (bufSize : N) (old : string) : M string :=
  gl_query (Call_glGetShaderInfoLog s bufSize)
           (GL.GetShaderInfoLog s bufSize old) old.

Definition glCreateProgram : M GLuint :=
  P ← get_platform;
  gl_query Call_glCreateProgram GL.CreateProgram (plat_uninit_uint P).

Definition glAttachShader (p s : GLuint) : M unit :=
  gl_command (Call_glAttachShader p s) (GL.AttachShader p s).

Definition glLinkProgram (p : GLuint) : M unit :=
  P ← get_platform;
  gl_command (Call_glLinkProgram p) (GL.LinkProgram P p).

Definition glGetProgramiv (p : GLuint) (pname : ProgramParam) (old : GLint) : M GLint :=
  gl_query (Call_glGetProgramiv p pname) (GL.GetProgramiv p pname old) old.

Definition glGetProgramInfoLog (p : GLuint) (bufSize : N) (old : string) : M string :=
  gl_query (Call_glGetProgramInfoLog p bufSize)
           (GL.GetProgramInfoLog p bufSize old) old.

Definition glDeleteShader (s : GLuint) : M unit :=
  gl_command (Call_glDeleteShader s) (GL.DeleteShader s).

Definition glDeleteProgram (p : GLuint) : M unit :=
  gl_command (Call_glDeleteProgram p) (GL.DeleteProgram p).

Definition glUseProgram (p : GLuint) : M unit :=
  gl_command (Call_glUseProgram p) (GL.UseProgram p).

Definition glGetUniformLocation (p : GLuint) (name : string) : M GLint :=
  P ← get_platform;
  gl_query (Call_glGetUniformLocation p name) (GL.GetUniformLocation p name)
           (plat_uninit_int P).

Definition glUniform1f (location : GLint) (v0 : float) : M unit :=
  gl_command (Call_glUniform1f location v0) (GL.Uniform1f location v0).

Definition glUniformMatrix4fv (location : GLint) (count : GLsizei)
    (transpose : bool) (value : mat4) : M unit :=
  gl_command (Call_glUniformMatrix4fv location count transpose value)
             (GL.UniformMatrix4fv location count transpose value).

(** [glGenVertexArrays(1, &x)] and [glGenBuffers(1, &x)], with [old] the
    value of [x] before the call. *)
Definition glGenVertexArrays (old : GLuint) : M GLuint :=
  gl_query (Call_glGenVertexArrays 1) GL.GenVertexArrays old.

Definition glGenBuffers (old : GLuint) : M GLuint :=
  gl_query (Call_glGenBuffers 1) GL.GenBuffers old.

Definition glBindVertexArray (array : GLuint) : M unit :=
  gl_command (Call_glBindVertexArray array) (GL.BindVertexArray array).

Definition glBindBuffer (target : BufferTarget) (buffer : GLuint) : M unit :=
  gl_command (Call_glBindBuffer target buffer) (GL.BindBuffer target buffer).

Definition glBufferData (target : BufferTarget) (size : N) (data : BufferData)
    (usage : BufferUsage) : M unit :=
  gl_command (Call_glBufferData target size data usage)
             (GL.BufferData target size data usage).

Definition glVertexAttribPointer (index : N) (size : Z) (t : DataType)
    (normalized : bool) (stride : N) (pointer : N) : M unit :=
  gl_command (Call_glVertexAttribPointer index size t normalized stride pointer)
             (GL.VertexAttribPointer index size t normalized stride pointer).

Definition glEnableVertexAttribArray (index : N) : M unit :=
  gl_command (Call_glEnableVertexAttribArray index)
             (GL.EnableVertexAttribArray index).

(** [glDeleteVertexArrays(1, &x)] and [glDeleteBuffers(1, &x)]. *)
Definition glDeleteVertexArrays (array : GLuint) : M unit :=
  gl_command (Call_glDeleteVertexArrays 1 array) (GL.DeleteVertexArrays array).

Definition glDeleteBuffers (buffer : GLuint) : M unit :=
  gl_command (Call_glDeleteBuffers 1 buffer) (GL.DeleteBuffers buffer).

Definition glDrawElements (mode : DrawMode) (count : GLsizei) (t : DataType)
    (indices : N) : M unit :=
  gl_command (Call_glDrawElements mode count t indices)
             (GL.DrawElements mode count t indices).

(** ** Shader.cpp *)

Module Shader.

(** [class Shader]: the handle of the linked program. *)
Record t := { programID : GLuint }.

Definition checkShaderCompileErrors (shader : GLuint) (type : string) : M unit :=
  P ← get_platform;
  success ← glGetShaderiv shader GL_COMPILE_STATUS (plat_uninit_int P);
  if decide (success = 0) then
    infoLog ← glGetShaderInfoLog shader 512 (plat_uninit_text P);
    cout ("ERROR::SHADER::" +:+ type +:+ "::COMPILATION_FAILED" +:+ endl
          +:+ c_str infoLog +:+ endl)
  else mret tt.

Definition checkProgramLinkErrors (program : GLuint) : M unit :=
  P ← get_platform;
  success ← glGetProgramiv program GL_LINK_STATUS (plat_uninit_int P);
  if decide (success = 0) then
    infoLog ← glGetProgramInfoLog program 512 (plat_uninit_text P);
    cout ("ERROR::PROGRAM::LINKING_FAILED" +:+ endl +:+ c_str infoLog +:+ endl)
  else mret tt.

(** The constructor. *)
Definition Shader (vertexSource fragmentSource : string) : M t :=
  vertexShader ← glCreateShader GL_VERTEX_SHADER;
  let vertexSrc := c_str vertexSource in
  glShaderSource vertexShader vertexSrc;;
  glCompileShader vertexShader;;
  checkShaderCompileErrors vertexShader "VERTEX";;
  fragmentShader ← glCreateShader GL_FRAGMENT_SHADER;
  let fragmentSrc := c_str fragmentSource in
  glShaderSource fragmentShader fragmentSrc;;
  glCompileShader fragmentShader;;
  checkShaderCompileErrors fragmentShader "FRAGMENT";;
  programID ← glCreateProgram;
  glAttachShader programID vertexShader;;
  glAttachShader programID fragmentShader;;
  glLinkProgram programID;;
  checkProgramLinkErrors programID;;
  glDeleteShader vertexShader;;
  glDeleteShader fragmentShader;;
  mret {| programID := programID |}.

(** The destructor. *)
Definition destructor (this : t) : M unit :=
  glDeleteProgram (programID this).

Definition use (this : t) : M unit :=
  glUseProgram (programID this).

Definition setFloat (this : t) (name : string) (value : float) : M unit :=
  location ← glGetUniformLocation (programID this) (c_str name);
  glUniform1f location value.

Definition setMat4 (this : t) (name : string) (value : mat4) : M unit :=
  location ← glGetUniformLocation (programID this) (c_str name);
  glUniformMatrix4fv location 1 false value.

End Shader.

(** ** Mesh.cpp *)

Module Mesh.

(** [class Mesh]: the three handles and the number of indices. *)
Record t := {
  VAO : GLuint;
  VBO : GLuint;
  EBO : GLuint;
  indexCount : N
}.

Definition setupMesh (this : t) (vertices : list float) (indices : list N) : M t :=
  let indexCount := vector_size indices in
  VAO ← glGenVertexArrays (VAO this);
  VBO ← glGenBuffers (VBO this);
  EBO ← glGenBuffers (EBO this);
  glBindVertexArray VAO;;
  glBindBuffer GL_ARRAY_BUFFER VBO;;
  glBufferData GL_ARRAY_BUFFER (wrap32 (vector_size vertices * sizeof_float))
               (FloatData vertices) GL_STATIC_DRAW;;
  glBindBuffer GL_ELEMENT_ARRAY_BUFFER EBO;;
  glBufferData GL_ELEMENT_ARRAY_BUFFER
               (wrap32 (vector_size indices * sizeof_unsigned_int))
               (UIntData indices) GL_STATIC_DRAW;;
  glVertexAttribPointer 0 3 GL_FLOAT false (wrap32 (3 * sizeof_float)) 0;;
  glEnableVertexAttribArray 0;;
  glBindBuffer GL_ARRAY_BUFFER 0%N;;
  glBindVertexArray 0%N;;
  mret {| VAO := VAO; VBO := VBO; EBO := EBO; indexCount := indexCount |}.

(** The constructor; the members hold nothing before [setupMesh] runs. *)
Definition Mesh (vertices : list float) (indices : list N) : M t :=
  P ← get_platform;
  setupMesh {| VAO := plat_uninit_uint P; VBO := plat_uninit_uint P;
               EBO := plat_uninit_uint P; indexCount := plat_uninit_uint P |}
            vertices indices.

(** The destructor. *)
Definition destructor (this : t) : M unit :=
  glDeleteVertexArrays (VAO this);;
  glDeleteBuffers (VBO this);;
  glDeleteBuffers (EBO this).

Definition draw (this : t) : M unit :=
  glBindVertexArray (VAO this);;
  glDrawElements GL_TRIANGLES (to_GLsizei (indexCount this)) GL_UNSIGNED_INT 0;;
  glBindVertexArray 0%N.

End Mesh.

(** ** main.cpp *)

Definition vertexShaderSource : string := "
        #version 330 core
        layout(location = 0) in vec3 aPos; // Vertex position input

        uniform mat4 mvp; // Rotation angle uniform

        void main() {
            gl_Position = mvp * vec4(aPos, 1.0); // Apply transformation
        }
    ".

Definition fragmentShaderSource : string := "
        #version 330 core
        out vec4 FragColor; // Output fragment color

        void main() {
            FragColor = vec4(1.0, 0.5, 0.2, 1.0); // Set constant color (orange)
        }
    ".

Definition vertices : list float :=
  [ lit_neg_0_5; lit_neg_0_5; lit_0_5;
    lit_0_5; lit_neg_0_5; lit_0_5;
    lit_0_5; lit_0_5; lit_0_5;
    lit_neg_0_5; lit_0_5; lit_0_5;
    lit_neg_0_5; lit_neg_0_5; lit_neg_0_5;
    lit_0_5; lit_neg_0_5; lit_neg_0_5;
    lit_0_5; lit_0_5; lit_neg_0_5;
    lit_neg_0_5; lit_0_5; lit_neg_0_5 ].

Definition indices : list N :=
  [ 0; 1; 2;  2; 3; 0;
    1; 5; 6;  6; 2; 1;
    5; 4; 7;  7; 6; 5;
    4; 0; 3;  3; 7; 4;
    3; 2; 6;  6; 7; 3;
    0; 1; 5;  5; 4; 0 ]%N.

Definition projection : mat4 :=
  perspective (radians lit_60_0) (b32_div lit_800_0 lit_600_0) lit_0_01 lit_100_0.

Definition view : mat4 :=
  lookAt (lit_2_0, lit_2_0, lit_2_0)
         (lit_0_0, lit_0_0, lit_0_0)
         (lit_0_0, lit_1_0, lit_0_0).

Definition moveSpeed : float := lit_0_01.

(** The variables that the main loop updates. *)
Record Locals := {
  running : bool;
  cameraX : float;
  cameraY : float;
  cameraZ : float;
  angle : float;
  model : mat4
}.

Definition initial_locals : Locals :=
  {| running := true; cameraX := lit_0_0; cameraY := lit_0_0;
     cameraZ := lit_neg_5_0; angle := lit_0_0; model := mat4_diag lit_1_0 |}.

(** [while (SDL_PollEvent(&event)) { if (event.type == SDL_QUIT) running = false; }] *)
Fixpoint poll_events (pending : list SDL_Event) (running : bool) : M bool :=
  match pending with
  | [] => SDL_PollEvent None;; mret running
  | event :: rest =>
      SDL_PollEvent (Some event);;
      poll_events rest (if decide (type event = SDL_QUIT) then false else running)
  end.

(** [if (keyboardState[plus]) x += moveSpeed; if (keyboardState[minus]) x -= moveSpeed;] *)
Definition move_axis (keys : KeyboardState) (plus minus : SDL_Scancode)
    (x : float) : float :=
  let x1 := if decide (keys plus ≠ 0%N) then b32_add x moveSpeed else x in
  if decide (keys minus ≠ 0%N) then b32_sub x1 moveSpeed else x1.

(** One iteration of [while (running)]. *)
Definition iteration (win : N) (shader : Shader.t) (cube : Mesh.t)
    (input : FrameInput) (l : Locals) : M Locals :=
  running ← poll_events (events input) (running l);
  let keys := keyboardState input in
  let cameraZ := move_axis keys SDL_SCANCODE_W SDL_SCANCODE_S (cameraZ l) in
  let cameraX := move_axis keys SDL_SCANCODE_D SDL_SCANCODE_A (cameraX l) in
  let cameraY := move_axis keys SDL_SCANCODE_SPACE SDL_SCANCODE_LSHIFT (cameraY l) in
  let model := rotate (mat4_diag lit_1_0) (angle l) (lit_0_0, lit_1_0, lit_0_0) in
  let mvp := mat4_mul (mat4_mul projection view) model in
  glClearColor lit_0_2 lit_0_3 lit_0_3 lit_1_0;;
  glClear (N.lor GL_COLOR_BUFFER_BIT GL_DEPTH_BUFFER_BIT);;
  Shader.use shader;;
  Shader.setMat4 shader "mvp" mvp;;
  Mesh.draw cube;;
  SDL_GL_SwapWindow win;;
  mret {| running := running; cameraX := cameraX; cameraY := cameraY;
          cameraZ := cameraZ; angle := b32_add (angle l) lit_0_0025;
          model := model |}.

(** [while (running) { ... }] over the inputs of the successive iterations.
    The loop stops after the iteration that clears [running]; when the
    inputs run out first, the locals are returned with [running] still
    set. *)
Fixpoint main_loop (win : N) (shader : Shader.t) (cube : Mesh.t)
    (inputs : list FrameInput) (l : Locals) : M Locals :=
  match inputs with
  | [] => mret l
  | input :: rest =>
      if running l then
        l' ← iteration win shader cube input l;
        main_loop win shader cube rest l'
      else mret l
  end.

(** [main]: the exit status, or [None] when the inputs run out while the
    loop is still running.  [argc] and [argv] are not used.  The destructors
    of [cube] and [shader] run when [main] returns, after the statements that
    precede [return 0]. *)
Definition main (inputs : list FrameInput) : M (option Z) :=
  r ← SDL_Init SDL_INIT_VIDEO;
  if r <? 0 then
    e ← SDL_GetError;
    cout ("SDL could not initialize! SDL_Error: " +:+ e +:+ endl);;
    mret (Some 1)
  else
    SDL_GL_SetAttribute SDL_GL_CONTEXT_MAJOR_VERSION 3;;
    SDL_GL_SetAttribute SDL_GL_CONTEXT_MINOR_VERSION 3;;
    SDL_GL_SetAttribute SDL_GL_CONTEXT_PROFILE_MASK SDL_GL_CONTEXT_PROFILE_CORE;;
    win ← SDL_CreateWindow "Voxel Engine" SDL_WINDOWPOS_CENTERED
                           SDL_WINDOWPOS_CENTERED 800 600
                           (N.lor SDL_WINDOW_OPENGL SDL_WINDOW_SHOWN);
    if decide (win = 0%N) then
      e ← SDL_GetError;
      cout ("Window could not be created! SDL_Error: " +:+ e +:+ endl);;
      SDL_Quit;;
      mret (Some 1)
    else
      glContext ← SDL_GL_CreateContext win;
      if decide (glContext = 0%N) then
        e ← SDL_GetError;
        cout ("OpenGL context could not be created! SDL_Error: " +:+ e +:+ endl);;
        SDL_DestroyWindow win;;
        SDL_Quit;;
        mret (Some 1)
      else
        set_glewExperimental true;;
        g ← glewInit;
        if decide (g ≠ GLEW_OK) then
          cout ("GLEW could not initialize!" +:+ endl);;
          SDL_GL_DeleteContext glContext;;
          SDL_DestroyWindow win;;
          SDL_Quit;;
          mret (Some 1)
        else
          glEnable GL_DEPTH_TEST;;
          shader ← Shader.Shader vertexShaderSource fragmentShaderSource;
          cube ← Mesh.Mesh vertices indices;
          SDL_GetKeyboardState;;
          l ← main_loop win shader cube inputs initial_locals;
          if running l then mret None
          else
            SDL_GL_DeleteContext glContext;;
            SDL_DestroyWindow win;;
            SDL_Quit;;
            Mesh.destructor cube;;
            Shader.destructor shader;;
            mret (Some 0).

(** ** Vocabulary of the statements *)

Definition is_quit (e : SDL_Event) : bool := bool_decide (type e = SDL_QUIT).

(** Does the iteration that receives [input] see a quit event. *)
Definition has_quit (input : FrameInput) : bool := existsb is_quit (events input).

(** The number of iterations that [while (running)] executes on [inputs]. *)
Fixpoint iterations (inputs : list FrameInput) (running : bool) : nat :=
  match inputs with
  | [] => O
  | input :: rest =>
      if running then S (iterations rest (negb (has_quit input))) else O
  end.

(** Does the loop end within [inputs]. *)
Definition quits (inputs : list FrameInput) : bool := existsb has_quit inputs.

(** Every iteration but possibly the last one sees no quit event, so that
    the loop executes one iteration for each element of [inputs]. *)
Definition all_executed (inputs : list FrameInput) : Prop :=
  ∀ i input, inputs !! i = Some input → (S i < length inputs)%nat →
             has_quit input = false.

(** A step of the initialisation chain fails. *)
Definition init_fails (P : Platform) : Prop :=
  plat_SDL_Init P < 0 ∨ plat_SDL_CreateWindow P = 0%N ∨
  plat_SDL_GL_CreateContext P = 0%N ∨ plat_glewInit P ≠ GLEW_OK.

#[global] Instance init_fails_dec P : Decision (init_fails P).
Proof. unfold init_fails. apply _. Defined.

(** The calls that mark the life of the application: initialisation, one
    draw and one present per iteration, teardown. *)
Definition is_milestone (c : Call) : bool :=
  match c with
  | Call_SDL_Init _ _ | Call_SDL_CreateWindow _ _ _ _ _ _ _
  | Call_SDL_GL_CreateContext _ _ | Call_glewInit _
  | Call_glDrawElements _ _ _ _ | Call_SDL_GL_SwapWindow _
  | Call_SDL_GL_DeleteContext _ | Call_SDL_DestroyWindow _
  | Call_SDL_Quit => true
  | _ => false
  end.

(** [sub] occurs in [s]. *)
Definition contains (sub s : string) : Prop :=
  ∃ pre post, s = pre +:+ sub +:+ post.

(** The shader object of a stage once its source is set and compiled. *)
Definition compiled_stage (P : Platform) (t : ShaderType) (source : string)
    : ShaderObject :=
  GL.set_compiled (plat_compile P t (c_str source))
    (GL.set_source (c_str source) (new_shader t)).

(** The diagnostics of [Shader.cpp]. *)
Definition compile_diagnostic (stage log : string) : string :=
  "ERROR::SHADER::" +:+ stage +:+ "::COMPILATION_FAILED" +:+ endl
  +:+ c_str (GL.truncate_log 512 log) +:+ endl.

Definition link_diagnostic (log : string) : string :=
  "ERROR::PROGRAM::LINKING_FAILED" +:+ endl
  +:+ c_str (GL.truncate_log 512 log) +:+ endl.

(** *** Sample platforms and inputs *)

#[global] Instance SDL_Scancode_eq_dec : EqDecision SDL_Scancode.
Proof. solve_decision. Defined.

(** The keyboard with exactly the keys of [held] down. *)
Definition holding (held : list SDL_Scancode) : KeyboardState :=
  λ k, if decide (k ∈ held) then 1%N else 0%N.

Definition frame_holding (held : list SDL_Scancode) : FrameInput :=
  {| events := []; keyboardState := holding held |}.

Definition quit_frame : FrameInput :=
  {| events := [ {| type := SDL_QUIT |} ]; keyboardState := holding [] |}.

(** A platform on which everything succeeds; the linked program has the
    uniform [mvp]. *)
Definition sample_platform : Platform :=
  {| plat_SDL_Init := 0; plat_SDL_CreateWindow := 1;
     plat_SDL_GL_CreateContext := 2; plat_glewInit := GLEW_OK;
     plat_SDL_GetError := EmptyString;
     plat_compile := λ _ _, (true, EmptyString);
     plat_link := λ _, (true, EmptyString, [("mvp", U_mat4)]);
     plat_uninit_int := 0; plat_uninit_uint := 0; plat_uninit_text := EmptyString |}.

(** [n] copies of the character [c]. *)
Fixpoint pad (n : nat) (c : Ascii.ascii) : string :=
  match n with O => EmptyString | S n' => String c (pad n' c) end.

(** A platform whose GLSL compiler rejects every source, with an
    information log of [n] characters. *)
Definition rejecting_platform (n : nat) : Platform :=
  {| plat_SDL_Init := 0; plat_SDL_CreateWindow := 1;
     plat_SDL_GL_CreateContext := 2; plat_glewInit := GLEW_OK;
     plat_SDL_GetError := EmptyString;
     plat_compile := λ _ _, (false, pad n (Ascii.ascii_of_nat 101));
     plat_link := λ _, (false, "link", []);
     plat_uninit_int := 0; plat_uninit_uint := 0; plat_uninit_text := EmptyString |}.

(** A platform whose GLSL compiler accepts every source and whose linker
    rejects every program. *)
Definition unlinkable_platform : Platform :=
  {| plat_SDL_Init := 0; plat_SDL_CreateWindow := 1;
     plat_SDL_GL_CreateContext := 2; plat_glewInit := GLEW_OK;
     plat_SDL_GetError := EmptyString;
     plat_compile := λ _ _, (true, EmptyString);
     plat_link := λ _, (false, "stages do not match", []);
     plat_uninit_int := 0; plat_uninit_uint := 0; plat_uninit_text := EmptyString |}.

(** Platforms on which one step of the initialisation chain fails. *)
Definition failing_platform (init : Z) (win ctx glew : N) : Platform :=
  {| plat_SDL_Init := init; plat_SDL_CreateWindow := win;
     plat_SDL_GL_CreateContext := ctx; plat_glewInit := glew;
     plat_SDL_GetError := "no display";
     plat_compile := λ _ _, (true, EmptyString);
     plat_link := λ _, (true, EmptyString, [("mvp", U_mat4)]);
     plat_uninit_int := 0; plat_uninit_uint := 0; plat_uninit_text := EmptyString |}.

(** The world in which the main loop starts: [main] run with no input
    returns as soon as the loop is reached. *)
Definition loop_entry (P : Platform) : World := (main [] (initial_world P)).2.

(** A world with a fresh OpenGL context and nothing else. *)
Definition context_world (P : Platform) : World :=
  {| platform := P; sdl_initialized := true; window := Some 1%N;
     gl_context := Some 2%N; device := Some new_device; console := [];
     calls := [] |}.

(** The three objects that the constructor leaves in the context. *)
Definition Mesh_vertex_array (vbo ebo : GLuint) : VertexArrayObject :=
  GL.enable_attrib 0
    (GL.set_attrib 0
       {| ap_size := 3; ap_type := GL_FLOAT; ap_normalized := false;
          ap_stride := 12; ap_offset := 0; ap_buffer := vbo |}
       (GL.set_element_buffer ebo new_vertex_array)).

Definition Mesh_vertex_buffer (vs : list float) : BufferObject :=
  {| buf_size := wrap32 (vector_size vs * sizeof_float);
     buf_usage := Some GL_STATIC_DRAW; buf_data := FloatData vs |}.

Definition Mesh_index_buffer (ixs : list N) : BufferObject :=
  {| buf_size := wrap32 (vector_size ixs * sizeof_unsigned_int);
     buf_usage := Some GL_STATIC_DRAW; buf_data := UIntData ixs |}.

(** The calls of the constructor and of the destructor. *)
Definition setupMesh_calls (vs : list float) (ixs : list N) (vao vbo ebo : GLuint)
    : list Call :=
  [ Call_glGenVertexArrays 1 vao;
    Call_glGenBuffers 1 vbo;
    Call_glGenBuffers 1 ebo;
    Call_glBindVertexArray vao;
    Call_glBindBuffer GL_ARRAY_BUFFER vbo;
    Call_glBufferData GL_ARRAY_BUFFER (wrap32 (vector_size vs * sizeof_float))
                      (FloatData vs) GL_STATIC_DRAW;
    Call_glBindBuffer GL_ELEMENT_ARRAY_BUFFER ebo;
    Call_glBufferData GL_ELEMENT_ARRAY_BUFFER
                      (wrap32 (vector_size ixs * sizeof_unsigned_int))
                      (UIntData ixs) GL_STATIC_DRAW;
    Call_glVertexAttribPointer 0 3 GL_FLOAT false (wrap32 (3 * sizeof_float)) 0;
    Call_glEnableVertexAttribArray 0;
    Call_glBindBuffer GL_ARRAY_BUFFER 0%N;
    Call_glBindVertexArray 0%N ].

Definition Mesh_destructor_calls (vao vbo ebo : GLuint) : list Call :=
  [ Call_glDeleteVertexArrays 1 vao;
    Call_glDeleteBuffers 1 vbo;
    Call_glDeleteBuffers 1 ebo ].

(** [runs m w a w']: from the world [w], [m] returns [a] and leaves [w']. *)
Definition runs {A} (m : M A) (w : World) (a : A) (w' : World) : Prop :=
  m w = (a, w').

(** The program object that the constructor of [Shader] leaves: both stages
    attached, linked when both compiled and the platform's linker agrees. *)
Definition linked_program (P : Platform) (vs fs : string) (s1 s2 : GLuint)
    : ProgramObject :=
  let stageV := compiled_stage P GL_VERTEX_SHADER vs in
  let stageF := compiled_stage P GL_FRAGMENT_SHADER fs in
  GL.set_linked
    (sh_compiled stageV && (sh_compiled stageF && true)
       && (plat_link P [stageV; stageF]).1.1,
     (plat_link P [stageV; stageF]).1.2,
     (plat_link P [stageV; stageF]).2)
    (GL.attach s2 (GL.attach s1 new_program)).

(** The calls of [checkShaderCompileErrors] and [checkProgramLinkErrors]. *)
Definition compile_check_calls (s : GLuint) (o : ShaderObject) : list Call :=
  Call_glGetShaderiv s GL_COMPILE_STATUS (if sh_compiled o then 1 else 0)
  :: (if sh_compiled o then []
      else [Call_glGetShaderInfoLog s 512 (GL.truncate_log 512 (sh_log o))]).

Definition link_check_calls (p : GLuint) (o : ProgramObject) : list Call :=
  Call_glGetProgramiv p GL_LINK_STATUS (if pr_linked o then 1 else 0)
  :: (if pr_linked o then []
      else [Call_glGetProgramInfoLog p 512 (GL.truncate_log 512 (pr_log o))]).

(** The calls of the constructor of [Shader]. *)
Definition Shader_calls (P : Platform) (vs fs : string) (s1 s2 p : GLuint)
    : list Call :=
  [ Call_glCreateShader GL_VERTEX_SHADER s1;
    Call_glShaderSource s1 (c_str vs);
    Call_glCompileShader s1 ]
  ++ compile_check_calls s1 (compiled_stage P GL_VERTEX_SHADER vs)
  ++ [ Call_glCreateShader GL_FRAGMENT_SHADER s2;
       Call_glShaderSource s2 (c_str fs);
       Call_glCompileShader s2 ]
  ++ compile_check_calls s2 (compiled_stage P GL_FRAGMENT_SHADER fs)
  ++ [ Call_glCreateProgram p;
       Call_glAttachShader p s1;
       Call_glAttachShader p s2;
       Call_glLinkProgram p ]
  ++ link_check_calls p (linked_program P vs fs s1 s2)
  ++ [ Call_glDeleteShader s1; Call_glDeleteShader s2 ].

(** What the constructor of [Shader] writes to the console: a diagnostic
    for each stage that did not compile and one when the program did not
    link. *)
Definition Shader_output (P : Platform) (vs fs : string) : list string :=
  let stageV := compiled_stage P GL_VERTEX_SHADER vs in
  let stageF := compiled_stage P GL_FRAGMENT_SHADER fs in
  let link := plat_link P [stageV; stageF] in
  (if sh_compiled stageV then []
   else [compile_diagnostic "VERTEX" (sh_log stageV)])
  ++ (if sh_compiled stageF then []
      else [compile_diagnostic "FRAGMENT" (sh_log stageF)])
  ++ (if sh_compiled stageV && (sh_compiled stageF && true) && link.1.1
      then [] else [link_diagnostic link.1.2]).

(** The calls of one iteration of the main loop, in order: the polls that
    drain the event queue, the clear of the colour and depth targets, the
    activation of the shader, the lookup and upload of the one uniform (the
    product of projection, view and the rotation by [angle] about the
    vertical axis), the draw, the present. *)
Definition iteration_calls (win : N) (shader : Shader.t) (cube : Mesh.t)
    (input : FrameInput) (angle : float) (location : GLint) : list Call :=
  map (λ e, Call_SDL_PollEvent (Some e)) (events input)
  ++ [ Call_SDL_PollEvent None;
       Call_glClearColor lit_0_2 lit_0_3 lit_0_3 lit_1_0;
       Call_glClear (N.lor GL_COLOR_BUFFER_BIT GL_DEPTH_BUFFER_BIT);
       Call_glUseProgram (Shader.programID shader);
       Call_glGetUniformLocation (Shader.programID shader) "mvp" location;
       Call_glUniformMatrix4fv location 1 false
         (mat4_mul (mat4_mul projection view)
            (rotate (mat4_diag lit_1_0) angle (lit_0_0, lit_1_0, lit_0_0)));
       Call_glBindVertexArray (Mesh.VAO cube);
       Call_glDrawElements GL_TRIANGLES (to_GLsizei (Mesh.indexCount cube))
                           GL_UNSIGNED_INT 0;
       Call_glBindVertexArray 0%N;
       Call_SDL_GL_SwapWindow win ].

(** The locals after one iteration. *)
Definition iteration_locals (input : FrameInput) (l : Locals) : Locals :=
  let keys := keyboardState input in
  {| running := running l && negb (has_quit input);
     cameraX := move_axis keys SDL_SCANCODE_D SDL_SCANCODE_A (cameraX l);
     cameraY := move_axis keys SDL_SCANCODE_SPACE SDL_SCANCODE_LSHIFT (cameraY l);
     cameraZ := move_axis keys SDL_SCANCODE_W SDL_SCANCODE_S (cameraZ l);
     angle := b32_add (angle l) lit_0_0025;
     model := rotate (mat4_diag lit_1_0) (angle l) (lit_0_0, lit_1_0, lit_0_0) |}.

(** [w'] is [w] after the calls [delta], none of which touched the window,
    the context handle or the windowing subsystem. *)
Definition extends (w w' : World) (delta : list Call) : Prop :=
  platform w' = platform w ∧ sdl_initialized w' = sdl_initialized w
  ∧ window w' = window w ∧ gl_context w' = gl_context w
  ∧ (is_Some (device w') ↔ is_Some (device w))
  ∧ calls w' = calls w ++ delta.

(** The exact difference [b - a] of two finite numbers, in units of 2^-149. *)
Definition b32_exact_advance (a b : float) : option Z :=
  match b32_units a, b32_units b with
  | Some x, Some y => Some (y - x)
  | _, _ => None
  end.

(** The handles of [main] on the sample platform. *)
Definition sample_window : N := 1%N.
Definition sample_shader : Shader.t := {| Shader.programID := 3%N |}.
Definition sample_cube : Mesh.t :=
  {| Mesh.VAO := 1%N; Mesh.VBO := 1%N; Mesh.EBO := 2%N; Mesh.indexCount := 36%N |}.

(** [steps m w a w' delta]: from [w], [m] returns [a] and leaves [w'], which
    is [w] after the calls [delta], with nothing written to the console. *)
Definition steps {A} (m : M A) (w : World) (a : A) (w' : World)
    (delta : list Call) : Prop :=
  runs m w a w' ∧ extends w w' delta ∧ console w' = console w.

(** The locals after [while (running)] on [inputs]. *)
Fixpoint loop_locals (inputs : list FrameInput) (l : Locals) : Locals :=
  match inputs with
  | [] => l
  | input :: rest =>
      if running l then loop_locals rest (iteration_locals input l) else l
  end.

(** The milestones of one iteration: its draw and its present. *)
Definition iteration_milestones (win : N) (cube : Mesh.t) : list Call :=
  [ Call_glDrawElements GL_TRIANGLES (to_GLsizei (Mesh.indexCount cube))
                        GL_UNSIGNED_INT 0;
    Call_SDL_GL_SwapWindow win ].

(** A program is quiet when, from any world, it only adds calls that are not
    milestones and leaves the window, the context handle and the windowing
    subsystem alone. *)
Definition quiet {A} (m : M A) : Prop :=
  ∀ w, ∃ delta, extends w (m w).2 delta ∧ filter is_milestone delta = [].

(** The milestones of the initialisation chain when it succeeds. *)
Definition startup_milestones (P : Platform) : list Call :=
  [ Call_SDL_Init SDL_INIT_VIDEO (plat_SDL_Init P);
    Call_SDL_CreateWindow "Voxel Engine" SDL_WINDOWPOS_CENTERED
      SDL_WINDOWPOS_CENTERED 800 600
      (N.lor SDL_WINDOW_OPENGL SDL_WINDOW_SHOWN) (plat_SDL_CreateWindow P);
    Call_SDL_GL_CreateContext (plat_SDL_CreateWindow P)
      (plat_SDL_GL_CreateContext P);
    Call_glewInit (plat_glewInit P) ].

(** The calls of the teardown. *)
Definition teardown_calls (P : Platform) : list Call :=
  [ Call_SDL_GL_DeleteContext (plat_SDL_GL_CreateContext P);
    Call_SDL_DestroyWindow (plat_SDL_CreateWindow P);
    Call_SDL_Quit ].

(** What [main] does when a step of the initialisation chain fails: the one
    line it prints and the calls it issues, the failed step followed by the
    release of what the earlier steps acquired. *)
Definition init_failure (P : Platform) : string * list Call :=
  let e := plat_SDL_GetError P in
  let win := plat_SDL_CreateWindow P in
  let ctx := plat_SDL_GL_CreateContext P in
  let init := Call_SDL_Init SDL_INIT_VIDEO (plat_SDL_Init P) in
  let attrs :=
    [ Call_SDL_GL_SetAttribute SDL_GL_CONTEXT_MAJOR_VERSION 3;
      Call_SDL_GL_SetAttribute SDL_GL_CONTEXT_MINOR_VERSION 3;
      Call_SDL_GL_SetAttribute SDL_GL_CONTEXT_PROFILE_MASK
                               SDL_GL_CONTEXT_PROFILE_CORE;
      Call_SDL_CreateWindow "Voxel Engine" SDL_WINDOWPOS_CENTERED
        SDL_WINDOWPOS_CENTERED 800 600
        (N.lor SDL_WINDOW_OPENGL SDL_WINDOW_SHOWN) win ] in
  if plat_SDL_Init P <? 0 then
    ("SDL could not initialize! SDL_Error: " +:+ e +:+ endl,
     [init; Call_SDL_GetError e])
  else if decide (win = 0%N) then
    ("Window could not be created! SDL_Error: " +:+ e +:+ endl,
     init :: attrs ++ [Call_SDL_GetError e; Call_SDL_Quit])
  else if decide (ctx = 0%N) then
    ("OpenGL context could not be created! SDL_Error: " +:+ e +:+ endl,
     init :: attrs ++
       [ Call_SDL_GL_CreateContext win ctx; Call_SDL_GetError e;
         Call_SDL_DestroyWindow win; Call_SDL_Quit ])
  else
    ("GLEW could not initialize!" +:+ endl,
     init :: attrs ++
       [ Call_SDL_GL_CreateContext win ctx; Store_glewExperimental true;
         Call_glewInit (plat_glewInit P);
         Call_SDL_GL_DeleteContext ctx; Call_SDL_DestroyWindow win;
         Call_SDL_Quit ]).

(** *** The order of the angles *)

(** The comparisons [<=] and [<] of C on [float]. *)
Definition b32_leb : float -> float -> bool := SFleb.
Definition b32_ltb : float -> float -> bool := SFltb.

(** 65536.0f.  From here on, adding 0.0025f returns the same number: the
    increment is less than half the distance to the next [float]. *)
Definition angle_limit : float := S754_finite false 8388608 (-7).

(** The values among which the angle stays: +0 and the normal numbers from
    2^-9 to 65536. *)
Definition angle_range (a : float) : bool :=
  match a with
  | S754_zero false => true
  | S754_finite false m e =>
      (Z.pos (digits2_pos m) =? 24) && (-32 <=? e) && b32_leb a angle_limit
  | _ => false
  end.

(** A number for each of these values, in their order. *)
Definition angle_rank (a : float) : Z :=
  match a with
  | S754_finite false m e => (e + 33) * 16777216 + Z.pos m
  | _ => 0
  end.

(** [mrs] is what is left of [p] after [k] of its binary digits have been
    shifted out: [p] is the mantissa times 2^k, plus half of 2^k when the
    round bit is set, plus a rest that is not zero exactly when the sticky bit
    is set (all doubled, so that the half is a whole number). *)
Definition shifted (p k : Z) (mrs : shr_record) : Prop :=
  ∃ t, 0 <= shr_m mrs ∧ 0 <= t < 2 ^ k
       ∧ 2 * p = shr_m mrs * 2 ^ (k + 1) + (if shr_r mrs then 2 ^ k else 0) + t
       ∧ (shr_s mrs = true ↔ 0 < t).
(** *** Vocabulary of the further properties *)

(** The names that the state of a context mentions are in use: the program
    in use is one of its programs, and a shader attached to a program is one
    of its shaders. *)
Definition consistent (d : Device) : Prop :=
  (current_program d = 0%N ∨ is_Some (programs d !! current_program d))
  ∧ ∀ p o s, programs d !! p = Some o → s ∈ pr_attached o →
             is_Some (shaders d !! s).

(** Does the program that the constructor of [Shader] builds from the two
    sources link: both stages compile and the platform's linker accepts
    them. *)
Definition links (P : Platform) (vs fs : string) : bool :=
  let stageV := compiled_stage P GL_VERTEX_SHADER vs in
  let stageF := compiled_stage P GL_FRAGMENT_SHADER fs in
  sh_compiled stageV && sh_compiled stageF
  && (plat_link P [stageV; stageF]).1.1.

(** The active uniforms that the platform's linker reports for the two
    sources. *)
Definition linked_uniforms (P : Platform) (vs fs : string)
    : list (string * UniformType) :=
  (plat_link P [compiled_stage P GL_VERTEX_SHADER vs;
                compiled_stage P GL_FRAGMENT_SHADER fs]).2.

(** The type of the first uniform called [name]. *)
Fixpoint uniform_type (name : string) (us : list (string * UniformType))
    : option UniformType :=
  match us with
  | [] => None
  | (n, t) :: us' => if decide (n = name) then Some t else uniform_type name us'
  end.

(** The calls of [main] before the loop when the initialisation chain
    succeeds, [s1], [s2], [p] being the names of the two shaders and of the
    program, [vao], [vbo], [ebo] those of the vertex array and of the two
    buffers. *)
Definition startup_calls (P : Platform) (s1 s2 p vao vbo ebo : GLuint)
    : list Call :=
  [ Call_SDL_Init SDL_INIT_VIDEO (plat_SDL_Init P);
    Call_SDL_GL_SetAttribute SDL_GL_CONTEXT_MAJOR_VERSION 3;
    Call_SDL_GL_SetAttribute SDL_GL_CONTEXT_MINOR_VERSION 3;
    Call_SDL_GL_SetAttribute SDL_GL_CONTEXT_PROFILE_MASK
                             SDL_GL_CONTEXT_PROFILE_CORE;
    Call_SDL_CreateWindow "Voxel Engine" SDL_WINDOWPOS_CENTERED
      SDL_WINDOWPOS_CENTERED 800 600
      (N.lor SDL_WINDOW_OPENGL SDL_WINDOW_SHOWN) (plat_SDL_CreateWindow P);
    Call_SDL_GL_CreateContext (plat_SDL_CreateWindow P)
      (plat_SDL_GL_CreateContext P);
    Store_glewExperimental true;
    Call_glewInit (plat_glewInit P);
    Call_glEnable GL_DEPTH_TEST ]
  ++ Shader_calls P vertexShaderSource fragmentShaderSource s1 s2 p
  ++ setupMesh_calls vertices indices vao vbo ebo
  ++ [ Call_SDL_GetKeyboardState ].

(** The state of the context when the loop is entered. *)
Definition entry_device (P : Platform) (s1 s2 p vao vbo ebo : GLuint) : Device :=
  {| vertex_arrays := <[vao := Mesh_vertex_array vbo ebo]> ∅;
     buffers := <[ebo := Mesh_index_buffer indices]>
                  (<[vbo := Mesh_vertex_buffer vertices]> ∅);
     shaders :=
       <[s2 := GL.flag_shader
                 (compiled_stage P GL_FRAGMENT_SHADER fragmentShaderSource)]>
         (<[s1 := GL.flag_shader
                    (compiled_stage P GL_VERTEX_SHADER vertexShaderSource)]> ∅);
     programs :=
       <[p := linked_program P vertexShaderSource fragmentShaderSource s1 s2]> ∅;
     vertex_array_binding := 0%N; array_buffer_binding := 0%N;
     current_program := 0%N; depth_test := true;
     clear_color := (lit_0_0, lit_0_0, lit_0_0, lit_0_0);
     gl_error := None |}.

(** The world when the loop is entered. *)
Definition entry_world (P : Platform) (s1 s2 p vao vbo ebo : GLuint) : World :=
  {| platform := P; sdl_initialized := true;
     window := Some (plat_SDL_CreateWindow P);
     gl_context := Some (plat_SDL_GL_CreateContext P);
     device := Some (entry_device P s1 s2 p vao vbo ebo);
     console := Shader_output P vertexShaderSource fragmentShaderSource;
     calls := startup_calls P s1 s2 p vao vbo ebo |}.

(** The world when [main] has returned 0 from the world [w] that the loop
    left. *)
Definition exit_world (w : World) (p vao vbo ebo : GLuint) : World :=
  {| platform := platform w; sdl_initialized := false; window := None;
     gl_context := None; device := None; console := console w;
     calls := calls w ++ teardown_calls (platform w)
                      ++ Mesh_destructor_calls vao vbo ebo
                      ++ [Call_glDeleteProgram p] |}.

(** The matrix uploaded by the iteration that starts with [angle]. *)
Definition frame_mvp (angle : float) : mat4 :=
  mat4_mul (mat4_mul projection view)
           (rotate (mat4_diag lit_1_0) angle (lit_0_0, lit_1_0, lit_0_0)).

(** What the OpenGL calls of one iteration do to the state of the context:
    the location found for [mvp] and the state after the last call. *)
Definition frame_device (shader : Shader.t) (cube : Mesh.t) (angle : float)
    (d : Device) : GLint * Device :=
  let d1 := GL.Clear (N.lor GL_COLOR_BUFFER_BIT GL_DEPTH_BUFFER_BIT)
              (GL.ClearColor lit_0_2 lit_0_3 lit_0_3 lit_1_0 d) in
  let d2 := GL.UseProgram (Shader.programID shader) d1 in
  let r := GL.GetUniformLocation (Shader.programID shader) "mvp" d2 in
  let d3 := GL.UniformMatrix4fv r.1 1 false (frame_mvp angle) r.2 in
  (r.1,
   GL.BindVertexArray 0%N
     (GL.DrawElements GL_TRIANGLES (to_GLsizei (Mesh.indexCount cube))
        GL_UNSIGNED_INT 0 (GL.BindVertexArray (Mesh.VAO cube) d3))).

(** A state in which the frames of [main] are accepted: the program [p] is
    linked and is the one in use, unless none is; it has the [mat4] uniform
    [mvp] at the location [idx]; the vertex array [vao] exists and nothing
    is bound. *)
Definition ready (p vao : GLuint) (idx : nat) (d : Device) : Prop :=
  p ≠ 0%N ∧ vao ≠ 0%N
  ∧ (current_program d = p ∨ current_program d = 0%N)
  ∧ programs d !! 0%N = None
  ∧ is_Some (vertex_arrays d !! vao)
  ∧ ∃ o, programs d !! p = Some o ∧ pr_linked o = true
         ∧ GL.uniform_index "mvp" (pr_uniforms o) = Some idx
         ∧ pr_uniforms o !! idx = Some ("mvp", U_mat4).

(** The state of the context after [while (running)] on [inputs]. *)
Fixpoint loop_device (shader : Shader.t) (cube : Mesh.t)
    (inputs : list FrameInput) (l : Locals) (d : Device) : Device :=
  match inputs with
  | [] => d
  | input :: rest =>
      if running l
      then loop_device shader cube rest (iteration_locals input l)
                       (frame_device shader cube (angle l) d).2
      else d
  end.

(** No program of the context is flagged for deletion. *)
Definition no_pending (d : Device) : Prop :=
  ∀ p o, programs d !! p = Some o → pr_delete_pending o = false.

(** [d'] has the objects of [d]: the same vertex arrays, buffers and
    shaders, and programs of the same names. *)
Definition same_objects (d d' : Device) : Prop :=
  vertex_arrays d' = vertex_arrays d ∧ buffers d' = buffers d
  ∧ shaders d' = shaders d ∧ dom (programs d') = dom (programs d).


(** The clear colour of the frames. *)
Definition frame_colour : float * float * float * float :=
  (lit_0_2, lit_0_3, lit_0_3, lit_1_0).

(** The angle with which the [n]-th iteration starts, counting from 0. *)
Definition frame_angle (n : nat) : float :=
  Nat.iter n (λ x, b32_add x lit_0_0025) lit_0_0.

(** An input with no event and no key held. *)
Definition idle_frame : FrameInput := frame_holding [].

(** * Properties *)

(** ** Running a program step by step *)

Lemma runs_bind {A B} (m : M A) (k : A → M B) w a w1 b w2 :
  runs m w a w1 → runs (k a) w1 b w2 → runs (m ≫= k) w b w2.
Proof. unfold runs, mbind, M_bind. intros -> H. exact H. Qed.

Lemma runs_ret {A} (a : A) w : runs (mret a) w a w.
Proof. reflexivity. Qed.

Lemma runs_self {A} (m : M A) w : runs m w (m w).1 (m w).2.
Proof. unfold runs. by destruct (m w). Qed.

Lemma runs_eq {A} (m : M A) w a w' : runs m w a w' → m w = (a, w').
Proof. done. Qed.

Lemma bind_eq {A B} (m : M A) (k : A → M B) w :
  (m ≫= k) w = k (m w).1 (m w).2.
Proof. reflexivity. Qed.

(** Follow the binds of a straight-line program without opening the calls. *)
Ltac run_through :=
  repeat (eapply runs_bind; [apply runs_self|]; cbv beta); apply runs_ret.

(** ** One OpenGL call *)

Lemma gl_query_calls {A} (c : A → Call) f old w :
  calls (gl_query c f old w).2 = calls w ++ [c (gl_query c f old w).1].
Proof. unfold gl_query. destruct (device w); reflexivity. Qed.

Lemma gl_command_calls c f w : calls (gl_command c f w).2 = calls w ++ [c].
Proof. unfold gl_command. by rewrite gl_query_calls. Qed.

Lemma gl_command_device c f w :
  device (gl_command c f w).2 = f <$> device w.
Proof.
  unfold gl_command, gl_query.
  destruct (device w) eqn:E; cbn; rewrite ?E; reflexivity.
Qed.

Lemma gl_command_console c f w : console (gl_command c f w).2 = console w.
Proof. unfold gl_command, gl_query. destruct (device w); reflexivity. Qed.

Lemma gl_query_console {A} (c : A → Call) f old w :
  console (gl_query c f old w).2 = console w.
Proof. unfold gl_query. destruct (device w); reflexivity. Qed.

(** With a current context, a call acts on the state of the context. *)
Lemma runs_gl_query {A} (c : A → Call) f old P i wi ctx d con cs a d' :
  f d = (a, d') →
  runs (gl_query c f old) (Build_World P i wi ctx (Some d) con cs)
       a (Build_World P i wi ctx (Some d') con (cs ++ [c a])).
Proof. intros E. unfold runs, gl_query. cbn. by rewrite E. Qed.

Lemma runs_gl_command c f P i wi ctx d con cs d' :
  f d = d' →
  runs (gl_command c f) (Build_World P i wi ctx (Some d) con cs)
       tt (Build_World P i wi ctx (Some d') con (cs ++ [c])).
Proof. by intros <-. Qed.

(** With none, it is recorded and nothing else happens. *)
Lemma runs_gl_query_stray {A} (c : A → Call) f old P i wi ctx con cs :
  runs (gl_query c f old) (Build_World P i wi ctx None con cs)
       old (Build_World P i wi ctx None con (cs ++ [c old])).
Proof. reflexivity. Qed.

Lemma runs_gl_command_stray c f P i wi ctx con cs :
  runs (gl_command c f) (Build_World P i wi ctx None con cs)
       tt (Build_World P i wi ctx None con (cs ++ [c])).
Proof. reflexivity. Qed.

Lemma runs_get_platform P i wi ctx d con cs :
  runs get_platform (Build_World P i wi ctx d con cs)
       P (Build_World P i wi ctx d con cs).
Proof. reflexivity. Qed.

Lemma runs_cout text P i wi ctx d con cs :
  runs (cout text) (Build_World P i wi ctx d con cs)
       tt (Build_World P i wi ctx d (con ++ [text]) cs).
Proof. reflexivity. Qed.

(** One step of a program whose next call is [m]. *)
Ltac step_with tac :=
  eapply runs_bind; [tac|]; cbv beta.
Ltac step_platform := step_with ltac:(apply runs_get_platform).
Ltac step_command tac :=
  step_with ltac:(eapply runs_gl_command; tac).
Ltac step_query tac :=
  step_with ltac:(eapply runs_gl_query; tac).

(** ** Checks of the model on concrete values *)

Example literals_are_binary32 :
  forallb (valid_binary b32_prec b32_emax)
    [ lit_0_0; lit_1_0; lit_2_0; lit_0_5; lit_neg_0_5; lit_neg_5_0; lit_0_01;
      lit_0_0025; lit_0_2; lit_0_3; lit_60_0; lit_100_0; lit_600_0; lit_800_0;
      lit_pi_over_180 ] = true.
Proof. reflexivity. Qed.

Example b32_add_rounds :
  b32_add (S754_finite false 10737418 (-28)) lit_0_01
  = S754_finite false 13421772 (-28).
Proof. reflexivity. Qed.

Example b32_of_Z_examples :
  b32_of_Z 800 = lit_800_0 ∧ b32_of_Z 600 = lit_600_0 ∧ b32_of_Z 60 = lit_60_0
  ∧ b32_of_Z 65536 = angle_limit.
Proof. by vm_compute. Qed.

Example move_axis_examples :
  move_axis (holding [SDL_SCANCODE_D]) SDL_SCANCODE_D SDL_SCANCODE_A lit_0_0
  = lit_0_01
  ∧ move_axis (holding [SDL_SCANCODE_A]) SDL_SCANCODE_D SDL_SCANCODE_A lit_0_0
    = S754_finite true 10737418 (-30)
  ∧ move_axis (holding []) SDL_SCANCODE_D SDL_SCANCODE_A lit_neg_5_0
    = lit_neg_5_0.
Proof. by vm_compute. Qed.

(** The handles that [main] obtains on the sample platform. *)
Example sample_handles :
  let w := loop_entry sample_platform in
  window w = Some sample_window
  ∧ In (Call_glCreateProgram (Shader.programID sample_shader)) (calls w)
  ∧ In (Call_glGenVertexArrays 1 (Mesh.VAO sample_cube)) (calls w)
  ∧ In (Call_glGenBuffers 1 (Mesh.VBO sample_cube)) (calls w)
  ∧ In (Call_glGenBuffers 1 (Mesh.EBO sample_cube)) (calls w)
  ∧ (Mesh.Mesh vertices indices (context_world sample_platform)).1
    = {| Mesh.VAO := 1%N; Mesh.VBO := 1%N; Mesh.EBO := 2%N;
         Mesh.indexCount := 36%N |}.
Proof. vm_compute. split_and!; try reflexivity; tauto. Qed.

(** With no input at all, [main] is left in its loop. *)
Example main_without_input :
  (main [] (initial_world sample_platform)).1 = None.
Proof. reflexivity. Qed.

(** The run of [main] on the sample platform when the first iteration finds
    a quit event: the calls from the first poll on. *)
Example main_quit_trace :
  let r := main [quit_frame] (initial_world sample_platform) in
  r.1 = Some 0
  ∧ drop (length (calls (loop_entry sample_platform))) (calls r.2)
    = [ Call_SDL_PollEvent (Some {| type := SDL_QUIT |});
        Call_SDL_PollEvent None;
        Call_glClearColor lit_0_2 lit_0_3 lit_0_3 lit_1_0;
        Call_glClear 0x4100;
        Call_glUseProgram 3%N;
        Call_glGetUniformLocation 3%N "mvp" 0;
        Call_glUniformMatrix4fv 0 1 false
          (mat4_mul (mat4_mul projection view)
             (rotate (mat4_diag lit_1_0) lit_0_0 (lit_0_0, lit_1_0, lit_0_0)));
        Call_glBindVertexArray 1%N;
        Call_glDrawElements GL_TRIANGLES 36 GL_UNSIGNED_INT 0;
        Call_glBindVertexArray 0%N;
        Call_SDL_GL_SwapWindow 1%N;
        Call_SDL_GL_DeleteContext 2%N;
        Call_SDL_DestroyWindow 1%N;
        Call_SDL_Quit;
        Call_glDeleteVertexArrays 1 1%N;
        Call_glDeleteBuffers 1 1%N;
        Call_glDeleteBuffers 1 2%N;
        Call_glDeleteProgram 3%N ].
Proof. by vm_compute. Qed.

(** After two iterations on the sample platform the context has recorded no
    error, the program of the shader is current and its uniform holds the
    matrix uploaded last. *)
Example sample_run_is_accepted :
  let w := (main [frame_holding []; frame_holding []]
                 (initial_world sample_platform)).2 in
  let d := default new_device (device w) in
  gl_error d = None
  ∧ current_program d = 3%N
  ∧ vertex_array_binding d = 0%N
  ∧ depth_test d = true
  ∧ (programs d !! 3%N) ≫= (λ o, pr_values o !! 0%N)
    = Some (UMat4 (mat4_mul (mat4_mul projection view)
                     (rotate (mat4_diag lit_1_0) lit_0_0025
                             (lit_0_0, lit_1_0, lit_0_0)))).
Proof. by vm_compute. Qed.

(** The four failures of the initialisation chain, on platforms where
    SDL_GetError returns [no display]. *)
Example init_failures :
  let run P := main [quit_frame] (initial_world P) in
  let out P := ((run P).1, console (run P).2, length (calls (run P).2)) in
  out (failing_platform (-1) 1 2 0)
  = (Some 1, ["SDL could not initialize! SDL_Error: no display" +:+ endl], 2%nat)
  ∧ out (failing_platform 0 0 2 0)
    = (Some 1, ["Window could not be created! SDL_Error: no display" +:+ endl],
       7%nat)
  ∧ out (failing_platform 0 1 0 0)
    = (Some 1,
       ["OpenGL context could not be created! SDL_Error: no display" +:+ endl],
       9%nat)
  ∧ out (failing_platform 0 1 2 1)
    = (Some 1, ["GLEW could not initialize!" +:+ endl], 11%nat).
Proof. by vm_compute. Qed.

(** A uniform write while no program is in use is an error, also at
    location -1: before the first [use], [setFloat] with a name that the
    program does not have raises [GL_INVALID_OPERATION]. *)
Example uniform_write_needs_a_program :
  let w := loop_entry sample_platform in
  let r := Shader.setFloat sample_shader "colour" lit_0_5 w in
  (current_program <$> device w) = Some 0%N
  ∧ (gl_error <$> device w) = Some None
  ∧ (gl_error <$> device r.2) = Some (Some GL_INVALID_OPERATION)
  ∧ drop (length (calls w)) (calls r.2)
    = [ Call_glGetUniformLocation 3%N "colour" (-1);
        Call_glUniform1f (-1) lit_0_5 ].
Proof. by vm_compute. Qed.

(** ** Names handed out by the context *)

Lemma fresh_name_nonzero used : fresh_name used ≠ 0%N.
Proof.
  unfold fresh_name. intros H.
  pose proof (is_fresh ({[0%N]} ∪ used)) as F. rewrite H in F. set_solver.
Qed.

Lemma fresh_name_unused used : fresh_name used ∉ used.
Proof.
  unfold fresh_name.
  pose proof (is_fresh ({[0%N]} ∪ used)) as F. set_solver.
Qed.

Lemma fresh_name_lookup {A} (m : gmap N A) : m !! fresh_name (dom m) = None.
Proof. apply not_elem_of_dom, fresh_name_unused. Qed.

(** Reduce the projections of a state written with the setters. *)
Ltac dev_cbn :=
  cbn [vertex_arrays buffers shaders programs vertex_array_binding
       array_buffer_binding current_program depth_test clear_color gl_error
       set_vertex_arrays set_buffers set_shaders set_programs
       set_vertex_array_binding set_array_buffer_binding set_current_program
       set_depth_test set_clear_color gl_fail fst snd].

Ltac dev_unfold :=
  unfold set_vertex_arrays, set_buffers, set_shaders, set_programs,
    set_vertex_array_binding, set_array_buffer_binding, set_current_program,
    set_depth_test, set_clear_color; dev_cbn.

(** Equality of two maps written with inserts and deletes. *)
Ltac map_norm :=
  apply map_eq; intros ?k;
  repeat (first [rewrite lookup_insert | rewrite lookup_delete]; case_decide);
  simplify_eq; first [reflexivity | congruence].

Lemma runs_to {A} (m : M A) w a w1 w2 :
  runs m w a w1 → w1 = w2 → runs m w a w2.
Proof. by intros H <-. Qed.

(** ** The mesh: construction and destruction *)

Lemma Mesh_names_fresh {A B} (va : gmap N A) (bufs : gmap N B) (b : B) n1 n2 n3 :
  n1 = fresh_name (dom va) → n2 = fresh_name (dom bufs) →
  n3 = fresh_name (dom (<[n2 := b]> bufs)) →
  n1 ≠ 0%N ∧ n2 ≠ 0%N ∧ n3 ≠ 0%N ∧ n3 ≠ n2 ∧
  va !! n1 = None ∧ bufs !! n2 = None ∧ bufs !! n3 = None.
Proof.
  intros -> -> E3.
  pose proof (fresh_name_lookup (<[fresh_name (dom bufs) := b]> bufs)) as F.
  rewrite <- E3 in F.
  assert (n3 ≠ fresh_name (dom bufs)) as Hn32.
  { intros E. rewrite E, lookup_insert_eq in F. done. }
  rewrite lookup_insert_ne in F by done.
  split_and!; try done; try apply fresh_name_nonzero; try apply fresh_name_lookup.
  subst n3. apply fresh_name_nonzero.
Qed.

(** The constructor, then the destructor, in a world with a current
    context: the names are the ones the context hands out, the constructor
    leaves the three objects and zero bindings, the destructor leaves the
    tables of the context as they were before the constructor. *)
Lemma Mesh_lifecycle (vs : list float) (ixs : list N)
    P i wi ctx con cs va bufs shs prgs vab abb cp dt cc err n1 n2 n3 :
  n1 = fresh_name (dom va) → n2 = fresh_name (dom bufs) →
  n3 = fresh_name (dom (<[n2 := new_buffer]> bufs)) →
  let cube := {| Mesh.VAO := n1; Mesh.VBO := n2; Mesh.EBO := n3;
                 Mesh.indexCount := vector_size ixs |} in
  let w1 := Build_World P i wi ctx
              (Some (Build_Device
                       (<[n1 := Mesh_vertex_array n2 n3]> va)
                       (<[n3 := Mesh_index_buffer ixs]>
                          (<[n2 := Mesh_vertex_buffer vs]> bufs))
                       shs prgs 0%N 0%N cp dt cc err))
              con (cs ++ setupMesh_calls vs ixs n1 n2 n3) in
  runs (Mesh.Mesh vs ixs)
       (Build_World P i wi ctx
          (Some (Build_Device va bufs shs prgs vab abb cp dt cc err)) con cs)
       cube w1
  ∧ runs (Mesh.destructor cube) w1 tt
       (Build_World P i wi ctx
          (Some (Build_Device va bufs shs prgs 0%N 0%N cp dt cc err))
          con ((cs ++ setupMesh_calls vs ixs n1 n2 n3)
               ++ Mesh_destructor_calls n1 n2 n3)).
Proof.
  intros E1 E2 E3 cube w1.
  destruct (Mesh_names_fresh va bufs new_buffer n1 n2 n3 E1 E2 E3)
    as (Hn1 & Hn2 & Hn3 & Hn32 & Hf1 & Hf2 & Hf3).
  assert (0%N ≠ n1 ∧ 0%N ≠ n2 ∧ 0%N ≠ n3 ∧ n2 ≠ n3) as (Hn1' & Hn2' & Hn3' & Hn23)
    by (split_and!; congruence).
  subst cube w1. split.
  - eapply runs_to.
    + unfold Mesh.Mesh, Mesh.setupMesh.
      unfold glGenVertexArrays, glGenBuffers, glBindVertexArray,
        glBindBuffer, glBufferData, glVertexAttribPointer,
        glEnableVertexAttribArray.
      step_platform.
      step_query ltac:(unfold GL.GenVertexArrays; dev_unfold; rewrite <- E1; reflexivity).
      step_query ltac:(unfold GL.GenBuffers; dev_unfold; rewrite <- E2; reflexivity).
      step_query ltac:(unfold GL.GenBuffers; dev_unfold; rewrite <- E3; reflexivity).
      step_command ltac:(unfold GL.BindVertexArray; dev_unfold;
        rewrite decide_False by done; rewrite lookup_insert_eq; reflexivity).
      step_command ltac:(unfold GL.BindBuffer; dev_unfold;
        rewrite decide_False
          by (rewrite lookup_insert_ne, lookup_insert_eq by done; intros [_ ?]; done);
        reflexivity).
      step_command ltac:(unfold GL.BufferData, GL.bound_buffer; dev_unfold;
        rewrite decide_False by done;
        rewrite lookup_insert_ne, lookup_insert_eq by done; reflexivity).
      step_command ltac:(unfold GL.BindBuffer, GL.with_bound_vertex_array,
                           GL.bound_vertex_array; dev_unfold;
        rewrite decide_False
          by (rewrite lookup_insert_ne, lookup_insert_eq by done; intros [_ ?]; done);
        rewrite decide_False by done; rewrite lookup_insert_eq; reflexivity).
      step_command ltac:(unfold GL.BufferData, GL.bound_buffer,
                           GL.bound_vertex_array; dev_unfold;
        rewrite (decide_False (P := n1 = 0%N)) by done;
        rewrite lookup_insert_eq;
        cbn [GL.set_element_buffer vao_element_buffer];
        rewrite decide_False by done;
        rewrite lookup_insert_ne, lookup_insert_eq by done; reflexivity).
      step_command ltac:(unfold GL.VertexAttribPointer,
                           GL.with_bound_vertex_array, GL.bound_vertex_array;
        dev_unfold; rewrite decide_False by done; rewrite lookup_insert_eq;
        reflexivity).
      step_command ltac:(unfold GL.EnableVertexAttribArray,
                           GL.with_bound_vertex_array, GL.bound_vertex_array;
        dev_unfold; rewrite decide_False by done; rewrite lookup_insert_eq;
        reflexivity).
      step_command ltac:(unfold GL.BindBuffer; dev_unfold;
        rewrite decide_False by (intros [? _]; done); reflexivity).
      step_command ltac:(unfold GL.BindVertexArray; dev_unfold; reflexivity).
      apply runs_ret.
    + f_equal; [|by rewrite <- !(assoc_L (++))].
      f_equal. f_equal.
      * rewrite !insert_insert_eq. reflexivity.
      * map_norm.
  - unfold Mesh.destructor.
    unfold glDeleteVertexArrays, glDeleteBuffers.
    cbn [Mesh.VAO Mesh.VBO Mesh.EBO].
    eapply runs_to.
    + step_command ltac:(unfold GL.DeleteVertexArrays; dev_unfold;
        rewrite lookup_insert_eq; rewrite decide_False by done;
        rewrite delete_insert_id by done; reflexivity).
      step_command ltac:(unfold GL.DeleteBuffers, GL.bound_vertex_array;
        cbv zeta; dev_unfold;
        rewrite lookup_insert_ne, lookup_insert_eq by done;
        rewrite (decide_False (P := 0%N = n2)) by done; dev_cbn;
        rewrite decide_True by done; reflexivity).
      eapply runs_gl_command.
      unfold GL.DeleteBuffers, GL.bound_vertex_array; cbv zeta; dev_unfold.
      rewrite lookup_delete_ne, lookup_insert_eq by done.
      rewrite (decide_False (P := 0%N = n3)) by done; dev_cbn.
      rewrite decide_True by done. reflexivity.
    + f_equal; [|by rewrite <- !(assoc_L (++))].
      f_equal. f_equal.
      map_norm.
Qed.

(** C4. In a world with a current context, constructing a mesh from any
    vertex and index lists (well-formed or not) and then destroying it:
    the constructor issues exactly one [glGenVertexArrays] and two
    [glGenBuffers], which return three names that were not in use, and
    leaves one vertex array and two buffers more than before, holding the
    two lists as given; the destructor issues exactly one
    [glDeleteVertexArrays] and two [glDeleteBuffers] on those three names and
    leaves the tables of vertex arrays and of buffers exactly as they were
    before the constructor, so the allocation count is back to what it was
    (zero when it was zero). *)
Theorem mesh_allocates_and_releases
    (vs : list float) (ixs : list N) (w : World) (d : Device) :
  device w = Some d →
  let r1 := Mesh.Mesh vs ixs w in
  let cube := r1.1 in
  let r2 := Mesh.destructor cube r1.2 in
  ∃ d1 d2,
    device r1.2 = Some d1 ∧ device r2.2 = Some d2
    ∧ vertex_arrays d !! Mesh.VAO cube = None
    ∧ buffers d !! Mesh.VBO cube = None
    ∧ buffers d !! Mesh.EBO cube = None
    ∧ Mesh.VBO cube ≠ Mesh.EBO cube
    ∧ vertex_arrays d1 =
        <[Mesh.VAO cube := Mesh_vertex_array (Mesh.VBO cube) (Mesh.EBO cube)]>
          (vertex_arrays d)
    ∧ buffers d1 =
        <[Mesh.EBO cube := Mesh_index_buffer ixs]>
          (<[Mesh.VBO cube := Mesh_vertex_buffer vs]> (buffers d))
    ∧ allocation_count d1 = (allocation_count d + 3)%nat
    ∧ vertex_arrays d2 = vertex_arrays d
    ∧ buffers d2 = buffers d
    ∧ allocation_count d2 = allocation_count d
    ∧ calls r1.2 = calls w ++
        setupMesh_calls vs ixs (Mesh.VAO cube) (Mesh.VBO cube) (Mesh.EBO cube)
    ∧ calls r2.2 = calls r1.2 ++
        Mesh_destructor_calls (Mesh.VAO cube) (Mesh.VBO cube) (Mesh.EBO cube)
    ∧ console r2.2 = console w.
Proof.
  intros Hd.
  destruct w as [P i wi ctx dev con cs]. cbn in Hd. subst dev.
  destruct d as [va bufs shs prgs vab abb cp dt cc err].
  destruct (Mesh_lifecycle vs ixs P i wi ctx con cs va bufs shs prgs vab abb
              cp dt cc err _ _ _ eq_refl eq_refl eq_refl) as [H1 H2].
  destruct (Mesh_names_fresh va bufs new_buffer _ _ _ eq_refl eq_refl eq_refl)
    as (Hn1 & Hn2 & Hn3 & Hn32 & Hf1 & Hf2 & Hf3).
  intros r1 cube r2. subst r1 cube r2.
  rewrite (runs_eq _ _ _ _ H1). cbn [fst snd].
  rewrite (runs_eq _ _ _ _ H2). cbn [fst snd device calls console].
  cbn [Mesh.VAO Mesh.VBO Mesh.EBO vertex_arrays buffers].
  eexists _, _. split_and!; try reflexivity; try done.
  - unfold allocation_count. cbn [vertex_arrays buffers].
    rewrite !map_size_insert_None; [lia|..]; try done.
    by rewrite lookup_insert_ne.
Qed.

(** A fresh context has no object; after construction and destruction of
    the cube of [main] it has none again. *)
Lemma mesh_allocates_and_releases_witness :
  let w := context_world sample_platform in
  let r1 := Mesh.Mesh vertices indices w in
  let r2 := Mesh.destructor r1.1 r1.2 in
  ∃ d1 d2,
    device r1.2 = Some d1 ∧ device r2.2 = Some d2
    ∧ allocation_count d1 = 3%nat ∧ allocation_count d2 = 0%nat.
Proof.
  intros w r1 r2.
  destruct (mesh_allocates_and_releases vertices indices w new_device eq_refl)
    as (d1 & d2 & H1 & H2 & _ & _ & _ & _ & _ & _ & Ha1 & _ & _ & Ha2 & _).
  exists d1, d2. split_and!; done.
Defined.

(** ** Mesh::draw *)

Lemma vector_size_small {A} (v : list A) :
  (N.of_nat (length v) < 2 ^ 30)%N →
  vector_size v = N.of_nat (length v) ∧
  to_GLsizei (vector_size v) = Z.of_nat (length v).
Proof.
  intros Hlt. unfold to_GLsizei, vector_size, wrap32.
  assert (N.of_nat (length v) < 2 ^ 32)%N as H32 by (revert Hlt; generalize (N.of_nat (length v)); lia).
  rewrite !N.mod_small by (rewrite ?N.mod_small; lia).
  split; [done|].
  rewrite nat_N_Z.
  destruct (Z.ltb_spec (Z.of_nat (length v)) (2 ^ 31)); lia.
Qed.

Lemma Mesh_indexCount vs ixs w :
  Mesh.indexCount (Mesh.Mesh vs ixs w).1 = vector_size ixs.
Proof.
  assert (∃ a b c w', runs (Mesh.Mesh vs ixs) w
            {| Mesh.VAO := a; Mesh.VBO := b; Mesh.EBO := c;
               Mesh.indexCount := vector_size ixs |} w') as (a & b & c & w' & H).
  { do 4 eexists. unfold Mesh.Mesh, Mesh.setupMesh. run_through. }
  by rewrite (runs_eq _ _ _ _ H).
Qed.

(** C9. For a mesh built from an index list that a vector of the 32-bit
    target can hold (fewer than 2^30 elements), the stored index count is
    the length of that list, and [draw] issues exactly three calls: bind the
    vertex array of the mesh, one [glDrawElements] in triangle-list mode
    covering exactly that count of [unsigned int] indices from offset 0, bind
    vertex array 0.  When a context is current, its vertex-array binding is 0
    afterwards.  [draw] writes nothing to the console and, being a [const]
    member that receives the mesh by value and returns nothing, changes no
    field of the mesh. *)
Theorem draw_issues_one_indexed_draw
    (vs : list float) (ixs : list N) (w0 w : World) :
  (N.of_nat (length ixs) < 2 ^ 30)%N →
  let cube := (Mesh.Mesh vs ixs w0).1 in
  let r := Mesh.draw cube w in
  Mesh.indexCount cube = N.of_nat (length ixs)
  ∧ calls r.2 = calls w ++
      [ Call_glBindVertexArray (Mesh.VAO cube);
        Call_glDrawElements GL_TRIANGLES (Z.of_nat (length ixs)) GL_UNSIGNED_INT 0;
        Call_glBindVertexArray 0%N ]
  ∧ (∀ d, device r.2 = Some d → vertex_array_binding d = 0%N)
  ∧ (is_Some (device w) → is_Some (device r.2))
  ∧ console r.2 = console w.
Proof.
  intros Hlen cube r.
  destruct (vector_size_small ixs Hlen) as [Hsize Hcount].
  assert (Mesh.indexCount cube = N.of_nat (length ixs)) as Hic.
  { unfold cube. by rewrite Mesh_indexCount. }
  split; [done|].
  subst r. unfold Mesh.draw. rewrite !bind_eq.
  unfold glBindVertexArray, glDrawElements.
  rewrite !gl_command_calls, !gl_command_device, !gl_command_console.
  rewrite Hic, <- Hsize, Hcount, <- !(assoc_L (++)).
  split_and!; [done| |by intros [d ->]|done].
  intros d. destruct (device w) as [d0|]; [|done].
  cbn. intros [= <-]. done.
Qed.

(** The cube of [main] satisfies the bound: the draw covers its 36 indices. *)
Lemma draw_issues_one_indexed_draw_witness :
  let w := loop_entry sample_platform in
  let cube := (Mesh.Mesh vertices indices (context_world sample_platform)).1 in
  calls (Mesh.draw cube w).2 = calls w ++
      [ Call_glBindVertexArray (Mesh.VAO cube);
        Call_glDrawElements GL_TRIANGLES 36 GL_UNSIGNED_INT 0;
        Call_glBindVertexArray 0%N ].
Proof.
  intros w cube.
  apply (draw_issues_one_indexed_draw vertices indices
           (context_world sample_platform) w).
  vm_compute. reflexivity.
Defined.

(** ** Shader::setFloat and Shader::setMat4 *)





(** ** The shader: construction *)

(** The check after [glCompileShader]: one status query and, when the stage
    did not compile, the log query and one diagnostic. *)
Lemma checkShaderCompileErrors_runs s stage o P i wi ctx d con cs :
  shaders d !! s = Some o →
  runs (Shader.checkShaderCompileErrors s stage)
       (Build_World P i wi ctx (Some d) con cs) tt
       (Build_World P i wi ctx (Some d)
          (con ++ (if sh_compiled o then []
                   else [compile_diagnostic stage (sh_log o)]))
          (cs ++ Call_glGetShaderiv s GL_COMPILE_STATUS
                   (if sh_compiled o then 1 else 0)
              :: (if sh_compiled o then []
                  else [Call_glGetShaderInfoLog s 512
                          (GL.truncate_log 512 (sh_log o))]))).
Proof.
  intros Hs. unfold Shader.checkShaderCompileErrors, glGetShaderiv,
    glGetShaderInfoLog.
  step_platform.
  step_query ltac:(unfold GL.GetShaderiv; rewrite Hs; reflexivity).
  destruct (sh_compiled o).
  - rewrite decide_False by done. eapply runs_to; [apply runs_ret|].
    by rewrite (right_id_L [] (++)).
  - rewrite decide_True by done.
    step_query ltac:(unfold GL.GetShaderInfoLog; rewrite Hs; reflexivity).
    eapply runs_to; [apply runs_cout|].
    by rewrite <- (assoc_L (++)).
Qed.

Lemma checkProgramLinkErrors_runs p o P i wi ctx d con cs :
  programs d !! p = Some o →
  runs (Shader.checkProgramLinkErrors p)
       (Build_World P i wi ctx (Some d) con cs) tt
       (Build_World P i wi ctx (Some d)
          (con ++ (if pr_linked o then [] else [link_diagnostic (pr_log o)]))
          (cs ++ Call_glGetProgramiv p GL_LINK_STATUS
                   (if pr_linked o then 1 else 0)
              :: (if pr_linked o then []
                  else [Call_glGetProgramInfoLog p 512
                          (GL.truncate_log 512 (pr_log o))]))).
Proof.
  intros Hp. unfold Shader.checkProgramLinkErrors, glGetProgramiv,
    glGetProgramInfoLog.
  step_platform.
  step_query ltac:(unfold GL.GetProgramiv; rewrite Hp; reflexivity).
  destruct (pr_linked o).
  - rewrite decide_False by done. eapply runs_to; [apply runs_ret|].
    by rewrite (right_id_L [] (++)).
  - rewrite decide_True by done.
    step_query ltac:(unfold GL.GetProgramInfoLog; rewrite Hp; reflexivity).
    eapply runs_to; [apply runs_cout|].
    by rewrite <- (assoc_L (++)).
Qed.

Lemma is_attached_insert s p o d prgs :
  programs d = <[p := o]> prgs → s ∈ pr_attached o → GL.is_attached s d = true.
Proof.
  intros Hp Hs. unfold GL.is_attached. apply bool_decide_eq_true.
  rewrite Hp. by apply map_Exists_insert_2_1.
Qed.

(** The names that the constructor receives are in use neither before nor
    among themselves. *)
Lemma Shader_names_fresh {A B} (shs : gmap N A) (prgs : gmap N B) s1 s2 p :
  s1 = fresh_name (dom shs ∪ dom prgs) →
  s2 = fresh_name ({[s1]} ∪ dom shs ∪ dom prgs) →
  p = fresh_name ({[s2]} ∪ ({[s1]} ∪ dom shs) ∪ dom prgs) →
  s1 ≠ 0%N ∧ s2 ≠ 0%N ∧ p ≠ 0%N ∧ s2 ≠ s1 ∧ p ≠ s1 ∧ p ≠ s2 ∧
  shs !! s1 = None ∧ shs !! s2 = None ∧ prgs !! p = None.
Proof.
  intros E1 E2 E3.
  pose proof (fresh_name_unused (dom shs ∪ dom prgs)) as F1.
  pose proof (fresh_name_unused ({[s1]} ∪ dom shs ∪ dom prgs)) as F2.
  pose proof (fresh_name_unused ({[s2]} ∪ ({[s1]} ∪ dom shs) ∪ dom prgs)) as F3.
  rewrite <- E1 in F1. rewrite <- E2 in F2. rewrite <- E3 in F3.
  split_and!; try (subst; apply fresh_name_nonzero);
    try (apply not_elem_of_dom); set_solver.
Qed.

(** The constructor in a world with a current context. *)
Lemma Shader_runs (vs fs : string)
    P i wi ctx con cs va bufs shs prgs vab abb cp dt cc err s1 s2 p :
  s1 = fresh_name (dom shs ∪ dom prgs) →
  s2 = fresh_name ({[s1]} ∪ dom shs ∪ dom prgs) →
  p = fresh_name ({[s2]} ∪ ({[s1]} ∪ dom shs) ∪ dom prgs) →
  runs (Shader.Shader vs fs)
       (Build_World P i wi ctx
          (Some (Build_Device va bufs shs prgs vab abb cp dt cc err)) con cs)
       {| Shader.programID := p |}
       (Build_World P i wi ctx
          (Some (Build_Device va bufs
                   (<[s2 := GL.flag_shader (compiled_stage P GL_FRAGMENT_SHADER fs)]>
                      (<[s1 := GL.flag_shader (compiled_stage P GL_VERTEX_SHADER vs)]> shs))
                   (<[p := linked_program P vs fs s1 s2]> prgs)
                   vab abb cp dt cc err))
          (con ++ Shader_output P vs fs)
          (cs ++ Shader_calls P vs fs s1 s2 p)).
Proof.
  intros E1 E2 E3.
  set (stageV := compiled_stage P GL_VERTEX_SHADER vs).
  set (stageF := compiled_stage P GL_FRAGMENT_SHADER fs).
  destruct (Shader_names_fresh shs prgs s1 s2 p E1 E2 E3)
    as (Hs1 & Hs2 & Hp & Hs21 & Hp1 & Hp2 & Hf1 & Hf2 & Hfp).
  assert (s1 ≠ s2) as Hs12 by congruence.
  eapply runs_to.
- unfold Shader.Shader.
  unfold glCreateShader, glShaderSource, glCompileShader, glCreateProgram,
    glAttachShader, glLinkProgram, glDeleteShader.
  step_with ltac:(step_platform; eapply runs_gl_query;
    unfold GL.CreateShader, shader_program_names; dev_unfold;
    rewrite <- E1; reflexivity).
  step_command ltac:(unfold GL.ShaderSource; dev_unfold;
    rewrite lookup_insert_eq, insert_insert_eq; reflexivity).
  step_with ltac:(step_platform; eapply runs_gl_command;
    unfold GL.CompileShader; dev_unfold;
    rewrite lookup_insert_eq, insert_insert_eq; reflexivity).
  change (GL.set_compiled _ (GL.set_source (c_str vs) _)) with stageV.
  step_with ltac:(eapply checkShaderCompileErrors_runs; dev_cbn;
    apply lookup_insert_eq).
  step_with ltac:(step_platform; eapply runs_gl_query;
    unfold GL.CreateShader, shader_program_names; dev_unfold;
    rewrite dom_insert_L, <- E2; reflexivity).
  step_command ltac:(unfold GL.ShaderSource; dev_unfold;
    rewrite lookup_insert_eq, insert_insert_eq; reflexivity).
  step_with ltac:(step_platform; eapply runs_gl_command;
    unfold GL.CompileShader; dev_unfold;
    rewrite lookup_insert_eq, insert_insert_eq; reflexivity).
  change (GL.set_compiled _ (GL.set_source (c_str fs) _)) with stageF.
  step_with ltac:(eapply checkShaderCompileErrors_runs; dev_cbn;
    apply lookup_insert_eq).
  step_with ltac:(step_platform; eapply runs_gl_query;
    unfold GL.CreateProgram, shader_program_names; dev_unfold;
    rewrite !dom_insert_L, <- E3; reflexivity).
  step_command ltac:(unfold GL.AttachShader; dev_unfold;
    rewrite lookup_insert_eq;
    rewrite lookup_insert_ne, lookup_insert_eq by done;
    rewrite decide_False by (cbn; set_solver);
    rewrite insert_insert_eq; reflexivity).
  step_command ltac:(unfold GL.AttachShader; dev_unfold;
    rewrite !lookup_insert_eq;
    rewrite decide_False by (cbn; set_solver);
    rewrite insert_insert_eq; reflexivity).
  step_with ltac:(step_platform; eapply runs_gl_command;
    unfold GL.LinkProgram; cbv zeta; dev_unfold;
    rewrite lookup_insert_eq, insert_insert_eq;
    cbn [GL.attach pr_attached new_program app omap list_omap];
    rewrite lookup_insert_eq;
    rewrite lookup_insert_ne, lookup_insert_eq by done;
    cbn [forallb]; reflexivity).
  change (GL.set_linked _ _) with (linked_program P vs fs s1 s2).
  step_with ltac:(eapply checkProgramLinkErrors_runs; dev_cbn;
    apply lookup_insert_eq).
  step_command ltac:(unfold GL.DeleteShader; dev_unfold;
    rewrite lookup_insert_ne, lookup_insert_eq by done;
    erewrite is_attached_insert
      by first [dev_cbn; reflexivity | cbn; set_solver];
    reflexivity).
  step_command ltac:(unfold GL.DeleteShader; dev_unfold;
    rewrite lookup_insert_ne, lookup_insert_eq by done;
    erewrite is_attached_insert
      by first [dev_cbn; reflexivity | cbn; set_solver];
    reflexivity).
  apply runs_ret.
- f_equal.
  + f_equal. f_equal. map_norm.
  + unfold Shader_output. fold stageV stageF.
    by rewrite <- !(assoc_L (++)).
  + unfold Shader_calls, compile_check_calls, link_check_calls.
    fold stageV stageF.
    rewrite <- !(assoc_L (++)). reflexivity.
Qed.

(** The same, for any world with a current context. *)
Lemma Shader_constructed (vs fs : string) (w : World) (d : Device) :
  device w = Some d →
  let P := platform w in
  ∃ s1 s2 p d',
    s1 ≠ s2 ∧ p ≠ 0%N ∧ programs d !! p = None
    ∧ Shader.Shader vs fs w = ({| Shader.programID := p |},
         {| platform := P; sdl_initialized := sdl_initialized w;
            window := window w; gl_context := gl_context w;
            device := Some d';
            console := console w ++ Shader_output P vs fs;
            calls := calls w ++ Shader_calls P vs fs s1 s2 p |})
    ∧ programs d' = <[p := linked_program P vs fs s1 s2]> (programs d)
    ∧ vertex_arrays d' = vertex_arrays d ∧ buffers d' = buffers d.
Proof.
  intros Hd.
  destruct w as [P i wi ctx dev con cs]. cbn in Hd. subst dev.
  destruct d as [va bufs shs prgs vab abb cp dt cc err].
  cbn [platform sdl_initialized window gl_context console calls].
  pose proof (Shader_runs vs fs P i wi ctx con cs va bufs shs prgs vab abb cp
                dt cc err _ _ _ eq_refl eq_refl eq_refl) as H.
  destruct (Shader_names_fresh shs prgs _ _ _ eq_refl eq_refl eq_refl)
    as (Hs1 & Hs2 & Hp & Hs21 & Hp1 & Hp2 & Hf1 & Hf2 & Hfp).
  eexists _, _, _, _. split_and!; [| | |exact (runs_eq _ _ _ _ H)|..];
    try done.
Qed.

(** ** Text *)

Lemma string_app_cons ch (a b : string) :
  String ch a +:+ b = String ch (a +:+ b).
Proof. reflexivity. Qed.

Lemma string_app_assoc (a b c : string) : (a +:+ b) +:+ c = a +:+ b +:+ c.
Proof.
  induction a as [|ch a IH]; [done|]. rewrite !string_app_cons. by rewrite IH.
Qed.

Lemma string_app_length (a b : string) :
  String.length (a +:+ b) = (String.length a + String.length b)%nat.
Proof.
  induction a as [|ch a IH]; [done|]. rewrite string_app_cons. cbn.
  by rewrite IH.
Qed.

Lemma contains_length (sub s : string) :
  contains sub s → (String.length sub ≤ String.length s)%nat.
Proof. intros (pre & post & ->). rewrite !string_app_length. lia. Qed.

Lemma contains_middle (pre sub post : string) :
  contains sub (pre +:+ sub +:+ post).
Proof. by exists pre, post. Qed.

Lemma substring_all (n : nat) (s : string) :
  (String.length s ≤ n)%nat → String.substring 0 n s = s.
Proof.
  revert n. induction s as [|ch s IH]; intros [|n] Hn; cbn in *; try done; try lia.
  by rewrite IH by lia.
Qed.

Lemma truncate_log_short (log : string) :
  (String.length log ≤ 511)%nat → GL.truncate_log 512 log = log.
Proof. intros H. unfold GL.truncate_log. by apply substring_all. Qed.

Lemma compile_diagnostic_contains (stage log : string) :
  contains stage (compile_diagnostic stage log)
  ∧ contains (c_str (GL.truncate_log 512 log)) (compile_diagnostic stage log).
Proof.
  unfold compile_diagnostic. split; [apply contains_middle|].
  exists ("ERROR::SHADER::" +:+ stage +:+ "::COMPILATION_FAILED" +:+ endl), endl.
  by rewrite !string_app_assoc.
Qed.

(** ** Shader: failures of compilation and of linking *)

(** C5, as amended.  In a world with a current context, when the vertex or
    the fragment stage does not compile, the constructor still runs to its
    last call and returns a [Shader] whose handle names a program object of
    the context; nothing but the console tells the caller.  It writes one
    diagnostic for each stage that did not compile, then the diagnostic of
    the link, which fails as well.  A stage's diagnostic contains the stage
    name and the information log as [glGetShaderInfoLog] returns it into the
    512-byte buffer, that is its first 511 characters; this is the whole log
    when the log is that short. *)
Theorem compile_failure_is_logged (vs fs : string) (w : World) (d : Device) :
  device w = Some d →
  let P := platform w in
  let stageV := compiled_stage P GL_VERTEX_SHADER vs in
  let stageF := compiled_stage P GL_FRAGMENT_SHADER fs in
  sh_compiled stageV = false ∨ sh_compiled stageF = false →
  let r := Shader.Shader vs fs w in
  (∃ d' s2, device r.2 = Some d'
     ∧ is_Some (programs d' !! Shader.programID r.1)
     ∧ last (calls r.2) = Some (Call_glDeleteShader s2))
  ∧ console r.2 = console w
      ++ (if sh_compiled stageV then []
          else [compile_diagnostic "VERTEX" (sh_log stageV)])
      ++ (if sh_compiled stageF then []
          else [compile_diagnostic "FRAGMENT" (sh_log stageF)])
      ++ [link_diagnostic (plat_link P [stageV; stageF]).1.2]
  ∧ (∀ stage log,
       contains stage (compile_diagnostic stage log)
       ∧ contains (c_str (GL.truncate_log 512 log)) (compile_diagnostic stage log))
  ∧ (∀ log, (String.length log ≤ 511)%nat → c_str log = log →
            c_str (GL.truncate_log 512 log) = log).
Proof.
  intros Hd P stageV stageF Hfail r.
  destruct (Shader_constructed vs fs w d Hd)
    as (s1 & s2 & p & d' & Hs & Hp & Hfresh & Hrun & Hprg & _).
  subst r. rewrite Hrun. cbn [fst snd device console calls Shader.programID].
  split_and!.
  - exists d', s2. split_and!; [done| |].
    + rewrite Hprg, lookup_insert_eq. by eexists.
    + unfold Shader_calls.
      change [Call_glDeleteShader s1; Call_glDeleteShader s2]
        with ([Call_glDeleteShader s1] ++ [Call_glDeleteShader s2]).
      rewrite !(assoc_L (++)). apply last_snoc.
  - f_equal. unfold Shader_output. fold P stageV stageF.
    do 2 f_equal.
    destruct Hfail as [-> | ->]; [done|]. by rewrite andb_false_r.
  - apply compile_diagnostic_contains.
  - intros log Hlen Hnul. by rewrite truncate_log_short.
Qed.

(** On a platform whose compiler rejects both stages with the three-letter
    log [eee], the console receives the two stage diagnostics with that log,
    then the link diagnostic. *)
Lemma compile_failure_is_logged_witness :
  console (Shader.Shader vertexShaderSource fragmentShaderSource
             (context_world (rejecting_platform 3))).2
  = [ compile_diagnostic "VERTEX" "eee";
      compile_diagnostic "FRAGMENT" "eee";
      link_diagnostic "link" ].
Proof.
  destruct (compile_failure_is_logged vertexShaderSource fragmentShaderSource
              (context_world (rejecting_platform 3)) new_device eq_refl
              (or_introl eq_refl)) as (_ & H & _).
  exact H.
Defined.

(** C5, as stated, fails: when the compiler's log has 600 characters, both
    stages fail with that log and no line written to the console contains
    it; each holds its first 511 characters only. *)
Lemma long_compiler_log_is_cut :
  let P := rejecting_platform 600 in
  let log := pad 600 (Ascii.ascii_of_nat 101) in
  let r := Shader.Shader vertexShaderSource fragmentShaderSource
             (context_world P) in
  plat_compile P GL_VERTEX_SHADER (c_str vertexShaderSource) = (false, log)
  ∧ plat_compile P GL_FRAGMENT_SHADER (c_str fragmentShaderSource) = (false, log)
  ∧ length (console r.2) = 3%nat
  ∧ ∀ line, line ∈ console r.2 → ¬ contains log line.
Proof.
  intros P log r. split_and!; [reflexivity..|].
  intros line Hin Hc. apply contains_length in Hc.
  revert Hin Hc. subst r.
  set (out := console _). vm_compute in out. subst out.
  intros Hin. apply list_elem_of_In in Hin. cbn [In] in Hin.
  destruct Hin as [<-|[<-|[<-|[]]]]; vm_compute; lia.
Qed.

(** C6. In a world with a current context, when both stages compile and the
    platform's linker rejects the program, the constructor returns a
    [Shader] as in any other case; its handle is the name that
    [glCreateProgram] returned, it is not zero, it was not in use before and
    it names a program object of the context that is not linked; the one
    line written to the console is the link diagnostic. *)
Theorem link_failure_is_logged (vs fs : string) (w : World) (d : Device) :
  device w = Some d →
  let P := platform w in
  let stageV := compiled_stage P GL_VERTEX_SHADER vs in
  let stageF := compiled_stage P GL_FRAGMENT_SHADER fs in
  sh_compiled stageV = true →
  sh_compiled stageF = true →
  (plat_link P [stageV; stageF]).1.1 = false →
  let r := Shader.Shader vs fs w in
  ∃ d' o,
    device r.2 = Some d'
    ∧ Shader.programID r.1 ≠ 0%N
    ∧ In (Call_glCreateProgram (Shader.programID r.1)) (calls r.2)
    ∧ programs d !! Shader.programID r.1 = None
    ∧ programs d' !! Shader.programID r.1 = Some o
    ∧ pr_linked o = false
    ∧ console r.2 = console w
        ++ [link_diagnostic (plat_link P [stageV; stageF]).1.2].
Proof.
  intros Hd P stageV stageF HV HF HL r.
  destruct (Shader_constructed vs fs w d Hd)
    as (s1 & s2 & p & d' & Hs & Hp & Hfresh & Hrun & Hprg & _).
  subst r. rewrite Hrun. cbn [fst snd device console calls Shader.programID].
  exists d', (linked_program P vs fs s1 s2). split_and!; try done.
  - apply in_or_app. right. unfold Shader_calls.
    rewrite !in_app_iff. do 4 right. left. by left.
  - by rewrite Hprg, lookup_insert_eq.
  - unfold linked_program. fold stageV stageF. cbn. by rewrite HL, andb_false_r.
  - f_equal. unfold Shader_output. fold P stageV stageF.
    by rewrite HV, HF, HL.
Qed.

Lemma link_failure_is_logged_witness :
  let r := Shader.Shader vertexShaderSource fragmentShaderSource
             (context_world unlinkable_platform) in
  Shader.programID r.1 ≠ 0%N
  ∧ console r.2 = [ link_diagnostic "stages do not match" ].
Proof.
  intros r.
  destruct (link_failure_is_logged vertexShaderSource fragmentShaderSource
              (context_world unlinkable_platform) new_device
              eq_refl eq_refl eq_refl eq_refl)
    as (d' & o & _ & Hp & _ & _ & _ & _ & Hc).
  split; [exact Hp|exact Hc].
Defined.

(** ** Worlds that differ by calls only *)

Lemma extends_refl w : extends w w [].
Proof. unfold extends. by rewrite (right_id_L [] (++)). Qed.

Lemma extends_trans w1 w2 w3 d1 d2 :
  extends w1 w2 d1 → extends w2 w3 d2 → extends w1 w3 (d1 ++ d2).
Proof.
  intros (?&?&?&?&?&?) (?&?&?&?&?&?). unfold extends.
  split_and!; try congruence; [tauto|].
  rewrite (assoc_L (++)). congruence.
Qed.

Lemma extends_record c w : extends w (record c w) [c].
Proof. by unfold extends. Qed.

Lemma extends_gl_query {A} (c : A → Call) f old w :
  extends w (gl_query c f old w).2 [c (gl_query c f old w).1].
Proof.
  unfold extends, gl_query.
  destruct (device w) eqn:E; cbn; rewrite ?E; split_and!;
    try done; split; by eexists.
Qed.

Lemma extends_gl_command c f w : extends w (gl_command c f w).2 [c].
Proof. apply (extends_gl_query (λ _, c)). Qed.

Lemma extends_bind {A B} (m : M A) (k : A → M B) w d1 d2 :
  extends w (m w).2 d1 → extends (m w).2 (k (m w).1 (m w).2).2 d2 →
  extends w ((m ≫= k) w).2 (d1 ++ d2).
Proof. rewrite bind_eq. apply extends_trans. Qed.

Lemma gl_command_value c f w : (gl_command c f w).1 = tt.
Proof. by destruct (gl_command c f w).1. Qed.

(** ** The event queue *)

Lemma poll_events_spec evs b w :
  (poll_events evs b w).1 = b && negb (existsb is_quit evs)
  ∧ extends w (poll_events evs b w).2
      (map (λ e, Call_SDL_PollEvent (Some e)) evs ++ [Call_SDL_PollEvent None])
  ∧ console (poll_events evs b w).2 = console w
  ∧ device (poll_events evs b w).2 = device w.
Proof.
  revert b w. induction evs as [|e evs IH]; intros b w.
  - cbn. rewrite andb_true_r. split_and!; done.
  - cbn [poll_events]. rewrite bind_eq.
    destruct (IH (if decide (type e = SDL_QUIT) then false else b)
                 (SDL_PollEvent (Some e) w).2) as (Hv & He & Hc & Hd).
    rewrite Hv, Hc, Hd. split_and!; try done.
    + cbn [existsb].
      replace (is_quit e) with (bool_decide (type e = SDL_QUIT)) by reflexivity.
      case_bool_decide;
        [rewrite decide_True by done|rewrite decide_False by done]; cbn;
        [by rewrite andb_false_r|done].
    + cbn [map app]. apply (extends_trans _ _ _ [_] _ (extends_record _ w) He).
Qed.

(** ** Programs that only issue calls *)

Lemma steps_bind {A B} (m : M A) (k : A → M B) w a w1 d1 b w2 d2 :
  steps m w a w1 d1 → steps (k a) w1 b w2 d2 →
  steps (m ≫= k) w b w2 (d1 ++ d2).
Proof.
  intros (Hr1 & He1 & Hc1) (Hr2 & He2 & Hc2). split_and!.
  - by eapply runs_bind.
  - by eapply extends_trans.
  - congruence.
Qed.

Lemma steps_ret {A} (a : A) w : steps (mret a) w a w [].
Proof. split_and!; [done|apply extends_refl|done]. Qed.

Lemma steps_to {A} (m : M A) w a a' w' d d' :
  steps m w a w' d → a = a' → d = d' → steps m w a' w' d'.
Proof. by intros H <- <-. Qed.

Lemma steps_gl_query {A} (c : A → Call) f old w :
  steps (gl_query c f old) w (gl_query c f old w).1 (gl_query c f old w).2
        [c (gl_query c f old w).1].
Proof.
  split_and!; [apply runs_self|apply extends_gl_query|apply gl_query_console].
Qed.

Lemma steps_gl_command c f w :
  steps (gl_command c f) w tt (gl_command c f w).2 [c].
Proof.
  split_and!; [|apply extends_gl_command|apply gl_command_console].
  unfold runs. by destruct (gl_command c f w) as [[] ?].
Qed.

Lemma steps_get_platform w : steps get_platform w (platform w) w [].
Proof. split_and!; [done|apply extends_refl|done]. Qed.

Lemma steps_poll_events evs b w :
  steps (poll_events evs b) w (b && negb (existsb is_quit evs))
        (poll_events evs b w).2
        (map (λ e, Call_SDL_PollEvent (Some e)) evs ++ [Call_SDL_PollEvent None]).
Proof.
  destruct (poll_events_spec evs b w) as (Hv & He & Hc & _).
  split_and!; [|done..]. unfold runs. rewrite <- Hv. by destruct (poll_events _ _ _).
Qed.

Lemma steps_SDL_GL_SwapWindow win w :
  steps (SDL_GL_SwapWindow win) w tt (record (Call_SDL_GL_SwapWindow win) w)
        [Call_SDL_GL_SwapWindow win].
Proof. split_and!; [done|apply extends_record|done]. Qed.

Lemma steps_SDL_GetKeyboardState w :
  steps SDL_GetKeyboardState w tt (record Call_SDL_GetKeyboardState w)
        [Call_SDL_GetKeyboardState].
Proof. split_and!; [done|apply extends_record|done]. Qed.

(** Follow a program made of such calls. *)
Ltac steps_through :=
  repeat first
    [ apply steps_ret
    | apply steps_gl_command
    | apply steps_gl_query
    | apply steps_get_platform
    | apply steps_poll_events
    | apply steps_SDL_GL_SwapWindow
    | apply steps_SDL_GetKeyboardState
    | (eapply steps_bind; [steps_through|]; cbv beta) ].

(** ** One iteration of the main loop *)

Lemma iteration_steps win shader cube input l w :
  ∃ location w',
    steps (iteration win shader cube input l) w (iteration_locals input l) w'
          (iteration_calls win shader cube input (angle l) location).
Proof.
  eexists _, _. eapply steps_to.
  - unfold iteration, Shader.use, Shader.setMat4, Mesh.draw,
      glClearColor, glClear, glUseProgram, glGetUniformLocation,
      glUniformMatrix4fv, glBindVertexArray, glDrawElements.
    steps_through.
  - reflexivity.
  - unfold iteration_calls. rewrite <- !(assoc_L (++)). reflexivity.
Qed.

Lemma iteration_milestones_spec win shader cube input a location :
  filter is_milestone (iteration_calls win shader cube input a location)
  = iteration_milestones win cube.
Proof.
  unfold iteration_calls. rewrite filter_app.
  assert (filter is_milestone
            (map (λ e, Call_SDL_PollEvent (Some e)) (events input)) = []) as ->.
  { induction (events input) as [|e evs IH]; [done|]. cbn [map].
    rewrite filter_cons_False by (cbn; tauto). done. }
  reflexivity.
Qed.

(** The world after the polls does not depend on [running]. *)
Lemma poll_events_world evs b b' w :
  (poll_events evs b w).2 = (poll_events evs b' w).2.
Proof.
  revert b b' w. induction evs as [|e evs IH]; intros b b' w; [done|].
  cbn [poll_events]. rewrite !bind_eq. apply IH.
Qed.

(** The world after an iteration depends on the events and on the angle,
    not on the keys held nor on the camera. *)
Lemma iteration_world win shader cube input1 input2 l1 l2 w :
  events input1 = events input2 → angle l1 = angle l2 →
  (iteration win shader cube input1 l1 w).2
  = (iteration win shader cube input2 l2 w).2.
Proof.
  intros He Ha. unfold iteration. rewrite !bind_eq. cbn [snd].
  rewrite He, Ha.
  by rewrite (poll_events_world _ (running l1) (running l2)).
Qed.

(** ** The main loop *)

Lemma iterations_stopped inputs : iterations inputs false = O.
Proof. by destruct inputs. Qed.

Lemma main_loop_steps win shader cube inputs l w :
  ∃ delta w',
    steps (main_loop win shader cube inputs l) w (loop_locals inputs l) w' delta
    ∧ filter is_milestone delta
      = mjoin (replicate (iterations inputs (running l))
                         (iteration_milestones win cube)).
Proof.
  revert l w. induction inputs as [|input rest IH]; intros l w.
  - exists [], w. split; [apply steps_ret|done].
  - cbn [main_loop loop_locals iterations]. destruct (running l) eqn:Hr.
    + destruct (iteration_steps win shader cube input l w)
        as (location & w1 & H1).
      destruct (IH (iteration_locals input l) w1) as (delta & w2 & H2 & Hm).
      eexists _, _. split; [by eapply steps_bind|].
      rewrite filter_app, iteration_milestones_spec, Hm.
      cbn [iteration_locals running]. rewrite Hr, andb_true_l. done.
    + exists [], w. split; [apply steps_ret|done].
Qed.

Lemma main_loop_locals win shader cube inputs l w :
  (main_loop win shader cube inputs l w).1 = loop_locals inputs l.
Proof.
  destruct (main_loop_steps win shader cube inputs l w)
    as (delta & w' & (Hr & _) & _).
  by rewrite (runs_eq _ _ _ _ Hr).
Qed.

(** Two runs of the loop on the same events leave the same world. *)
Lemma main_loop_world win shader cube inputs1 inputs2 l1 l2 w :
  map events inputs1 = map events inputs2 →
  running l1 = running l2 → angle l1 = angle l2 →
  (main_loop win shader cube inputs1 l1 w).2
  = (main_loop win shader cube inputs2 l2 w).2
  ∧ running (loop_locals inputs1 l1) = running (loop_locals inputs2 l2).
Proof.
  revert inputs2 l1 l2 w.
  induction inputs1 as [|i1 rest1 IH]; intros [|i2 rest2] l1 l2 w He Hr Ha;
    try done.
  cbn [map] in He. injection He as He1 He2.
  cbn [main_loop loop_locals]. rewrite <- Hr. destruct (running l1) eqn:Hr1.
  - rewrite !bind_eq.
    destruct (iteration_steps win shader cube i1 l1 w) as (? & w1 & R1 & _).
    destruct (iteration_steps win shader cube i2 l2 w) as (? & w2 & R2 & _).
    rewrite (runs_eq _ _ _ _ R1), (runs_eq _ _ _ _ R2). cbn [fst snd].
    assert (w1 = w2) as <-.
    { pose proof (iteration_world win shader cube i1 i2 l1 l2 w He1 Ha) as E.
      by rewrite (runs_eq _ _ _ _ R1), (runs_eq _ _ _ _ R2) in E. }
    apply IH; [done|..]; cbn [iteration_locals running angle].
    + unfold has_quit. by rewrite Hr1, <- Hr, He1.
    + by rewrite Ha.
  - split; [reflexivity|congruence].
Qed.
(** ** Rounding to single precision *)

Lemma digits2_pos_size p : digits2_pos p = Pos.size p.
Proof. induction p; cbn; congruence. Qed.

Lemma digits2_pos_bounds p :
  2 ^ (Z.pos (digits2_pos p) - 1) <= Z.pos p < 2 ^ Z.pos (digits2_pos p).
Proof.
  rewrite digits2_pos_size.
  pose proof (Pos.size_gt p) as Hgt. pose proof (Pos.size_le p) as Hle.
  apply Pos2Z.pos_lt_pos in Hgt. apply Pos2Z.pos_le_pos in Hle.
  rewrite Pos2Z.inj_pow in Hgt, Hle.
  change (Z.pos p~0) with (2 * Z.pos p) in Hle.
  split; [|exact Hgt].
  replace (Z.pos (Pos.size p)) with (Z.pos (Pos.size p) - 1 + 1) in Hle by lia.
  rewrite Z.pow_add_r in Hle by lia. change (2 ^ 1) with 2 in Hle. lia.
Qed.

Lemma digits2_pos_unique p d :
  2 ^ (d - 1) <= Z.pos p < 2 ^ d → Z.pos (digits2_pos p) = d.
Proof.
  intros [Hlo Hhi]. pose proof (digits2_pos_bounds p) as [Hlo' Hhi'].
  assert (0 < d) as Hd.
  { destruct (Z.lt_trichotomy d 0) as [H|[H|H]]; [|subst; cbn in Hhi; lia|done].
    rewrite Z.pow_neg_r in Hhi by done. lia. }
  assert (d - 1 < Z.pos (digits2_pos p)) as H1.
  { apply (Z.pow_lt_mono_r_iff 2); lia. }
  assert (Z.pos (digits2_pos p) - 1 < d) as H2.
  { apply (Z.pow_lt_mono_r_iff 2); lia. }
  lia.
Qed.

Lemma iter_xO m d : Z.pos (Pos.iter xO m d) = Z.pos m * 2 ^ Z.pos d.
Proof.
  induction d as [|d IH] using Pos.peano_ind.
  - cbn. lia.
  - rewrite Pos.iter_succ, Pos2Z.inj_xO, IH, Pos2Z.inj_succ, Z.pow_succ_r by lia.
    lia.
Qed.

Lemma shr_1_nonneg m r s :
  0 <= m → shr_1 (Build_shr_record m r s) = Build_shr_record (Z.div2 m) (Z.odd m) (r || s).
Proof. intros Hm. destruct m as [|[q|q|]|q]; try reflexivity; lia. Qed.

Lemma shifted_shr_1 p k mrs : 0 <= k → shifted p k mrs → shifted p (k + 1) (shr_1 mrs).
Proof.
  intros Hk (t & Hm & Ht & Hp & Hs). destruct mrs as [m r s].
  cbn [shr_m shr_r shr_s] in *.
  rewrite shr_1_nonneg by done. cbn [shr_m shr_r shr_s].
  pose proof (Z.div2_odd m) as Hdiv.
  assert (2 ^ (k + 1) = 2 * 2 ^ k) as E1 by (rewrite Z.pow_add_r by lia; lia).
  assert (2 ^ (k + 1 + 1) = 4 * 2 ^ k) as E2 by (rewrite !Z.pow_add_r by lia; lia).
  assert (0 < 2 ^ k) as Hpos by (apply Z.pow_pos_nonneg; lia).
  exists ((if r then 2 ^ k else 0) + t). rewrite E1, E2 in *.
  assert (0 <= Z.div2 m) by (rewrite Z.div2_nonneg; done).
  set (h := Z.div2 m) in *. set (b := Z.odd m) in *. clearbody h b. subst m.
  set (Q := 2 ^ k) in *. clearbody Q.
  cbn [shr_m shr_r shr_s].
  split_and!; try done.
  - destruct r; lia.
  - destruct r; lia.
  - rewrite Hp. destruct b, r; cbn [Z.b2z shr_m shr_r shr_s]; lia.
  - destruct r, s; cbn; split; intros; try done; try lia.
    all: first [ by (apply Hs; lia) | (assert (0 < t) by (by apply Hs); lia) | idtac ].
Qed.

Lemma shifted_iter_pos p q : ∀ k mrs,
  0 <= k → shifted p k mrs → shifted p (k + Z.pos q) (SpecFloat.iter_pos shr_1 q mrs).
Proof.
  induction q as [q IH|q IH|]; intros k mrs Hk H; cbn [SpecFloat.iter_pos].
  - replace (k + Z.pos q~1) with (k + 1 + Z.pos q + Z.pos q) by lia.
    apply IH; [lia|]. apply IH; [lia|]. by apply shifted_shr_1.
  - replace (k + Z.pos q~0) with (k + Z.pos q + Z.pos q) by lia.
    apply IH; [lia|]. by apply IH.
  - by apply shifted_shr_1.
Qed.

Lemma shifted_start p : 0 <= p → shifted p 0 (Build_shr_record p false false).
Proof. intros Hp. exists 0. cbn. split_and!; try done; try lia. Qed.

Lemma fexp_normal e : -149 <= e - 24 → fexp 24 128 e = e - 24.
Proof. intros H. unfold fexp, emin. lia. Qed.

(** A mantissa of exactly 24 digits needs no shift. *)
Lemma shr_fexp_normal (R : positive) e :
  Z.pos (digits2_pos R) = 24 → -149 <= e →
  shr_fexp 24 128 (Z.pos R) e loc_Exact
  = (Build_shr_record (Z.pos R) false false, e).
Proof.
  intros Hd He. unfold shr_fexp. cbn [Zdigits2]. rewrite Hd.
  rewrite fexp_normal by lia.
  replace (24 + e - 24 - e) with 0 by lia. reflexivity.
Qed.

(** Rounding a positive integer of at least 24 digits to single precision:
    the result is [R] times the power of two that the shift discards, for a
    nearest [R]. *)
Lemma binary_round_aux_nearest (p : positive) (e0 d : Z) :
  Z.pos (digits2_pos p) = d →
  24 <= d → -149 <= e0 + (d - 24) → e0 + (d - 24) < 104 →
  ∃ R, 2 ^ 23 <= R <= 2 ^ 24
     ∧ (2 * R - 1) * 2 ^ (d - 24) <= 2 * Z.pos p <= (2 * R + 1) * 2 ^ (d - 24)
     ∧ binary_round_aux 24 128 false (Z.pos p) e0 loc_Exact
       = if R <? 2 ^ 24 then S754_finite false (Z.to_pos R) (e0 + (d - 24))
         else S754_finite false 8388608 (e0 + (d - 24) + 1).
Proof.
  intros Hd H24 Hlo Hhi.
  pose proof (digits2_pos_bounds p) as Hp. rewrite Hd in Hp.
  unfold binary_round_aux.
  assert (∃ m1 r s, shr_fexp 24 128 (Z.pos p) e0 loc_Exact
                    = (Build_shr_record m1 r s, e0 + (d - 24))
                    ∧ shifted (Z.pos p) (d - 24) (Build_shr_record m1 r s))
    as (m1 & r & s & -> & Hsh).
  { unfold shr_fexp. cbn [Zdigits2 shr_record_of_loc]. rewrite Hd.
    rewrite fexp_normal by lia.
    replace (d + e0 - 24 - e0) with (d - 24) by lia.
    destruct (d - 24) as [|n|n] eqn:En; [|clear Hp|lia].
    - eexists _, _, _. split; [cbn; f_equal; lia|]. by apply shifted_start.
    - unfold shr.
      destruct (SpecFloat.iter_pos shr_1 n
                  {| shr_m := Z.pos p; shr_r := false; shr_s := false |})
        as [m1 r s] eqn:E.
      exists m1, r, s. split; [done|]. rewrite <- E.
      apply (shifted_iter_pos (Z.pos p) n 0); [done|]. by apply shifted_start. }
  destruct Hsh as (t & Hm1 & Ht & Hsum & Hs).
  cbv beta iota. cbn [shr_m].
  cbn [shr_m shr_r shr_s] in Hm1, Hsum, Hs.
  set (Q := 2 ^ (d - 24)) in *.
  assert (0 < Q) as HQ by (apply Z.pow_pos_nonneg; lia).
  assert (2 ^ (d - 24 + 1) = 2 * Q) as EQ1
    by (unfold Q; rewrite Z.pow_add_r by lia; lia).
  assert (2 ^ (d - 1) = 2 ^ 23 * Q) as EQ2.
  { unfold Q. rewrite <- Z.pow_add_r by lia. f_equal. lia. }
  assert (2 ^ d = 2 ^ 24 * Q) as EQ3.
  { unfold Q. rewrite <- Z.pow_add_r by lia. f_equal. lia. }
  rewrite EQ1 in Hsum. rewrite EQ2, EQ3 in Hp.
  change (2 ^ 23) with 8388608 in *. change (2 ^ 24) with 16777216 in *.
  clearbody Q.
  (* the mantissa after the shift has 24 digits *)
  assert (8388608 <= m1 < 16777216) as Hm1b.
  { assert (if r then True else True) as _ by (by destruct r).
    split.
    - apply Z.nlt_ge. intros Hlt.
      assert ((m1 + 1) * Q <= 8388608 * Q) by (apply Z.mul_le_mono_nonneg_r; lia).
      destruct r; lia.
    - apply Z.nle_gt. intros Hge.
      assert (16777216 * Q <= m1 * Q) by (apply Z.mul_le_mono_nonneg_r; lia).
      destruct r; lia. }
  set (R := round_nearest_even m1
              (loc_of_shr_record {| shr_m := m1; shr_r := r; shr_s := s |})).
  assert ((R = m1 ∨ R = m1 + 1)
          ∧ (2 * R - 1) * Q <= 2 * Z.pos p <= (2 * R + 1) * Q) as [HR Hnear].
  { unfold R. destruct r, s; cbn [loc_of_shr_record round_nearest_even].
    - split; [by right|]. lia.
    - assert (t = 0) as ->.
      { destruct (decide (0 < t)) as [H|H]; [|lia]. by apply Hs in H. }
      destruct (Z.even m1); (split; [tauto|lia]).
    - split; [by left|]. lia.
    - assert (t = 0) as ->.
      { destruct (decide (0 < t)) as [H|H]; [|lia]. by apply Hs in H. }
      split; [by left|]. lia. }
  clearbody R. exists R. split; [lia|]. split; [done|].
  cbn [shr_m].
  destruct (Z.ltb_spec R 16777216) as [Hlt|Hge].
  - destruct R as [|R|R]; try lia.
    rewrite shr_fexp_normal; [|apply digits2_pos_unique; cbn; lia|lia].
    cbn [shr_m]. rewrite (proj2 (Z.leb_le _ _)) by (cbn; lia). reflexivity.
  - assert (R = 16777216) as -> by lia.
    unfold shr_fexp. cbn [Zdigits2 shr_record_of_loc].
    change (Z.pos (digits2_pos 16777216)) with 25.
    rewrite fexp_normal by lia.
    replace (25 + (e0 + (d - 24)) - 24 - (e0 + (d - 24))) with 1 by lia.
    cbn [shr SpecFloat.iter_pos shr_1 shr_m].
    rewrite (proj2 (Z.leb_le _ _)) by (cbn; lia). reflexivity.
Qed.

(** ** The increment of the angle *)

Lemma shl_align_down m e ez :
  ez <= e →
  shl_align m e ez = (Z.to_pos (Z.pos m * 2 ^ (e - ez)), ez)
  ∨ (e = ez ∧ shl_align m e ez = (m, e)).
Proof.
  intros Hle. unfold shl_align.
  destruct (ez - e) as [|d|d] eqn:E; [right|lia|left].
  - split; [lia|done].
  - f_equal. apply Pos2Z.inj. rewrite iter_xO.
    assert (0 < 2 ^ Z.pos d) by (apply Z.pow_pos_nonneg; lia).
    rewrite Z2Pos.id by (replace (e - ez) with (Z.pos d) by lia; lia).
    f_equal. f_equal. lia.
Qed.

Lemma shl_align_value m e ez :
  ez <= e → Z.pos (shl_align m e ez).1 = Z.pos m * 2 ^ (e - ez).
Proof.
  intros Hle.
  assert (0 < 2 ^ (e - ez)) by (apply Z.pow_pos_nonneg; lia).
  destruct (shl_align_down m e ez Hle) as [->|[-> ->]]; cbn [fst].
  - rewrite Z2Pos.id; lia.
  - rewrite Z.sub_diag. cbn. lia.
Qed.

(** A sum of at least 24 digits is rounded as it stands. *)
Lemma binary_round_wide (p : positive) e0 :
  24 <= Z.pos (digits2_pos p) → -149 <= e0 →
  binary_round 24 128 false p e0 = binary_round_aux 24 128 false (Z.pos p) e0 loc_Exact.
Proof.
  intros Hd He. unfold binary_round.
  rewrite fexp_normal by lia. unfold shl_align.
  destruct (Z.pos (digits2_pos p) + e0 - 24 - e0) eqn:E; try reflexivity. lia.
Qed.

Lemma b32_add_increment (m : positive) (e : Z) :
  Z.pos (digits2_pos m) = 24 → -32 <= e <= -7 →
  ∃ m' e',
    b32_add (S754_finite false m e) lit_0_0025 = S754_finite false m' e'
    ∧ Z.pos (digits2_pos m') = 24
    ∧ ((e' = e ∧ Z.pos m <= Z.pos m' ∧ (e <= -8 → Z.pos m < Z.pos m'))
       ∨ (e' = e + 1 ∧ e <= -8 ∧ (e = -8 → m' = 8388608%positive))).
Proof.
  intros Hdm He.
  pose proof (digits2_pos_bounds m) as Hm. rewrite Hdm in Hm.
  change (2 ^ (24 - 1)) with 8388608 in Hm. change (2 ^ 24) with 16777216 in Hm.
  unfold b32_add, SFadd, lit_0_0025, b32_prec, b32_emax.
  rewrite (Z.min_r e (-32)) by lia.
  change (shl_align 10737418 (-32) (-32)).1 with 10737418%positive.
  cbn [cond_Zopp].
  pose proof (shl_align_value m e (-32) ltac:(lia)) as HA.
  set (a := (shl_align m e (-32)).1) in *. clearbody a.
  replace (e - -32) with (e + 32) in HA by lia.
  set (P := 2 ^ (e + 32)) in *.
  assert (1 <= P) as HP1.
  { unfold P. change 1 with (2 ^ 0). apply Z.pow_le_mono_r; lia. }
  assert (P <= 33554432) as HP2.
  { unfold P. change 33554432 with (2 ^ 25). apply Z.pow_le_mono_r; lia. }
  assert (e <= -8 → P <= 16777216) as HP3.
  { intros H. unfold P. change 16777216 with (2 ^ 24). apply Z.pow_le_mono_r; lia. }
  assert (e = -7 → P = 33554432) as HP4 by (intros ->; reflexivity).
  assert (e = -8 → P = 16777216) as HP5 by (intros ->; reflexivity).
  assert (2 ^ (23 + (e + 32)) = 8388608 * P) as EP1
    by (unfold P; rewrite Z.pow_add_r by lia; reflexivity).
  assert (2 ^ (25 + (e + 32)) = 33554432 * P) as EP2
    by (unfold P; rewrite Z.pow_add_r by lia; reflexivity).
  assert (2 ^ (e + 32 + 1) = 2 * P) as EP3
    by (unfold P; rewrite Z.pow_add_r by lia; change (2 ^ 1) with 2; lia).
  change (Z.pos a + 10737418) with (Z.pos (a + 10737418)).
  cbn [binary_normalize].
  set (p := (a + 10737418)%positive).
  assert (Z.pos p = Z.pos m * P + 10737418) as Hp by (unfold p; lia).
  assert (8388608 * P <= Z.pos p < 33554432 * P) as Hpb by nia.
  pose proof (digits2_pos_bounds p) as Hd.
  set (d := Z.pos (digits2_pos p)) in *.
  assert (d = 24 + (e + 32) ∨ d = 25 + (e + 32)) as Hcase.
  { assert (d - 1 < 25 + (e + 32)).
    { apply (Z.pow_lt_mono_r_iff 2); [lia|lia|]. rewrite EP2. lia. }
    assert (23 + (e + 32) < d).
    { apply (Z.pow_lt_mono_r_iff 2); [lia|unfold d; lia|]. rewrite EP1. lia. }
    lia. }
  rewrite binary_round_wide by (fold d; lia).
  destruct (binary_round_aux_nearest p (-32) d eq_refl ltac:(lia) ltac:(lia)
              ltac:(lia)) as (R & HR & Hnear & ->).
  change (2 ^ 23) with 8388608 in *. change (2 ^ 24) with 16777216 in *.
  destruct Hcase as [Ed|Ed].
  - (* the sum has as many digits as the angle *)
    replace (d - 24) with (e + 32) in * by lia. fold P in Hnear.
    assert (Z.pos m <= R) as HmR by nia.
    assert (e <= -8 → Z.pos m < R) as HmR' by (intros H; specialize (HP3 H); nia).
    destruct (Z.ltb_spec R 16777216) as [Hlt|Hge].
    + exists (Z.to_pos R), (-32 + (e + 32)). split; [done|].
      rewrite Z2Pos.id by lia.
      split; [apply digits2_pos_unique; rewrite Z2Pos.id by lia; cbn; lia|].
      left. split_and!; [lia|lia|done].
    + exists 8388608%positive, (-32 + (e + 32) + 1). split; [done|].
      split; [reflexivity|]. right.
      assert (e <= -8) as He8.
      { destruct (decide (e = -7)) as [E7|]; [|lia].
        specialize (HP4 E7). nia. }
      split_and!; [lia|done|done].
  - (* the sum has one digit more *)
    replace (d - 24) with (e + 32 + 1) in * by lia. rewrite EP3 in Hnear.
    assert (e <= -8) as He8.
    { destruct (decide (e = -7)) as [E7|]; [|lia].
      specialize (HP4 E7). subst d. rewrite Ed in Hd.
      replace (25 + (e + 32) - 1) with (24 + (e + 32)) in Hd by lia.
      rewrite Z.pow_add_r in Hd by lia. fold P in Hd.
      change (2 ^ 24) with 16777216 in Hd. nia. }
    destruct (Z.ltb_spec R 16777216) as [Hlt|Hge].
    + exists (Z.to_pos R), (-32 + (e + 32 + 1)). split; [done|].
      split; [apply digits2_pos_unique; rewrite Z2Pos.id by lia; cbn; lia|].
      right. split_and!; [lia|done|].
      intros E8. specialize (HP5 E8).
      assert (R = 8388608) as -> by nia. reflexivity.
    + exfalso. nia.
Qed.

(** ** The order of the angles *)

Lemma normal_mantissa m :
  Z.pos (digits2_pos m) = 24 → 8388608 <= Z.pos m < 16777216.
Proof. intros H. pose proof (digits2_pos_bounds m) as Hb. by rewrite H in Hb. Qed.

Lemma b32_leb_finite m1 e1 m2 e2 :
  b32_leb (S754_finite false m1 e1) (S754_finite false m2 e2) = true
  ↔ e1 < e2 ∨ (e1 = e2 ∧ Z.pos m1 <= Z.pos m2).
Proof.
  unfold b32_leb, SFleb, SFcompare. rewrite Pos.compare_cont_spec.
  cbn [Pos.switch_Eq].
  destruct (Z.compare_spec e1 e2) as [->|?|?].
  - destruct (Pos.compare_spec m1 m2) as [->|?|?];
      split; intros; try done; lia.
  - split; intros; try done; lia.
  - split; intros; try done; lia.
Qed.

Lemma b32_ltb_finite m1 e1 m2 e2 :
  b32_ltb (S754_finite false m1 e1) (S754_finite false m2 e2) = true
  ↔ e1 < e2 ∨ (e1 = e2 ∧ Z.pos m1 < Z.pos m2).
Proof.
  unfold b32_ltb, SFltb, SFcompare. rewrite Pos.compare_cont_spec.
  cbn [Pos.switch_Eq].
  destruct (Z.compare_spec e1 e2) as [->|?|?].
  - destruct (Pos.compare_spec m1 m2) as [->|?|?];
      split; intros; try done; lia.
  - split; intros; try done; lia.
  - split; intros; try done; lia.
Qed.

Lemma angle_range_finite m e :
  angle_range (S754_finite false m e) = true ↔
  Z.pos (digits2_pos m) = 24 ∧ -32 <= e
  ∧ (e <= -8 ∨ (e = -7 ∧ m = 8388608%positive)).
Proof.
  unfold angle_range, angle_limit.
  rewrite !andb_true_iff, Z.eqb_eq, Z.leb_le, b32_leb_finite.
  split.
  - intros [[Hd He] Hc]. split_and!; [done..|].
    apply normal_mantissa in Hd.
    destruct Hc as [Hc|[-> Hc]]; [left; lia|right].
    split; [done|]. apply Pos2Z.inj. lia.
  - intros (Hd & He & Hc). split_and!; [done..|].
    destruct Hc as [Hc|[-> ->]]; [left; lia|right; split; [done|lia]].
Qed.

Lemma angle_range_cases a :
  angle_range a = true →
  a = S754_zero false
  ∨ ∃ m e, a = S754_finite false m e ∧ 8388608 <= Z.pos m < 16777216
           ∧ Z.pos (digits2_pos m) = 24 ∧ -32 <= e
           ∧ (e <= -8 ∨ (e = -7 ∧ m = 8388608%positive)).
Proof.
  intros H. destruct a as [[]|[]| |[] m e]; try discriminate H; [by left|right].
  apply angle_range_finite in H as (Hd & He & Hc).
  exists m, e. split_and!; try done; by apply normal_mantissa.
Qed.

(** The comparisons of two angles are those of their ranks. *)
Lemma angle_rank_order a b :
  angle_range a = true → angle_range b = true →
  (b32_leb a b = true ↔ angle_rank a <= angle_rank b)
  ∧ (b32_ltb a b = true ↔ angle_rank a < angle_rank b).
Proof.
  intros Ha Hb.
  destruct (angle_range_cases a Ha) as [->|(m1 & e1 & -> & Hm1 & _ & He1 & _)];
    destruct (angle_range_cases b Hb) as [->|(m2 & e2 & -> & Hm2 & _ & He2 & _)].
  - split; split; intros; try done; lia.
  - unfold angle_rank. split; split; intros; try done; lia.
  - unfold angle_rank. split; split; intros; try done; lia.
  - rewrite b32_leb_finite, b32_ltb_finite. unfold angle_rank.
    split; split; intros; lia.
Qed.

Lemma angle_range_limit a :
  angle_range a = true →
  a = angle_limit ∨ angle_rank a < angle_rank angle_limit.
Proof.
  intros Ha.
  destruct (angle_range_cases a Ha) as [->|(m & e & -> & Hm & _ & He & Hc)].
  - right. reflexivity.
  - destruct Hc as [Hc|[-> ->]]; [right|by left].
    unfold angle_rank, angle_limit. lia.
Qed.

(** One addition of 0.0025f to an angle: the sum is an angle again, it is
    not less, and it is more unless the angle is 65536. *)
Lemma angle_step a :
  angle_range a = true →
  angle_range (b32_add a lit_0_0025) = true
  ∧ angle_rank a <= angle_rank (b32_add a lit_0_0025)
  ∧ (angle_rank a < angle_rank angle_limit →
     angle_rank a < angle_rank (b32_add a lit_0_0025)).
Proof.
  intros Ha.
  destruct (angle_range_cases a Ha) as [->|(m & e & -> & Hm & Hd & He & Hc)].
  - split_and!; [reflexivity|done|reflexivity].
  - destruct Hc as [Hc|[-> ->]].
    2:{ split_and!; [reflexivity|reflexivity|]. intros H. by vm_compute in H. }
    destruct (b32_add_increment m e Hd ltac:(lia))
      as (m' & e' & -> & Hd' & Hres).
    pose proof (normal_mantissa m' Hd') as Hm'.
    split_and!.
    + apply angle_range_finite. split; [done|].
      destruct Hres as [(-> & _)|(-> & _ & H8)]; [split; [lia|by left]|].
      split; [lia|]. destruct (decide (e = -8)) as [E8|]; [|left; lia].
      right. split; [lia|by apply H8].
    + unfold angle_rank. destruct Hres as [(-> & ? & _)|(-> & _)]; lia.
    + intros _. unfold angle_rank.
      destruct Hres as [(-> & _ & Hlt)|(-> & _)]; [specialize (Hlt Hc)|]; lia.
Qed.

Lemma angle_iter k a :
  angle_range a = true →
  let a' := Nat.iter k (λ x, b32_add x lit_0_0025) a in
  angle_range a' = true ∧ angle_rank a <= angle_rank a'.
Proof.
  intros Ha. cbv zeta.
  induction k as [|k [IHr IHo]]; [split; [exact Ha|apply Z.le_refl]|].
  rewrite Nat.iter_succ.
  destruct (angle_step _ IHr) as (Hr & Ho & _).
  split; [done|lia].
Qed.

(** From any angle, enough additions lead to 65536. *)
Lemma angle_reaches_limit a :
  angle_range a = true →
  ∃ k, Nat.iter k (λ x, b32_add x lit_0_0025) a = angle_limit.
Proof.
  intros Ha.
  remember (Z.to_nat (angle_rank angle_limit - angle_rank a)) as n eqn:En.
  revert a Ha En. induction n as [n IH] using lt_wf_ind. intros a Ha En.
  destruct (angle_range_limit a Ha) as [->|Hlt]; [by exists O|].
  destruct (angle_step a Ha) as (Hr & _ & Hs). specialize (Hs Hlt).
  destruct (angle_range_limit _ Hr) as [E|Hlt'].
  - exists 1%nat. exact E.
  - destruct (IH (Z.to_nat (angle_rank angle_limit
                            - angle_rank (b32_add a lit_0_0025)))
                ltac:(lia) _ Hr eq_refl) as (k & Hk).
    exists (S k). by rewrite Nat.iter_succ_r.
Qed.

(** ** The locals across the loop *)

Lemma loop_locals_stopped inputs l : running l = false → loop_locals inputs l = l.
Proof. intros H. destruct inputs; cbn; by rewrite ?H. Qed.

Lemma angle_loop_locals inputs l :
  angle (loop_locals inputs l)
  = Nat.iter (iterations inputs (running l))
             (λ a, b32_add a lit_0_0025) (angle l).
Proof.
  revert l. induction inputs as [|input rest IH]; intros l; [done|].
  cbn [loop_locals iterations]. destruct (running l) eqn:Hr; [|done].
  rewrite IH. cbn [iteration_locals running angle]. rewrite Hr, andb_true_l.
  by rewrite Nat.iter_succ_r.
Qed.

Lemma iterations_executed inputs :
  quits inputs = false → iterations inputs true = length inputs.
Proof.
  induction inputs as [|input rest IH]; [done|].
  unfold quits. cbn [existsb iterations length].
  intros [Hq Hrest]%orb_false_elim. rewrite Hq. cbn [negb]. by rewrite IH.
Qed.

Lemma quits_replicate n input :
  has_quit input = false → quits (replicate n input) = false.
Proof.
  intros Hq. unfold quits. induction n as [|n IH]; [done|].
  cbn [replicate existsb]. by rewrite Hq, IH.
Qed.

(** C10, as amended.  One iteration of the loop issues its calls in this
    order: the polls that drain the event queue (a quit event clears
    [running]), then, the keyboard having been read and the camera and the
    model transform updated in between without any call, the clear colour
    and the clear of the colour and depth targets, the activation of the
    shader, the lookup of [mvp] and the upload of projection * view * model
    as the one uniform, the draw of the mesh, the present.  The model is the
    rotation about (0, 1, 0) by the angle the iteration starts with, and the
    iteration ends by adding 0.0025f to the angle in single precision.  After
    the loop has executed k iterations, the angle is the k-fold rounded sum
    that starts from its initial value.  The angle never decreases: the 0.0f
    that [main] starts with lies between +0 and 65536, and from an angle in
    that range every iteration leaves an angle in that range that is not less
    than before, and that is greater than before as long as the angle is less
    than 65536; at 65536 the sum is 65536 again.  So the angle after any
    number of iterations is in that range and not less than the angle the
    loop started with. *)
Theorem iteration_order_and_angle
    (win : N) (shader : Shader.t) (cube : Mesh.t) (input : FrameInput)
    (inputs : list FrameInput) (l : Locals) (w : World) :
  (∃ location,
     let r := iteration win shader cube input l w in
     calls r.2 = calls w
                 ++ iteration_calls win shader cube input (angle l) location
     ∧ console r.2 = console w
     ∧ r.1 = iteration_locals input l)
  ∧ angle (main_loop win shader cube inputs l w).1
    = Nat.iter (iterations inputs (running l))
               (λ a, b32_add a lit_0_0025) (angle l)
  ∧ angle_range (angle initial_locals) = true
  ∧ (angle_range (angle l) = true →
     let l1 := (iteration win shader cube input l w).1 in
     let ln := (main_loop win shader cube inputs l w).1 in
     angle_range (angle l1) = true
     ∧ b32_leb (angle l) (angle l1) = true
     ∧ (b32_ltb (angle l) angle_limit = true →
        b32_ltb (angle l) (angle l1) = true)
     ∧ (angle l = angle_limit → angle l1 = angle_limit)
     ∧ angle_range (angle ln) = true
     ∧ b32_leb (angle l) (angle ln) = true).
Proof.
  destruct (iteration_steps win shader cube input l w)
    as (location & w' & Hr & He & Hc).
  split_and!.
  - exists location. rewrite (runs_eq _ _ _ _ Hr). cbn [fst snd].
    split_and!; [apply He|done|done].
  - rewrite main_loop_locals. apply angle_loop_locals.
  - reflexivity.
  - intros Ha. cbv zeta.
    rewrite (runs_eq _ _ _ _ Hr), main_loop_locals, angle_loop_locals.
    cbn [fst iteration_locals angle].
    destruct (angle_step _ Ha) as (Hr1 & Ho1 & Hs1).
    destruct (angle_iter (iterations inputs (running l)) _ Ha) as (Hrn & Hon).
    assert (angle_range angle_limit = true) as Hlim by (vm_compute; reflexivity).
    split_and!.
    + done.
    + by apply (angle_rank_order _ _ Ha Hr1).
    + intros Hlt. apply (angle_rank_order _ _ Ha Hr1).
      apply Hs1. by apply (angle_rank_order _ _ Ha Hlim).
    + intros ->. vm_compute. reflexivity.
    + done.
    + by apply (angle_rank_order _ _ Ha Hrn).
Qed.

(** From the state in which [main] enters the loop, two iterations without
    events: the angle is 0.0f, then 0.0025f, then 0.005f. *)
Lemma iteration_order_and_angle_witness :
  let w := loop_entry sample_platform in
  let l1 := (iteration sample_window sample_shader sample_cube
               (frame_holding []) initial_locals w).1 in
  let l2 := (main_loop sample_window sample_shader sample_cube
               (replicate 2 (frame_holding [])) initial_locals w).1 in
  b32_ltb (angle initial_locals) (angle l1) = true
  ∧ b32_leb (angle initial_locals) (angle l2) = true.
Proof.
  intros w l1 l2.
  destruct (iteration_order_and_angle sample_window sample_shader sample_cube
              (frame_holding []) (replicate 2 (frame_holding []))
              initial_locals w) as (_ & _ & Hr & H).
  destruct (H Hr) as (_ & _ & Hlt & _ & _ & Hle).
  split; [apply Hlt; reflexivity|exact Hle].
Defined.

(** C10, as stated, fails.  From the state in which [main] enters the loop,
    with no key held and no event: the fifth iteration adds 0.0025f to the
    angle once, and the exact advance is not the increment; after six
    iterations the angle is neither six times the increment exactly nor the
    single-precision product of 6 and the increment.  Nor does the angle
    increase in every iteration: some number of iterations brings it to
    65536, and the next iteration leaves it there, since 65536.0f + 0.0025f
    is 65536.0f in single precision. *)
Lemma angle_advance_is_rounded :
  let after n :=
    (main_loop sample_window sample_shader sample_cube
       (replicate n (frame_holding [])) initial_locals
       (loop_entry sample_platform)).1 in
  angle (after 5%nat) = b32_add (angle (after 4%nat)) lit_0_0025
  ∧ b32_exact_advance (angle (after 4%nat)) (angle (after 5%nat))
    ≠ b32_units lit_0_0025
  ∧ b32_units (angle (after 6%nat)) ≠ (λ u, 6 * u) <$> b32_units lit_0_0025
  ∧ angle (after 6%nat) ≠ b32_mul (b32_of_Z 6) lit_0_0025
  ∧ b32_add angle_limit lit_0_0025 = angle_limit
  ∧ b32_units angle_limit = Some (65536 * 2 ^ 149)
  ∧ ∃ k, angle (after k) = angle_limit
         ∧ angle (after (S k)) = angle_limit
         ∧ b32_ltb (angle (after k)) (angle (after (S k))) = false.
Proof.
  intros after.
  assert (∀ n, angle (after n)
               = Nat.iter n (λ a, b32_add a lit_0_0025) lit_0_0) as Hafter.
  { intros n. unfold after. rewrite main_loop_locals, angle_loop_locals.
    cbn [initial_locals running angle].
    rewrite iterations_executed, length_replicate;
      [done|by apply quits_replicate]. }
  split_and!.
  - rewrite !Hafter. reflexivity.
  - rewrite !Hafter. vm_compute. discriminate.
  - rewrite !Hafter. vm_compute. discriminate.
  - rewrite !Hafter. vm_compute. discriminate.
  - vm_compute. reflexivity.
  - vm_compute. reflexivity.
  - destruct (angle_reaches_limit lit_0_0 eq_refl) as (k & Hk).
    exists k. rewrite !Hafter, Nat.iter_succ, Hk.
    split_and!; [done|vm_compute; reflexivity..].
Qed.

(** ** The camera *)

Lemma all_executed_cons input rest :
  all_executed (input :: rest) →
  all_executed rest ∧ (rest ≠ [] → has_quit input = false).
Proof.
  intros H. split.
  - intros i x Hi Hlt. apply (H (S i) x); [done|]. cbn [length]. lia.
  - intros Hne. apply (H O input); [done|]. destruct rest; [done|]. cbn. lia.
Qed.

(** While every iteration is executed, each camera coordinate is moved by
    its own two keys, one iteration after the other. *)
Lemma camera_loop_locals inputs l :
  running l = true → all_executed inputs →
  cameraX (loop_locals inputs l)
  = foldl (λ x input, move_axis (keyboardState input)
                        SDL_SCANCODE_D SDL_SCANCODE_A x) (cameraX l) inputs
  ∧ cameraY (loop_locals inputs l)
    = foldl (λ y input, move_axis (keyboardState input)
                          SDL_SCANCODE_SPACE SDL_SCANCODE_LSHIFT y)
            (cameraY l) inputs
  ∧ cameraZ (loop_locals inputs l)
    = foldl (λ z input, move_axis (keyboardState input)
                          SDL_SCANCODE_W SDL_SCANCODE_S z) (cameraZ l) inputs.
Proof.
  revert l. induction inputs as [|input rest IH]; intros l Hr Hex; [done|].
  apply all_executed_cons in Hex as [Hex Hq].
  cbn [loop_locals foldl]. rewrite Hr.
  destruct rest as [|input' rest'].
  - done.
  - apply (IH (iteration_locals input l)); [|done].
    cbn [iteration_locals running]. rewrite Hr, Hq; done.
Qed.

Lemma foldl_iter {A B} (f : A → B → A) (g : A → A) (l : list B) (a : A) :
  (∀ x b, b ∈ l → f x b = g x) → foldl f a l = Nat.iter (length l) g a.
Proof.
  revert a. induction l as [|b l IH]; intros a H; [done|].
  cbn [foldl length]. rewrite Nat.iter_succ_r, (H a b) by set_solver.
  apply IH. intros x b' Hb. apply H. set_solver.
Qed.

(** C1, as amended.  Let the loop execute N iterations (no quit event before
    the last one) in each of which D is held and A is not.  Then the camera X
    variable ends as its initial value with moveSpeed added N times in single
    precision, each sum rounded; the Y and Z variables are moved in the same
    way by Space and Left-Shift and by W and S, and by no other key. *)
Theorem camera_integration
    (n : nat) (win : N) (shader : Shader.t) (cube : Mesh.t)
    (inputs : list FrameInput) (l : Locals) (w : World) :
  length inputs = n →
  running l = true →
  all_executed inputs →
  (∀ input, input ∈ inputs →
     keyboardState input SDL_SCANCODE_D ≠ 0%N
     ∧ keyboardState input SDL_SCANCODE_A = 0%N) →
  let l' := (main_loop win shader cube inputs l w).1 in
  cameraX l' = Nat.iter n (λ x, b32_add x moveSpeed) (cameraX l)
  ∧ cameraY l'
    = foldl (λ y input, move_axis (keyboardState input)
                          SDL_SCANCODE_SPACE SDL_SCANCODE_LSHIFT y)
            (cameraY l) inputs
  ∧ cameraZ l'
    = foldl (λ z input, move_axis (keyboardState input)
                          SDL_SCANCODE_W SDL_SCANCODE_S z) (cameraZ l) inputs.
Proof.
  intros Hn Hr Hex Hkeys l'. subst l' n. rewrite main_loop_locals.
  destruct (camera_loop_locals inputs l Hr Hex) as (HX & HY & HZ).
  split_and!; [|done..].
  rewrite HX. apply foldl_iter. intros x input Hin.
  destruct (Hkeys input Hin) as [HD HA]. unfold move_axis.
  cbv zeta. rewrite (decide_True (P := _ SDL_SCANCODE_D ≠ _)) by done.
  by rewrite decide_False by (intros Hne; apply Hne, HA).
Qed.

(** D held for three iterations from the state in which [main] enters the
    loop. *)
Lemma camera_integration_witness :
  let l' := (main_loop sample_window sample_shader sample_cube
               (replicate 3 (frame_holding [SDL_SCANCODE_D])) initial_locals
               (loop_entry sample_platform)).1 in
  cameraX l' = b32_add (b32_add (b32_add lit_0_0 moveSpeed) moveSpeed) moveSpeed
  ∧ cameraY l' = lit_0_0
  ∧ cameraZ l' = lit_neg_5_0.
Proof.
  apply (camera_integration 3 sample_window sample_shader sample_cube
           (replicate 3 (frame_holding [SDL_SCANCODE_D])) initial_locals
           (loop_entry sample_platform)).
  - reflexivity.
  - reflexivity.
  - intros i input Hi _. apply lookup_replicate in Hi as [-> _]. reflexivity.
  - intros input Hin. apply elem_of_replicate in Hin as [-> _].
    split; [discriminate|reflexivity].
Defined.

(** C1, as stated, fails.  From the state in which [main] enters the loop,
    where camera X is 0: after six iterations with D held (and nothing else)
    camera X is neither six times moveSpeed exactly nor the single-precision
    product of 6 and moveSpeed; and after one iteration with D and A both
    held it has not changed at all. *)
Lemma camera_sum_is_rounded :
  let after inputs :=
    (main_loop sample_window sample_shader sample_cube inputs initial_locals
       (loop_entry sample_platform)).1 in
  let six := replicate 6 (frame_holding [SDL_SCANCODE_D]) in
  cameraX initial_locals = lit_0_0
  ∧ b32_units (cameraX (after six)) ≠ (λ u, 6 * u) <$> b32_units moveSpeed
  ∧ cameraX (after six) ≠ b32_mul (b32_of_Z 6) moveSpeed
  ∧ cameraX (after [frame_holding [SDL_SCANCODE_D; SDL_SCANCODE_A]]) = lit_0_0.
Proof. vm_compute. split_and!; [reflexivity|discriminate..|reflexivity]. Qed.

(** ** Keyboard input and what is rendered *)

Lemma bind_ext {A B} (m : M A) (k1 k2 : A → M B) w :
  (∀ a w', k1 a w' = k2 a w') → (m ≫= k1) w = (m ≫= k2) w.
Proof. intros H. rewrite !bind_eq. apply H. Qed.

(** Descend below the calls that two programs share. *)
Ltac under_shared_calls :=
  repeat first
    [ apply bind_ext; intros ? ?
    | match goal with
      | |- (if ?c then _ else _) _ = (if ?c then _ else _) _ =>
          destruct c; [reflexivity|]
      end ].

(** C2. Two runs of [main] from the same world whose inputs carry the same
    events in every iteration, whatever keys are held in each, return the
    same exit status and leave the same world: the same calls with the same
    arguments in the same order (every uploaded [mvp] matrix and every draw
    call among them), the same console, the same state of the context.  The
    view matrix is the constant [view]; the camera variables occur in no
    call. *)
Theorem keyboard_never_reaches_the_screen
    (inputs1 inputs2 : list FrameInput) (w : World) :
  map events inputs1 = map events inputs2 →
  main inputs1 w = main inputs2 w.
Proof.
  intros He. unfold main. under_shared_calls.
  rewrite (bind_eq (main_loop _ _ _ inputs1 _)),
          (bind_eq (main_loop _ _ _ inputs2 _)).
  rewrite !main_loop_locals.
  match goal with
  | |- context [main_loop ?win ?sh ?cube inputs1 ?l ?w0] =>
      destruct (main_loop_world win sh cube inputs1 inputs2 l l w0 He
                  eq_refl eq_refl) as [Hw Hr]
  end.
  by rewrite Hw, Hr.
Qed.

(** D held in the first run, nothing in the second, then a quit event. *)
Lemma keyboard_never_reaches_the_screen_witness :
  main [frame_holding [SDL_SCANCODE_D]; quit_frame]
       (initial_world sample_platform)
  = main [frame_holding []; quit_frame] (initial_world sample_platform).
Proof.
  apply (keyboard_never_reaches_the_screen
           [frame_holding [SDL_SCANCODE_D]; quit_frame]
           [frame_holding []; quit_frame] (initial_world sample_platform)).
  reflexivity.
Defined.


(** ** Quiet programs *)

Lemma quiet_ret {A} (a : A) : quiet (mret a : M A).
Proof. intros w. exists []. split; [apply extends_refl|done]. Qed.

Lemma quiet_bind {A B} (m : M A) (k : A → M B) :
  quiet m → (∀ a, quiet (k a)) → quiet (m ≫= k).
Proof.
  intros Hm Hk w. destruct (Hm w) as (d1 & E1 & F1).
  destruct (Hk (m w).1 (m w).2) as (d2 & E2 & F2).
  exists (d1 ++ d2). split; [by apply extends_bind|].
  by rewrite filter_app, F1, F2.
Qed.

Lemma quiet_gl_query {A} (c : A → Call) f old :
  (∀ a, is_milestone (c a) = false) → quiet (gl_query c f old).
Proof.
  intros Hc w. eexists. split; [apply extends_gl_query|].
  rewrite filter_cons_False; [done|]. rewrite Hc. cbn. tauto.
Qed.

Lemma quiet_gl_command c f : is_milestone c = false → quiet (gl_command c f).
Proof. intros Hc. by apply quiet_gl_query. Qed.

Lemma quiet_get_platform : quiet get_platform.
Proof. intros w. exists []. split; [apply extends_refl|done]. Qed.

Lemma quiet_cout text : quiet (cout text).
Proof.
  intros w. exists []. split; [|done]. unfold extends. cbn.
  by rewrite (right_id_L [] (++)).
Qed.

Lemma quiet_SDL_GetKeyboardState : quiet SDL_GetKeyboardState.
Proof. intros w. exists [Call_SDL_GetKeyboardState]. split; [apply extends_record|done]. Qed.

(** Decompose a program into its calls. *)
Ltac quiet_through :=
  repeat first
    [ apply quiet_ret
    | apply quiet_get_platform
    | apply quiet_cout
    | apply quiet_SDL_GetKeyboardState
    | (apply quiet_gl_command; reflexivity)
    | (apply quiet_gl_query; intros; reflexivity)
    | (apply quiet_bind; [|intros ?])
    | match goal with |- quiet (if ?c then _ else _) => destruct c end ].

Lemma quiet_Shader vs fs : quiet (Shader.Shader vs fs).
Proof.
  unfold Shader.Shader, Shader.checkShaderCompileErrors,
    Shader.checkProgramLinkErrors, glCreateShader, glShaderSource,
    glCompileShader, glGetShaderiv, glGetShaderInfoLog, glCreateProgram,
    glAttachShader, glLinkProgram, glGetProgramiv, glGetProgramInfoLog,
    glDeleteShader.
  quiet_through.
Qed.

Lemma quiet_Mesh vs ixs : quiet (Mesh.Mesh vs ixs).
Proof.
  unfold Mesh.Mesh, Mesh.setupMesh, glGenVertexArrays, glGenBuffers,
    glBindVertexArray, glBindBuffer, glBufferData, glVertexAttribPointer,
    glEnableVertexAttribArray.
  quiet_through.
Qed.

Lemma quiet_glEnable cap : quiet (glEnable cap).
Proof. unfold glEnable. quiet_through. Qed.

(** ** main: the initialisation chain *)

Lemma running_loop_locals inputs l :
  running (loop_locals inputs l) = running l && negb (quits inputs).
Proof.
  revert l. induction inputs as [|input rest IH]; intros l.
  - cbn. by rewrite andb_true_r.
  - cbn [loop_locals quits existsb]. destruct (running l) eqn:Hr.
    + rewrite IH. cbn [iteration_locals running]. rewrite Hr.
      by destruct (has_quit input).
    + by rewrite Hr.
Qed.

Lemma bind_value {A B} (m : M A) (k : A → M B) w :
  ((m ≫= k) w).1 = (k (m w).1 (m w).2).1.
Proof. reflexivity. Qed.

Ltac lia_or := intros [?|[?|[?|?]]]; first [lia | done].

Ltac world_cbn :=
  cbn [platform sdl_initialized window gl_context device console calls
       record set_device set_sdl_initialized set_window set_gl_context
       initial_world fst snd
       SDL_Init SDL_GetError SDL_GL_SetAttribute SDL_CreateWindow
       SDL_GL_CreateContext set_glewExperimental glewInit
       SDL_GL_DeleteContext SDL_DestroyWindow
       SDL_Quit cout mret M_ret app].

(** C8. [main] on a platform: either a step of the initialisation chain
    fails (SDL_Init returns a negative value, SDL_CreateWindow or
    SDL_GL_CreateContext returns NULL, glewInit does not return GLEW_OK), and
    then [main] returns 1 after printing exactly one diagnostic and issuing
    the failed call followed by the release of what the earlier steps had
    acquired, which leaves no context, no window and the windowing subsystem
    shut down; or no step fails, and then [main] does not return 1 whatever
    the GLSL compiler, the linker and the uniform lookups do: it returns 0
    once an iteration sees a quit event, and it is still in the loop while
    none does. *)
Theorem init_failure_is_the_only_fatal_failure
    (P : Platform) (inputs : list FrameInput) :
  let r := main inputs (initial_world P) in
  (init_fails P
   ∧ r = (Some 1,
          {| platform := P; sdl_initialized := false; window := None;
             gl_context := None; device := None;
             console := [(init_failure P).1];
             calls := (init_failure P).2 |}))
  ∨ (¬ init_fails P
     ∧ r.1 = (if quits inputs then Some 0 else None)).
Proof.
  intros r. subst r. unfold init_fails, init_failure.
  destruct (Z.ltb_spec (plat_SDL_Init P) 0) as [Hi|Hi].
  { left. split; [by left|]. unfold main.
    apply Z.ltb_lt in Hi as Hb.
    assert ((0 <=? plat_SDL_Init P) = false) as Hb' by (apply Z.leb_gt; lia).
    repeat (progress (rewrite ?bind_eq; world_cbn; rewrite ?Hb, ?Hb')).
    reflexivity. }
  apply Z.ltb_ge in Hi as Hb.
  assert ((0 <=? plat_SDL_Init P) = true) as Hb' by (apply Z.leb_le; lia).
  destruct (decide (plat_SDL_CreateWindow P = 0%N)) as [Hw|Hw].
  { left. split; [right; by left|]. unfold main.
    repeat (progress (rewrite ?bind_eq; world_cbn; rewrite ?Hb, ?Hb';
      rewrite ?(decide_True (P := plat_SDL_CreateWindow P = 0%N)) by done)).
    reflexivity. }
  destruct (decide (plat_SDL_GL_CreateContext P = 0%N)) as [Hc|Hc].
  { left. split; [right; right; by left|]. unfold main.
    repeat (progress (rewrite ?bind_eq; world_cbn; rewrite ?Hb, ?Hb';
      rewrite ?(decide_False (P := plat_SDL_CreateWindow P = 0%N)) by done;
      rewrite ?(decide_True (P := plat_SDL_GL_CreateContext P = 0%N)) by done;
      rewrite ?(decide_True (P := Some _ = Some _)) by done)).
    reflexivity. }
  destruct (decide (plat_glewInit P = GLEW_OK)) as [Hg|Hg].
  2:{ left. split; [right; right; by right|]. unfold main.
    repeat (progress (rewrite ?bind_eq; world_cbn; rewrite ?Hb, ?Hb';
      rewrite ?(decide_False (P := plat_SDL_CreateWindow P = 0%N)) by done;
      rewrite ?(decide_False (P := plat_SDL_GL_CreateContext P = 0%N)) by done;
      rewrite ?(decide_True (P := plat_glewInit P ≠ GLEW_OK)) by done;
      rewrite ?(decide_True (P := Some _ = Some _)) by done)).
    reflexivity. }
  right. split; [lia_or|].
  unfold main.
  repeat (progress (rewrite ?bind_value; world_cbn; rewrite ?Hb;
    rewrite ?(decide_False (P := plat_SDL_CreateWindow P = 0%N)) by done;
    rewrite ?(decide_False (P := plat_SDL_GL_CreateContext P = 0%N)) by done;
    rewrite ?(decide_False (P := plat_glewInit P ≠ GLEW_OK)) by (by intros ?))).
  rewrite main_loop_locals, running_loop_locals.
  cbn [initial_locals running andb].
  destruct (quits inputs); reflexivity.
Qed.

(** ** main: start, one iteration, teardown *)

Lemma quiet_extends {A} (m : M A) w :
  quiet m → ∃ delta, extends w (m w).2 delta ∧ filter is_milestone delta = [].
Proof. intros H. apply H. Qed.

Lemma iterations_quit input rest :
  has_quit input = true → iterations (input :: rest) true = 1%nat.
Proof. intros H. cbn. rewrite H. cbn. by rewrite iterations_stopped. Qed.

Lemma quits_first input rest : has_quit input = true → quits (input :: rest) = true.
Proof. intros H. unfold quits. cbn. by rewrite H. Qed.

(** C3. On a platform on which the initialisation chain succeeds, let the
    first iteration of the loop find a quit event in the queue (whatever else
    is queued with it or would come later).  Then [main] returns 0, and the
    milestones among its calls are, in this order: one SDL_Init, one
    SDL_CreateWindow, one SDL_GL_CreateContext, one glewInit; the draw of the
    36 indices and the present of the single iteration; SDL_GL_DeleteContext
    on the context, SDL_DestroyWindow on the window, SDL_Quit.  At the end no
    context is current, no window exists and the windowing subsystem is shut
    down.  The last calls of all are those of the destructors of [cube] and
    [shader], which run when [main] returns, after SDL_Quit. *)
Theorem immediate_quit_runs_once
    (P : Platform) (input : FrameInput) (rest : list FrameInput) :
  ¬ init_fails P →
  has_quit input = true →
  let r := main (input :: rest) (initial_world P) in
  r.1 = Some 0
  ∧ filter is_milestone (calls r.2)
    = startup_milestones P
      ++ [ Call_glDrawElements GL_TRIANGLES 36 GL_UNSIGNED_INT 0;
           Call_SDL_GL_SwapWindow (plat_SDL_CreateWindow P) ]
      ++ teardown_calls P
  ∧ sdl_initialized r.2 = false
  ∧ window r.2 = None
  ∧ gl_context r.2 = None
  ∧ device r.2 = None
  ∧ ∃ before vao vbo ebo program,
      calls r.2 = before ++ teardown_calls P
                  ++ Mesh_destructor_calls vao vbo ebo
                  ++ [Call_glDeleteProgram program].
Proof.
  intros Hok Hq r. subst r. unfold init_fails in Hok.
  assert ((plat_SDL_Init P <? 0) = false) as Hb by (apply Z.ltb_ge; lia).
  assert (plat_SDL_CreateWindow P ≠ 0%N) as Hw by tauto.
  assert (plat_SDL_GL_CreateContext P ≠ 0%N) as Hc by tauto.
  assert (plat_glewInit P = GLEW_OK) as Hg.
  { destruct (decide (plat_glewInit P = GLEW_OK)); [done|tauto]. }
  unfold main.
  repeat (progress (rewrite ?bind_eq; world_cbn; rewrite ?Hb;
    rewrite ?(decide_False (P := plat_SDL_CreateWindow P = 0%N)) by done;
    rewrite ?(decide_False (P := plat_SDL_GL_CreateContext P = 0%N)) by done;
    rewrite ?(decide_False (P := plat_glewInit P ≠ GLEW_OK)) by (by intros ?))).
  match goal with
  | |- context [glEnable GL_DEPTH_TEST ?w] => set (W7 := w)
  end.
  assert (gl_context W7 = Some (plat_SDL_GL_CreateContext P)
          ∧ window W7 = Some (plat_SDL_CreateWindow P)) as [Hctx Hwin] by done.
  set (w1 := (glEnable GL_DEPTH_TEST W7).2).
  set (shader := (Shader.Shader _ _ w1).1).
  set (w2 := (Shader.Shader _ _ w1).2).
  set (cube := (Mesh.Mesh _ _ w2).1).
  set (w3 := (Mesh.Mesh _ _ w2).2).
  set (w4 := (SDL_GetKeyboardState w3).2).
  destruct (quiet_extends _ W7 (quiet_glEnable GL_DEPTH_TEST)) as (d1 & E1 & F1).
  destruct (quiet_extends _ w1 (quiet_Shader vertexShaderSource fragmentShaderSource))
    as (d2 & E2 & F2).
  destruct (quiet_extends _ w2 (quiet_Mesh vertices indices)) as (d3 & E3 & F3).
  pose proof (extends_record Call_SDL_GetKeyboardState w3) as E4.
  destruct (main_loop_steps (plat_SDL_CreateWindow P) shader cube
              (input :: rest) initial_locals w4)
    as (d5 & w5 & (R5 & E5 & _) & F5).
  fold w1 in E1. fold w2 in E2. fold w3 in E3.
  change (record Call_SDL_GetKeyboardState w3) with w4 in E4.
  rewrite (runs_eq _ _ _ _ R5). cbn [fst snd].
  pose proof (extends_trans _ _ _ _ _ E1
               (extends_trans _ _ _ _ _ E2
                 (extends_trans _ _ _ _ _ E3
                   (extends_trans _ _ _ _ _ E4 E5)))) as E.
  destruct E as (Ep & Ei & Ew & Ec & _ & Ecalls).
  assert (filter is_milestone (calls W7) = startup_milestones P) as F7
    by reflexivity.
  clearbody W7. cbn in Ep, Ei, Ew, Ec.
  rewrite running_loop_locals, (quits_first _ _ Hq).
  cbn [initial_locals running andb negb].
  unfold Mesh.destructor, Shader.destructor, glDeleteVertexArrays,
    glDeleteBuffers, glDeleteProgram, gl_command, gl_query.
  rewrite Hctx in Ec. rewrite Hwin in Ew.
  repeat (progress (rewrite ?bind_eq; world_cbn; rewrite ?Ec, ?Ew;
    rewrite ?(decide_True (P := Some _ = Some _)) by done)).
  split_and!; try done.
  - rewrite Ecalls, !filter_app, F7, F1, F2, F3, F5.
    rewrite (iterations_quit _ _ Hq). unfold iteration_milestones.
    replace (to_GLsizei (Mesh.indexCount cube)) with 36
      by (unfold cube; by rewrite Mesh_indexCount).
    reflexivity.
  - exists (calls w5), (Mesh.VAO cube), (Mesh.VBO cube), (Mesh.EBO cube),
      (Shader.programID shader).
    by rewrite <- !(assoc_L (++)).
Qed.

(** On the sample platform, with the quit event alone in the queue. *)
Lemma immediate_quit_runs_once_witness :
  (main [quit_frame] (initial_world sample_platform)).1 = Some 0.
Proof.
  apply (immediate_quit_runs_once sample_platform quit_frame []).
  - intros [H|[H|[H|H]]]; [discriminate H..|by apply H].
  - reflexivity.
Defined.
(** ** The mesh: what else the wrapper does *)

Lemma gl_fail_again e e' d : gl_fail e' (gl_fail e d) = gl_fail e d.
Proof. unfold gl_fail; dev_cbn. by destruct (gl_error d). Qed.


(** [draw] on a mesh whose vertex array exists. *)
Lemma Mesh_draw_runs cube vao P i wi ctx con cs va bufs shs prgs vab abb cp dt cc err :
  va !! Mesh.VAO cube = Some vao → Mesh.VAO cube ≠ 0%N →
  0 <= to_GLsizei (Mesh.indexCount cube) →
  runs (Mesh.draw cube)
       (Build_World P i wi ctx
          (Some (Build_Device va bufs shs prgs vab abb cp dt cc err)) con cs)
       tt
       (Build_World P i wi ctx
          (Some (Build_Device va bufs shs prgs 0%N abb cp dt cc err)) con
          (cs ++ [ Call_glBindVertexArray (Mesh.VAO cube);
                   Call_glDrawElements GL_TRIANGLES
                     (to_GLsizei (Mesh.indexCount cube)) GL_UNSIGNED_INT 0;
                   Call_glBindVertexArray 0%N ])).
Proof.
  intros Hva Hnz Hcount. unfold Mesh.draw, glBindVertexArray, glDrawElements.
  eapply runs_to.
  - step_command ltac:(unfold GL.BindVertexArray; dev_unfold;
      rewrite decide_False by done; rewrite Hva; reflexivity).
    step_command ltac:(unfold GL.DrawElements, GL.bound_vertex_array; dev_cbn;
      rewrite (proj2 (Z.ltb_ge _ _)) by done;
      rewrite decide_False by done; rewrite Hva; reflexivity).
    eapply runs_gl_command. unfold GL.BindVertexArray; dev_unfold. reflexivity.
  - by rewrite <- !(assoc_L (++)).
Qed.

(** Deleting with nothing bound: the name is removed when it is in use and
    the call is ignored when it is not. *)
Lemma DeleteVertexArrays_unbound n va bufs shs prgs abb cp dt cc err :
  GL.DeleteVertexArrays n (Build_Device va bufs shs prgs 0%N abb cp dt cc err)
  = Build_Device (delete n va) bufs shs prgs 0%N abb cp dt cc err.
Proof.
  unfold GL.DeleteVertexArrays; dev_unfold.
  destruct (va !! n) eqn:E.
  - by destruct (decide (0%N = n)).
  - by rewrite delete_id.
Qed.

Lemma DeleteBuffers_unbound n va bufs shs prgs cp dt cc err :
  GL.DeleteBuffers n (Build_Device va bufs shs prgs 0%N 0%N cp dt cc err)
  = Build_Device va (delete n bufs) shs prgs 0%N 0%N cp dt cc err.
Proof.
  unfold GL.DeleteBuffers, GL.bound_vertex_array; cbv zeta; dev_unfold.
  destruct (bufs !! n) eqn:E.
  - by destruct (decide (0%N = n)).
  - by rewrite delete_id.
Qed.

(** The destructor when no vertex array and no array buffer is bound: each
    of the three names is deleted when it is in use and ignored when it is
    not. *)
Lemma Mesh_destructor_runs cube P i wi ctx con cs va bufs shs prgs cp dt cc err :
  runs (Mesh.destructor cube)
       (Build_World P i wi ctx
          (Some (Build_Device va bufs shs prgs 0%N 0%N cp dt cc err)) con cs)
       tt
       (Build_World P i wi ctx
          (Some (Build_Device
                   (delete (Mesh.VAO cube) va)
                   (delete (Mesh.EBO cube) (delete (Mesh.VBO cube) bufs))
                   shs prgs 0%N 0%N cp dt cc err)) con
          (cs ++ Mesh_destructor_calls (Mesh.VAO cube) (Mesh.VBO cube)
                   (Mesh.EBO cube))).
Proof.
  unfold Mesh.destructor, glDeleteVertexArrays, glDeleteBuffers.
  eapply runs_to.
  - step_command ltac:(apply DeleteVertexArrays_unbound).
    step_command ltac:(apply DeleteBuffers_unbound).
    eapply runs_gl_command. apply DeleteBuffers_unbound.
  - by rewrite <- !(assoc_L (++)).
Qed.



Lemma vector_count_fits {A} (v : list A) :
  (N.of_nat (length v) < 2 ^ 31)%N → 0 <= to_GLsizei (vector_size v).
Proof.
  intros Hlt. unfold to_GLsizei, vector_size, wrap32.
  rewrite !N.mod_small by (rewrite ?N.mod_small; lia).
  destruct (Z.ltb_spec (Z.of_N (N.of_nat (length v))) (2 ^ 31)); lia.
Qed.

(** X2. Mesh::draw changes nothing but the binding.  For a mesh that has just
    been constructed in a current context from an index list of fewer than
    2^31 elements: any number of draws, one after the other, leave the state
    of the context exactly as the constructor left it (no object, no binding,
    no error flag differs) and write nothing; each draw issues its three
    calls. *)
Theorem draw_leaves_the_context_unchanged
    (vs : list float) (ixs : list N) (w : World) (d : Device) (n : nat) :
  device w = Some d →
  (N.of_nat (length ixs) < 2 ^ 31)%N →
  let r := Mesh.Mesh vs ixs w in
  let after := Nat.iter n (λ w', (Mesh.draw r.1 w').2) r.2 in
  device after = device r.2
  ∧ console after = console r.2
  ∧ calls after
    = calls r.2
      ++ mjoin (replicate n
           [ Call_glBindVertexArray (Mesh.VAO r.1);
             Call_glDrawElements GL_TRIANGLES (to_GLsizei (vector_size ixs))
                                 GL_UNSIGNED_INT 0;
             Call_glBindVertexArray 0%N ]).
Proof.
  intros Hd Hixs.
  destruct w as [P i wi ctx dev con cs]. cbn in Hd. subst dev.
  destruct d as [va bufs shs prgs vab abb cp dt cc err].
  destruct (Mesh_lifecycle vs ixs P i wi ctx con cs va bufs shs prgs vab abb
              cp dt cc err _ _ _ eq_refl eq_refl eq_refl) as [H1 _].
  destruct (Mesh_names_fresh va bufs new_buffer _ _ _ eq_refl eq_refl eq_refl)
    as (Hn1 & _).
  intros r. subst r. rewrite (runs_eq _ _ _ _ H1). cbn [fst snd].
  set (cube := {| Mesh.VAO := _ |}).
  set (w1 := Build_World _ _ _ _ _ _ _).
  induction n as [|n IH].
  - cbn. by rewrite (right_id_L [] (++)).
  - rewrite Nat.iter_succ. destruct IH as (IHd & IHc & IHcs).
    set (wn := Nat.iter n _ w1) in *.
    destruct wn as [P' i' wi' ctx' dev' con' cs'].
    cbn [device console calls] in IHd, IHc, IHcs. subst dev' con' cs'.
    erewrite (runs_eq (Mesh.draw cube)).
    2:{ eapply (Mesh_draw_runs cube); [apply lookup_insert_eq|done|].
        apply (vector_count_fits ixs Hixs). }
    cbn [snd device console calls]. split_and!; [done..|].
    rewrite <- (assoc_L (++)). f_equal.
    replace (S n) with (n + 1)%nat by lia.
    rewrite replicate_add, join_app. reflexivity.
Qed.

(** Two draws of the cube of [main]. *)
Lemma draw_leaves_the_context_unchanged_witness :
  let r := Mesh.Mesh vertices indices (context_world sample_platform) in
  let after := Nat.iter 2 (λ w', (Mesh.draw r.1 w').2) r.2 in
  device after = device r.2.
Proof.
  intros r after.
  destruct (draw_leaves_the_context_unchanged vertices indices
              (context_world sample_platform) new_device 2 eq_refl)
    as (H & _); [vm_compute; reflexivity|exact H].
Defined.

(** X3. Mesh::~Mesh releases what its handles name, and nothing else.  In a
    context in which no vertex array and no array buffer is bound (as the
    constructor and [draw] leave it), for any three handles: the destructor
    removes the vertex array and the two buffers that the handles name and
    leaves every other part of the state as it was, the error flag included;
    a handle that names no object is ignored without an error.  A second
    destruction with the same handles, as happens when a copy of the mesh is
    destroyed as well, finds nothing to delete and changes nothing. *)
Theorem mesh_destructor_releases_its_handles
    (cube : Mesh.t) (w : World) (d : Device) :
  device w = Some d →
  vertex_array_binding d = 0%N →
  array_buffer_binding d = 0%N →
  let r := Mesh.destructor cube w in
  let d' := set_buffers (delete (Mesh.EBO cube) (delete (Mesh.VBO cube) (buffers d)))
              (set_vertex_arrays (delete (Mesh.VAO cube) (vertex_arrays d)) d) in
  device r.2 = Some d'
  ∧ vertex_arrays d' !! Mesh.VAO cube = None
  ∧ buffers d' !! Mesh.VBO cube = None
  ∧ buffers d' !! Mesh.EBO cube = None
  ∧ device (Mesh.destructor cube r.2).2 = Some d'
  ∧ console (Mesh.destructor cube r.2).2 = console w.
Proof.
  intros Hd Hvab Habb.
  destruct w as [P i wi ctx dev con cs]. cbn in Hd. subst dev.
  destruct d as [va bufs shs prgs vab abb cp dt cc err].
  cbn in Hvab, Habb. subst vab abb.
  intros r d'. subst r d'.
  rewrite (runs_eq _ _ _ _ (Mesh_destructor_runs cube P i wi ctx con cs va
                              bufs shs prgs cp dt cc err)).
  cbn [snd].
  rewrite (runs_eq _ _ _ _ (Mesh_destructor_runs cube P i wi ctx con _ _
                              _ shs prgs cp dt cc err)).
  cbn [snd device console]. dev_unfold.
  split_and!; try done.
  - apply lookup_delete_eq.
  - destruct (decide (Mesh.EBO cube = Mesh.VBO cube)) as [->|Hne].
    + apply lookup_delete_eq.
    + rewrite lookup_delete_ne by done. apply lookup_delete_eq.
  - apply lookup_delete_eq.
  - f_equal. f_equal.
    + by rewrite delete_delete_eq.
    + apply map_eq. intros k.
      repeat (rewrite lookup_delete; case_decide); done.
Qed.

(** The cube of [main], destroyed twice. *)
Lemma mesh_destructor_releases_its_handles_witness :
  let r1 := Mesh.Mesh vertices indices (context_world sample_platform) in
  let r2 := Mesh.destructor r1.1 r1.2 in
  ∃ d', device r2.2 = Some d'
        ∧ device (Mesh.destructor r1.1 r2.2).2 = Some d'.
Proof.
  intros r1 r2.
  destruct (mesh_destructor_releases_its_handles r1.1 r1.2
              (default new_device (device r1.2)))
    as (H1 & _ & _ & _ & H2 & _); [vm_compute; reflexivity..|].
  eexists. split; [exact H1|exact H2].
Defined.

(** X4. Mesh::draw after the release.  [Mesh] declares no copy constructor and
    no assignment, so a copy of a mesh holds the same three handles, and the
    destructor of either releases the objects of both.  When a mesh has been
    constructed in a current context that had recorded no error, and its
    objects have been released: [draw] still issues its three calls, but the
    bind of the deleted vertex array raises [GL_INVALID_OPERATION], nothing is
    bound for the draw call, and the state of the context is otherwise as the
    destructor left it. *)
Theorem draw_after_release_is_rejected
    (vs : list float) (ixs : list N) (w : World) (d : Device) :
  device w = Some d →
  gl_error d = None →
  let r1 := Mesh.Mesh vs ixs w in
  let r2 := Mesh.destructor r1.1 r1.2 in
  let r3 := Mesh.draw r1.1 r2.2 in
  ∃ d2,
    device r2.2 = Some d2
    ∧ gl_error d2 = None
    ∧ device r3.2 = Some (gl_fail GL_INVALID_OPERATION d2)
    ∧ calls r3.2 = calls r2.2 ++
        [ Call_glBindVertexArray (Mesh.VAO r1.1);
          Call_glDrawElements GL_TRIANGLES (to_GLsizei (vector_size ixs))
                              GL_UNSIGNED_INT 0;
          Call_glBindVertexArray 0%N ].
Proof.
  intros Hd Herr.
  destruct w as [P i wi ctx dev con cs]. cbn in Hd. subst dev.
  destruct d as [va bufs shs prgs vab abb cp dt cc err]. cbn in Herr. subst err.
  destruct (Mesh_lifecycle vs ixs P i wi ctx con cs va bufs shs prgs vab abb
              cp dt cc None _ _ _ eq_refl eq_refl eq_refl) as [H1 H2].
  destruct (Mesh_names_fresh va bufs new_buffer _ _ _ eq_refl eq_refl eq_refl)
    as (Hn1 & _ & _ & _ & Hf1 & _).
  intros r1 r2 r3. subst r1 r2 r3.
  rewrite (runs_eq _ _ _ _ H1). cbn [fst snd].
  rewrite (runs_eq _ _ _ _ H2). cbn [fst snd device calls].
  eexists. split; [reflexivity|]. split; [reflexivity|].
  set (n1 := fresh_name (dom va)) in *.
  match goal with
  | |- context [Mesh.draw ?c ?w0] =>
      assert (∃ w3, runs (Mesh.draw c) w0 tt w3
                    ∧ device w3 = Some (gl_fail GL_INVALID_OPERATION
                          (Build_Device va bufs shs prgs 0%N 0%N cp dt cc None))
                    ∧ calls w3 = calls w0 ++
                        [ Call_glBindVertexArray n1;
                          Call_glDrawElements GL_TRIANGLES
                            (to_GLsizei (vector_size ixs)) GL_UNSIGNED_INT 0;
                          Call_glBindVertexArray 0%N ])
        as (w3 & Hrun & Hdev & Hcalls)
  end.
  { eexists. split; [|split].
    - unfold Mesh.draw, glBindVertexArray, glDrawElements.
      cbn [Mesh.VAO Mesh.indexCount].
      step_command ltac:(unfold GL.BindVertexArray; dev_cbn;
        rewrite decide_False by done; rewrite Hf1; reflexivity).
      step_command ltac:(reflexivity).
      eapply runs_gl_command. reflexivity.
    - cbn [device]. f_equal.
      unfold GL.DrawElements, GL.bound_vertex_array, GL.BindVertexArray.
      dev_cbn. destruct (_ <? 0); reflexivity.
    - cbn [calls]. by rewrite <- !(assoc_L (++)). }
  rewrite (runs_eq _ _ _ _ Hrun). cbn [snd]. split; [exact Hdev|exact Hcalls].
Qed.

(** The cube of [main], released and then drawn. *)
Lemma draw_after_release_is_rejected_witness :
  let r1 := Mesh.Mesh vertices indices (context_world sample_platform) in
  let r2 := Mesh.destructor r1.1 r1.2 in
  let r3 := Mesh.draw r1.1 r2.2 in
  ∃ d2, device r2.2 = Some d2 ∧ gl_error d2 = None
        ∧ device r3.2 = Some (gl_fail GL_INVALID_OPERATION d2).
Proof.
  intros r1 r2 r3.
  destruct (draw_after_release_is_rejected vertices indices
              (context_world sample_platform) new_device eq_refl eq_refl)
    as (d2 & H2 & He & H3 & _).
  exists d2. split_and!; [exact H2|exact He|exact H3].
Defined.

(** X5. Two meshes own six objects.  When two meshes are constructed one after
    the other in a current context, no handle of the one is a handle of the
    same kind of the other, and destroying either leaves the vertex array
    and the two buffers of the other in place, with the data uploaded for
    it. *)
Theorem meshes_do_not_share_objects
    (vs1 vs2 : list float) (ixs1 ixs2 : list N) (w : World) (d : Device) :
  device w = Some d →
  let r1 := Mesh.Mesh vs1 ixs1 w in
  let r2 := Mesh.Mesh vs2 ixs2 r1.2 in
  let a := r1.1 in
  let b := r2.1 in
  Mesh.VAO a ≠ Mesh.VAO b
  ∧ Mesh.VBO a ≠ Mesh.VBO b ∧ Mesh.VBO a ≠ Mesh.EBO b
  ∧ Mesh.EBO a ≠ Mesh.VBO b ∧ Mesh.EBO a ≠ Mesh.EBO b
  ∧ (∃ db, device (Mesh.destructor b r2.2).2 = Some db
       ∧ vertex_arrays db !! Mesh.VAO a
         = Some (Mesh_vertex_array (Mesh.VBO a) (Mesh.EBO a))
       ∧ buffers db !! Mesh.VBO a = Some (Mesh_vertex_buffer vs1)
       ∧ buffers db !! Mesh.EBO a = Some (Mesh_index_buffer ixs1))
  ∧ (∃ da, device (Mesh.destructor a r2.2).2 = Some da
       ∧ vertex_arrays da !! Mesh.VAO b
         = Some (Mesh_vertex_array (Mesh.VBO b) (Mesh.EBO b))
       ∧ buffers da !! Mesh.VBO b = Some (Mesh_vertex_buffer vs2)
       ∧ buffers da !! Mesh.EBO b = Some (Mesh_index_buffer ixs2)).
Proof.
  intros Hd.
  destruct w as [P i wi ctx dev con cs]. cbn in Hd. subst dev.
  destruct d as [va bufs shs prgs vab abb cp dt cc err].
  destruct (Mesh_lifecycle vs1 ixs1 P i wi ctx con cs va bufs shs prgs vab abb
              cp dt cc err _ _ _ eq_refl eq_refl eq_refl) as [H1 _].
  destruct (Mesh_names_fresh va bufs new_buffer _ _ _ eq_refl eq_refl eq_refl)
    as (Hn1 & Hn2 & Hn3 & Hn32 & Hf1 & Hf2 & Hf3).
  set (n1 := fresh_name (dom va)) in *.
  set (n2 := fresh_name (dom bufs)) in *.
  set (n3 := fresh_name (dom (<[n2 := new_buffer]> bufs))) in *.
  set (va1 := <[n1 := Mesh_vertex_array n2 n3]> va) in *.
  set (bufs1 := <[n3 := Mesh_index_buffer ixs1]>
                  (<[n2 := Mesh_vertex_buffer vs1]> bufs)) in *.
  match type of H1 with
  | runs _ _ _ (Build_World _ _ _ _ _ _ ?cs1) =>
      destruct (Mesh_lifecycle vs2 ixs2 P i wi ctx con cs1 va1 bufs1 shs prgs
                  0%N 0%N cp dt cc err _ _ _ eq_refl eq_refl eq_refl)
        as [H2 _]
  end.
  destruct (Mesh_names_fresh va1 bufs1 new_buffer _ _ _ eq_refl eq_refl eq_refl)
    as (Hm1 & Hm2 & Hm3 & Hm32 & Hg1 & Hg2 & Hg3).
  set (m1 := fresh_name (dom va1)) in *.
  set (m2 := fresh_name (dom bufs1)) in *.
  set (m3 := fresh_name (dom (<[m2 := new_buffer]> bufs1))) in *.
  assert (n1 ≠ m1) as D1.
  { intros E. rewrite <- E in Hg1. unfold va1 in Hg1.
    by rewrite lookup_insert_eq in Hg1. }
  assert (∀ k, bufs1 !! k = None → n2 ≠ k ∧ n3 ≠ k) as Hk.
  { intros k Hnone. unfold bufs1 in Hnone. split; intros <-.
    - by rewrite lookup_insert_ne, lookup_insert_eq in Hnone.
    - by rewrite lookup_insert_eq in Hnone. }
  destruct (Hk m2 Hg2) as [D2 D3]. destruct (Hk m3 Hg3) as [D4 D5].
  intros r1 r2 a b. subst r1 r2 a b.
  rewrite (runs_eq _ _ _ _ H1). cbn [fst snd].
  rewrite (runs_eq _ _ _ _ H2). cbn [fst snd Mesh.VAO Mesh.VBO Mesh.EBO].
  split_and!; try done.
  - erewrite (runs_eq (Mesh.destructor _)) by apply Mesh_destructor_runs.
    cbn [snd device Mesh.VAO Mesh.VBO Mesh.EBO]. eexists. split; [reflexivity|].
    cbn [vertex_arrays buffers]. split_and!.
    + rewrite lookup_delete_ne, lookup_insert_ne by done.
      apply lookup_insert_eq.
    + rewrite !lookup_delete_ne, !lookup_insert_ne by done.
      unfold bufs1. rewrite lookup_insert_ne by done. apply lookup_insert_eq.
    + rewrite !lookup_delete_ne, !lookup_insert_ne by done.
      apply lookup_insert_eq.
  - erewrite (runs_eq (Mesh.destructor _)) by apply Mesh_destructor_runs.
    cbn [snd device Mesh.VAO Mesh.VBO Mesh.EBO]. eexists. split; [reflexivity|].
    cbn [vertex_arrays buffers]. split_and!.
    + rewrite lookup_delete_ne by done. apply lookup_insert_eq.
    + rewrite !lookup_delete_ne by done.
      rewrite lookup_insert_ne by done. apply lookup_insert_eq.
    + rewrite !lookup_delete_ne by done. apply lookup_insert_eq.
Qed.

(** Two cubes. *)
Lemma meshes_do_not_share_objects_witness :
  let r1 := Mesh.Mesh vertices indices (context_world sample_platform) in
  let r2 := Mesh.Mesh vertices indices r1.2 in
  Mesh.VAO r1.1 ≠ Mesh.VAO r2.1.
Proof.
  intros r1 r2.
  destruct (meshes_do_not_share_objects vertices vertices indices indices
              (context_world sample_platform) new_device eq_refl)
    as (H & _).
  exact H.
Defined.
(** ** The shader: what else the wrapper does *)

Lemma linked_program_attached P vs fs s1 s2 :
  pr_attached (linked_program P vs fs s1 s2) = [s1; s2].
Proof. reflexivity. Qed.

Lemma linked_program_linked P vs fs s1 s2 :
  pr_linked (linked_program P vs fs s1 s2) = links P vs fs.
Proof.
  unfold linked_program, links. cbn [GL.set_linked pr_linked fst].
  by rewrite andb_true_r.
Qed.

Lemma linked_program_uniforms P vs fs s1 s2 :
  pr_uniforms (linked_program P vs fs s1 s2)
  = if links P vs fs then linked_uniforms P vs fs else [].
Proof.
  unfold linked_program, links, linked_uniforms.
  cbn [GL.set_linked pr_uniforms fst snd]. by rewrite andb_true_r.
Qed.

Lemma uniform_type_index name us t :
  uniform_type name us = Some t →
  ∃ i, GL.uniform_index name us = Some i ∧ us !! i = Some (name, t).
Proof.
  induction us as [|[n t'] us IH]; [done|]. cbn [uniform_type GL.uniform_index].
  destruct (decide (n = name)) as [->|Hne].
  - intros [= ->]. by exists O.
  - intros H. destruct (IH H) as (i & Hi & Hl). exists (S i).
    by rewrite Hi.
Qed.

(** The destructor of a shader that is not in use: the program object goes,
    and with it the two shader objects that the constructor had flagged. *)
Lemma Shader_destructor_runs (P0 : Platform) vs fs s1 s2 p
    P i wi ctx con cs va bufs shs prgs vab abb cp dt cc err :
  s1 ≠ s2 → shs !! s1 = None → shs !! s2 = None → prgs !! p = None →
  cp ≠ p →
  (∀ q o s, prgs !! q = Some o → s ∈ pr_attached o → is_Some (shs !! s)) →
  runs (Shader.destructor {| Shader.programID := p |})
       (Build_World P i wi ctx
          (Some (Build_Device va bufs
                   (<[s2 := GL.flag_shader (compiled_stage P0 GL_FRAGMENT_SHADER fs)]>
                      (<[s1 := GL.flag_shader (compiled_stage P0 GL_VERTEX_SHADER vs)]> shs))
                   (<[p := linked_program P0 vs fs s1 s2]> prgs)
                   vab abb cp dt cc err)) con cs)
       tt
       (Build_World P i wi ctx
          (Some (Build_Device va bufs shs prgs vab abb cp dt cc err)) con
          (cs ++ [Call_glDeleteProgram p])).
Proof.
  intros Hs12 Hf1 Hf2 Hfp Hcp Hatt.
  unfold Shader.destructor, glDeleteProgram. cbn [Shader.programID].
  eapply runs_gl_command.
  unfold GL.DeleteProgram; dev_cbn. rewrite lookup_insert_eq.
  rewrite decide_False by done.
  unfold GL.remove_program; dev_unfold. rewrite lookup_insert_eq.
  rewrite linked_program_attached. cbn [foldr].
  rewrite delete_insert_id by done.
  assert (∀ s shs', shs !! s = None →
            GL.is_attached s (Build_Device va bufs shs' prgs vab abb cp dt cc err)
            = false) as Hna.
  { intros s shs' Hs. unfold GL.is_attached. apply bool_decide_eq_false.
    dev_cbn. intros (q & o & Hq & Ha). destruct (Hatt q o s Hq Ha) as [x Hx].
    congruence. }
  unfold GL.release_shader at 2; dev_unfold. rewrite lookup_insert_eq.
  rewrite Hna by done. cbn [GL.flag_shader sh_delete_pending andb negb].
  rewrite delete_insert_id by (by rewrite lookup_insert_ne).
  unfold GL.release_shader; dev_unfold. rewrite lookup_insert_eq.
  rewrite Hna by done. cbn [GL.flag_shader sh_delete_pending andb negb].
  by rewrite delete_insert_id.
Qed.

(** [use] on a linked program, when the program in use before is not
    waiting to be deleted. *)
Lemma Shader_use_runs p o P i wi ctx con cs va bufs shs prgs vab abb cp dt cc err :
  p ≠ 0%N → prgs !! p = Some o → pr_linked o = true →
  (∀ o', prgs !! cp = Some o' → pr_delete_pending o' = false) →
  runs (Shader.use {| Shader.programID := p |})
       (Build_World P i wi ctx
          (Some (Build_Device va bufs shs prgs vab abb cp dt cc err)) con cs)
       tt
       (Build_World P i wi ctx
          (Some (Build_Device va bufs shs prgs vab abb p dt cc err)) con
          (cs ++ [Call_glUseProgram p])).
Proof.
  intros Hp Ho Hl Hpend. unfold Shader.use, glUseProgram. cbn [Shader.programID].
  eapply runs_gl_command.
  unfold GL.UseProgram; dev_cbn. rewrite decide_False by done.
  rewrite Ho, Hl. unfold GL.make_current; cbv zeta; dev_unfold.
  destruct (prgs !! cp) as [o'|] eqn:E; [|done].
  by rewrite (Hpend o' eq_refl).
Qed.

(** [use] on a program that is not linked. *)
Lemma Shader_use_rejected p o P i wi ctx con cs d :
  p ≠ 0%N → programs d !! p = Some o → pr_linked o = false →
  runs (Shader.use {| Shader.programID := p |})
       (Build_World P i wi ctx (Some d) con cs)
       tt
       (Build_World P i wi ctx (Some (gl_fail GL_INVALID_OPERATION d)) con
          (cs ++ [Call_glUseProgram p])).
Proof.
  intros Hp Ho Hl. unfold Shader.use, glUseProgram. cbn [Shader.programID].
  eapply runs_gl_command.
  unfold GL.UseProgram. rewrite decide_False by done. by rewrite Ho, Hl.
Qed.

Lemma to_N_of_nat (i : nat) : Z.to_N (Z.of_nat i) = N.of_nat i.
Proof. by rewrite <- nat_N_Z, N2Z.id. Qed.

(** A write to a uniform of the program in use, of the type of the
    uniform. *)
Lemma write_uniform_stores t v i n o va bufs shs prgs vab abb p dt cc err :
  p ≠ 0%N → prgs !! p = Some o → pr_uniforms o !! i = Some (n, t) →
  GL.write_uniform t (Z.of_nat i) v
    (Build_Device va bufs shs prgs vab abb p dt cc err)
  = Build_Device va bufs shs (<[p := GL.set_value (N.of_nat i) v o]> prgs)
      vab abb p dt cc err.
Proof.
  intros Hp Ho Hu. unfold GL.write_uniform; dev_cbn.
  rewrite decide_False by done. rewrite Ho.
  rewrite decide_False by lia. rewrite Nat2Z.id, Hu.
  rewrite decide_True by (split; [lia|done]).
  unfold set_programs; dev_cbn. by rewrite to_N_of_nat.
Qed.

(** A write while no program is in use. *)
Lemma write_uniform_unused t loc v d :
  current_program d = 0%N →
  GL.write_uniform t loc v d = gl_fail GL_INVALID_OPERATION d.
Proof. intros Hp. unfold GL.write_uniform. by rewrite decide_True. Qed.

Lemma GetUniformLocation_present p name d o i :
  programs d !! p = Some o → pr_linked o = true →
  GL.uniform_index name (pr_uniforms o) = Some i →
  GL.GetUniformLocation p name d = (Z.of_nat i, d).
Proof. intros Hp Hl Hu. unfold GL.GetUniformLocation. by rewrite Hp, Hl, Hu. Qed.

Lemma GetUniformLocation_unlinked p name d o :
  programs d !! p = Some o → pr_linked o = false →
  GL.GetUniformLocation p name d = (-1, gl_fail GL_INVALID_OPERATION d).
Proof. intros Hp Hl. unfold GL.GetUniformLocation. by rewrite Hp, Hl. Qed.

(** The two setters: the lookup, then the write at the location found. *)
Lemma Shader_setMat4_runs p name m loc d d' P i wi ctx con cs :
  GL.GetUniformLocation p (c_str name) d = (loc, d') →
  runs (Shader.setMat4 {| Shader.programID := p |} name m)
       (Build_World P i wi ctx (Some d) con cs)
       tt
       (Build_World P i wi ctx
          (Some (GL.write_uniform U_mat4 loc (UMat4 m) d')) con
          (cs ++ [ Call_glGetUniformLocation p (c_str name) loc;
                   Call_glUniformMatrix4fv loc 1 false m ])).
Proof.
  intros Hloc. unfold Shader.setMat4, glGetUniformLocation, glUniformMatrix4fv.
  cbn [Shader.programID]. eapply runs_to.
  - step_with ltac:(step_platform; eapply runs_gl_query; exact Hloc).
    eapply runs_gl_command. reflexivity.
  - by rewrite <- !(assoc_L (++)).
Qed.

Lemma Shader_setFloat_runs p name v loc d d' P i wi ctx con cs :
  GL.GetUniformLocation p (c_str name) d = (loc, d') →
  runs (Shader.setFloat {| Shader.programID := p |} name v)
       (Build_World P i wi ctx (Some d) con cs)
       tt
       (Build_World P i wi ctx
          (Some (GL.write_uniform U_float loc (UFloat v) d')) con
          (cs ++ [ Call_glGetUniformLocation p (c_str name) loc;
                   Call_glUniform1f loc v ])).
Proof.
  intros Hloc. unfold Shader.setFloat, glGetUniformLocation, glUniform1f.
  cbn [Shader.programID]. eapply runs_to.
  - step_with ltac:(step_platform; eapply runs_gl_query; exact Hloc).
    eapply runs_gl_command. reflexivity.
  - by rewrite <- !(assoc_L (++)).
Qed.

Lemma write_uniform_after_failure t v e d :
  GL.write_uniform t (-1) v (gl_fail e d) = gl_fail e d.
Proof.
  unfold GL.write_uniform. cbn [gl_fail current_program programs].
  destruct (decide (current_program d = 0%N)); [apply gl_fail_again|].
  destruct (programs d !! current_program d); [done|apply gl_fail_again].
Qed.

Lemma c_str_idemp s : c_str (c_str s) = c_str s.
Proof.
  induction s as [|ch s IH]; [done|]. cbn [c_str].
  destruct (Ascii.eqb ch Ascii.zero) eqn:E; [done|]. cbn [c_str].
  by rewrite E, IH.
Qed.

Lemma c_str_cut pre post :
  c_str (pre +:+ String Ascii.zero post) = c_str pre.
Proof.
  induction pre as [|ch pre IH]; [done|]. rewrite string_app_cons.
  cbn [c_str]. by rewrite IH.
Qed.

(** X6. Shader::Shader, then Shader::~Shader.  In a current context whose state
    is consistent: the constructor leaves one program object and two shader
    objects more than before (glDeleteShader only flags the two shaders,
    since they are attached to the program), under names that were not in
    use; the destructor, when the program has not been made current, issues
    one glDeleteProgram, which deletes the program and with it the two
    flagged shaders, so that the state of the context is exactly what it was
    before the constructor, whatever the compiler and the linker said. *)
Theorem shader_allocates_and_releases
    (vs fs : string) (w : World) (d : Device) :
  device w = Some d →
  consistent d →
  let r1 := Shader.Shader vs fs w in
  let r2 := Shader.destructor r1.1 r1.2 in
  (∃ d1, device r1.2 = Some d1
         ∧ programs d !! Shader.programID r1.1 = None
         ∧ is_Some (programs d1 !! Shader.programID r1.1)
         ∧ size (programs d1) = S (size (programs d))
         ∧ size (shaders d1) = S (S (size (shaders d))))
  ∧ device r2.2 = Some d
  ∧ calls r2.2 = calls r1.2 ++ [Call_glDeleteProgram (Shader.programID r1.1)]
  ∧ console r2.2 = console r1.2.
Proof.
  intros Hd [Hcur Hatt].
  destruct w as [P i wi ctx dev con cs]. cbn in Hd. subst dev.
  destruct d as [va bufs shs prgs vab abb cp dt cc err].
  cbn [current_program programs shaders] in Hcur, Hatt.
  pose proof (Shader_runs vs fs P i wi ctx con cs va bufs shs prgs vab abb cp
                dt cc err _ _ _ eq_refl eq_refl eq_refl) as H1.
  destruct (Shader_names_fresh shs prgs _ _ _ eq_refl eq_refl eq_refl)
    as (Hs1 & Hs2 & Hp & Hs21 & Hp1 & Hp2 & Hf1 & Hf2 & Hfp).
  set (s1 := fresh_name (dom shs ∪ dom prgs)) in *.
  set (s2 := fresh_name ({[s1]} ∪ dom shs ∪ dom prgs)) in *.
  set (p := fresh_name ({[s2]} ∪ ({[s1]} ∪ dom shs) ∪ dom prgs)) in *.
  assert (cp ≠ p) as Hcp.
  { destruct Hcur as [->|[o Ho]]; [done|]. intros ->. congruence. }
  intros r1 r2. subst r1 r2. rewrite (runs_eq _ _ _ _ H1). cbn [fst snd].
  erewrite (runs_eq (Shader.destructor _)).
  2:{ apply (Shader_destructor_runs P vs fs s1 s2 p); try done. }
  cbn [snd device calls console Shader.programID].
  split_and!; try done.
  eexists. split; [reflexivity|]. cbn [programs shaders].
  split_and!; [done|by rewrite lookup_insert_eq| |].
  - by rewrite map_size_insert_None.
  - rewrite !map_size_insert_None; [done|done|by rewrite lookup_insert_ne].
Qed.

(** In a fresh context. *)
Lemma shader_allocates_and_releases_witness :
  let r1 := Shader.Shader vertexShaderSource fragmentShaderSource
              (context_world sample_platform) in
  let r2 := Shader.destructor r1.1 r1.2 in
  device r2.2 = Some new_device.
Proof.
  intros r1 r2.
  destruct (shader_allocates_and_releases vertexShaderSource
              fragmentShaderSource (context_world sample_platform) new_device
              eq_refl) as (_ & H & _); [|exact H].
  split; [by left|]. intros p o s Hp.
  change ((∅ : gmap N ProgramObject) !! p = Some o) in Hp.
  by rewrite lookup_empty in Hp.
Defined.

(** X7. A shader that did not link is never used.  When a stage does not
    compile or the linker rejects the program, in a current context: the
    constructor itself raises no OpenGL error and leaves the program in use
    as it was; [use] is then rejected with [GL_INVALID_OPERATION] and does
    not make the program current, and [setMat4] finds location -1 for every
    name and stores nothing: after both, the state of the context is the
    one the constructor left, with the error recorded. *)
Theorem unlinked_shader_is_rejected
    (vs fs name : string) (m : mat4) (w : World) (d : Device) :
  device w = Some d →
  links (platform w) vs fs = false →
  let r1 := Shader.Shader vs fs w in
  let r2 := Shader.use r1.1 r1.2 in
  let r3 := Shader.setMat4 r1.1 name m r2.2 in
  ∃ d1,
    device r1.2 = Some d1
    ∧ gl_error d1 = gl_error d
    ∧ current_program d1 = current_program d
    ∧ device r2.2 = Some (gl_fail GL_INVALID_OPERATION d1)
    ∧ device r3.2 = Some (gl_fail GL_INVALID_OPERATION d1)
    ∧ calls r3.2 = calls r1.2 ++
        [ Call_glUseProgram (Shader.programID r1.1);
          Call_glGetUniformLocation (Shader.programID r1.1) (c_str name) (-1);
          Call_glUniformMatrix4fv (-1) 1 false m ].
Proof.
  intros Hd Hlinks.
  destruct w as [P i wi ctx dev con cs]. cbn in Hd. subst dev.
  cbn [platform] in Hlinks.
  destruct d as [va bufs shs prgs vab abb cp dt cc err].
  pose proof (Shader_runs vs fs P i wi ctx con cs va bufs shs prgs vab abb cp
                dt cc err _ _ _ eq_refl eq_refl eq_refl) as H1.
  destruct (Shader_names_fresh shs prgs _ _ _ eq_refl eq_refl eq_refl)
    as (Hs1 & Hs2 & Hp & _).
  set (s1 := fresh_name (dom shs ∪ dom prgs)) in *.
  set (s2 := fresh_name ({[s1]} ∪ dom shs ∪ dom prgs)) in *.
  set (p := fresh_name ({[s2]} ∪ ({[s1]} ∪ dom shs) ∪ dom prgs)) in *.
  intros r1 r2 r3. subst r1 r2 r3. rewrite (runs_eq _ _ _ _ H1). cbn [fst snd].
  set (d1 := Build_Device _ _ _ _ _ _ _ _ _ _).
  assert (programs d1 !! p = Some (linked_program P vs fs s1 s2)) as Hlook
    by apply lookup_insert_eq.
  assert (pr_linked (linked_program P vs fs s1 s2) = false) as Hl
    by (by rewrite linked_program_linked).
  erewrite (runs_eq (Shader.use _)) by (by eapply Shader_use_rejected).
  cbn [snd].
  erewrite (runs_eq (Shader.setMat4 _ _ _)).
  2:{ eapply Shader_setMat4_runs.
      eapply GetUniformLocation_unlinked; [exact Hlook|exact Hl]. }
  cbn [snd device calls]. exists d1.
  split_and!; try done.
  - by rewrite gl_fail_again, write_uniform_after_failure.
  - by rewrite <- !(assoc_L (++)).
Qed.

(** On the platform whose linker rejects every program. *)
Lemma unlinked_shader_is_rejected_witness :
  let r1 := Shader.Shader vertexShaderSource fragmentShaderSource
              (context_world unlinkable_platform) in
  let r2 := Shader.use r1.1 r1.2 in
  let r3 := Shader.setMat4 r1.1 "mvp" (mat4_diag lit_1_0) r2.2 in
  ∃ d1, device r1.2 = Some d1
        ∧ device r3.2 = Some (gl_fail GL_INVALID_OPERATION d1).
Proof.
  intros r1 r2 r3.
  destruct (unlinked_shader_is_rejected vertexShaderSource fragmentShaderSource
              "mvp" (mat4_diag lit_1_0) (context_world unlinkable_platform)
              new_device eq_refl eq_refl) as (d1 & H1 & _ & _ & _ & H3 & _).
  exists d1. split; [exact H1|exact H3].
Defined.

(** X8. Shader::use, then Shader::setMat4.  When both stages compile and the
    program links with an active [mat4] uniform called [name], in a current
    context whose program in use (if any) is not waiting to be deleted:
    after [use] the program of the shader is the one in use, and after
    [setMat4] the value of the uniform, at the location that the lookup
    returned, is the matrix passed; a second [setMat4] replaces it.  No
    OpenGL error is raised on the way. *)
Theorem uniform_write_is_stored
    (vs fs name : string) (m m' : mat4) (w : World) (d : Device) :
  device w = Some d →
  (∀ o', programs d !! current_program d = Some o' →
         pr_delete_pending o' = false) →
  links (platform w) vs fs = true →
  uniform_type (c_str name) (linked_uniforms (platform w) vs fs)
    = Some U_mat4 →
  let r1 := Shader.Shader vs fs w in
  let sh := r1.1 in
  let r2 := Shader.use sh r1.2 in
  let r3 := Shader.setMat4 sh name m r2.2 in
  let r4 := Shader.setMat4 sh name m' r3.2 in
  ∃ i,
    GL.uniform_index (c_str name) (linked_uniforms (platform w) vs fs) = Some i
    ∧ let holds (w' : World) (v : mat4) :=
        ∃ d' o, device w' = Some d'
                ∧ current_program d' = Shader.programID sh
                ∧ gl_error d' = gl_error d
                ∧ programs d' !! Shader.programID sh = Some o
                ∧ pr_values o !! N.of_nat i = Some (UMat4 v) in
      holds r3.2 m ∧ holds r4.2 m'
      ∧ calls r3.2 = calls r1.2 ++
          [ Call_glUseProgram (Shader.programID sh);
            Call_glGetUniformLocation (Shader.programID sh) (c_str name)
                                      (Z.of_nat i);
            Call_glUniformMatrix4fv (Z.of_nat i) 1 false m ].
Proof.
  intros Hd Hpend Hlinks Htype.
  destruct w as [P i0 wi ctx dev con cs]. cbn in Hd. subst dev.
  cbn [platform] in Hlinks, Htype.
  destruct d as [va bufs shs prgs vab abb cp dt cc err].
  cbn [programs current_program] in Hpend.
  pose proof (Shader_runs vs fs P i0 wi ctx con cs va bufs shs prgs vab abb cp
                dt cc err _ _ _ eq_refl eq_refl eq_refl) as H1.
  destruct (Shader_names_fresh shs prgs _ _ _ eq_refl eq_refl eq_refl)
    as (Hs1 & Hs2 & Hp & _).
  set (s1 := fresh_name (dom shs ∪ dom prgs)) in *.
  set (s2 := fresh_name ({[s1]} ∪ dom shs ∪ dom prgs)) in *.
  set (p := fresh_name ({[s2]} ∪ ({[s1]} ∪ dom shs) ∪ dom prgs)) in *.
  set (LP := linked_program P vs fs s1 s2) in *.
  assert (pr_linked LP = true) as Hl by (unfold LP; by rewrite linked_program_linked).
  assert (pr_uniforms LP = linked_uniforms P vs fs) as Hus
    by (unfold LP; by rewrite linked_program_uniforms, Hlinks).
  destruct (uniform_type_index _ _ _ Htype) as (i & Hi & Hlook).
  intros r1 sh r2 r3 r4. exists i. split; [done|].
  intros holds. subst r1 sh r2 r3 r4 holds.
  rewrite (runs_eq _ _ _ _ H1). cbn [fst snd].
  erewrite (runs_eq (Shader.use _)).
  2:{ eapply (Shader_use_runs p LP); [done|apply lookup_insert_eq|done|].
      intros o'. destruct (decide (cp = p)) as [->|Hne].
      - rewrite lookup_insert_eq. by intros [= <-].
      - rewrite lookup_insert_ne by done. apply Hpend. }
  cbn [snd].
  erewrite (runs_eq (Shader.setMat4 _ _ m)).
  2:{ eapply Shader_setMat4_runs.
      eapply (GetUniformLocation_present _ _ _ LP);
        [apply lookup_insert_eq|done|by rewrite Hus]. }
  erewrite (write_uniform_stores _ _ _ _ LP);
    [|done|apply lookup_insert_eq|by rewrite Hus].
  cbn [snd]. rewrite insert_insert_eq.
  erewrite (runs_eq (Shader.setMat4 _ _ m')).
  2:{ eapply Shader_setMat4_runs.
      eapply (GetUniformLocation_present _ _ _ (GL.set_value _ _ LP));
        [apply lookup_insert_eq|done|by cbn [GL.set_value pr_uniforms]; rewrite Hus]. }
  erewrite (write_uniform_stores _ _ _ _ (GL.set_value _ _ LP));
    [|done|apply lookup_insert_eq|by cbn [GL.set_value pr_uniforms]; rewrite Hus].
  cbn [snd device calls]. split_and!.
  - eexists _, _. split; [reflexivity|]. cbn [current_program gl_error programs].
    split_and!; try done; [apply lookup_insert_eq|].
    cbn [GL.set_value pr_values]. apply lookup_insert_eq.
  - eexists _, _. split; [reflexivity|]. cbn [current_program gl_error programs].
    split_and!; try done; [apply lookup_insert_eq|].
    cbn [GL.set_value pr_values]. apply lookup_insert_eq.
  - by rewrite <- !(assoc_L (++)).
Qed.

(** The shader of [main] on the sample platform, and its uniform [mvp]. *)
Lemma uniform_write_is_stored_witness :
  let r1 := Shader.Shader vertexShaderSource fragmentShaderSource
              (context_world sample_platform) in
  let r2 := Shader.use r1.1 r1.2 in
  let r3 := Shader.setMat4 r1.1 "mvp" view r2.2 in
  ∃ d' o, device r3.2 = Some d'
          ∧ programs d' !! Shader.programID r1.1 = Some o
          ∧ pr_values o !! 0%N = Some (UMat4 view).
Proof.
  intros r1 r2 r3.
  destruct (uniform_write_is_stored vertexShaderSource fragmentShaderSource
              "mvp" view projection (context_world sample_platform) new_device
              eq_refl)
    as (i & Hi & (d' & o & Hd & _ & _ & Hp & Hv) & _);
    [|reflexivity|reflexivity|].
  - intros o' Ho'. change ((∅ : gmap N ProgramObject) !! 0%N = Some o') in Ho'.
    by rewrite lookup_empty in Ho'.
  - injection Hi as <-. exists d', o. split_and!; [exact Hd|exact Hp|exact Hv].
Defined.

(** X9. The setters do not activate the program.  [setFloat] and [setMat4]
    look the name up in the program of the shader, but the write goes to the
    program in use, and neither calls [glUseProgram].  On a shader that has
    just been constructed in a current context in which no program is in
    use, whatever the name and whether or not the program linked: each of
    them raises [GL_INVALID_OPERATION] and stores nothing, the state of the
    context being otherwise as the constructor left it. *)
Theorem setter_without_use_is_rejected
    (vs fs name : string) (v : float) (m : mat4) (w : World) (d : Device) :
  device w = Some d →
  current_program d = 0%N →
  let r1 := Shader.Shader vs fs w in
  ∃ d1,
    device r1.2 = Some d1
    ∧ device (Shader.setFloat r1.1 name v r1.2).2
      = Some (gl_fail GL_INVALID_OPERATION d1)
    ∧ device (Shader.setMat4 r1.1 name m r1.2).2
      = Some (gl_fail GL_INVALID_OPERATION d1).
Proof.
  intros Hd Hcp.
  destruct w as [P i0 wi ctx dev con cs]. cbn in Hd. subst dev.
  destruct d as [va bufs shs prgs vab abb cp dt cc err].
  cbn [current_program] in Hcp. subst cp.
  pose proof (Shader_runs vs fs P i0 wi ctx con cs va bufs shs prgs vab abb 0%N
                dt cc err _ _ _ eq_refl eq_refl eq_refl) as H1.
  set (s1 := fresh_name (dom shs ∪ dom prgs)) in *.
  set (s2 := fresh_name ({[s1]} ∪ dom shs ∪ dom prgs)) in *.
  set (p := fresh_name ({[s2]} ∪ ({[s1]} ∪ dom shs) ∪ dom prgs)) in *.
  set (LP := linked_program P vs fs s1 s2) in *.
  intros r1. subst r1. rewrite (runs_eq _ _ _ _ H1). cbn [fst snd].
  set (d1 := Build_Device _ _ _ _ _ _ _ _ _ _).
  assert (programs d1 !! p = Some LP) as Hlook by apply lookup_insert_eq.
  assert (∃ loc d1', GL.GetUniformLocation p (c_str name) d1 = (loc, d1')
            ∧ ∀ t u, GL.write_uniform t loc u d1'
                     = gl_fail GL_INVALID_OPERATION d1)
    as (loc & d1' & Hloc & Hwrite).
  { unfold GL.GetUniformLocation. rewrite Hlook.
    destruct (pr_linked LP).
    - eexists _, _. split; [reflexivity|]. intros t u.
      by apply write_uniform_unused.
    - eexists _, _. split; [reflexivity|]. intros t u.
      apply write_uniform_after_failure. }
  exists d1. split; [done|].
  erewrite (runs_eq (Shader.setFloat _ _ _))
    by (eapply Shader_setFloat_runs; exact Hloc).
  erewrite (runs_eq (Shader.setMat4 _ _ _))
    by (eapply Shader_setMat4_runs; exact Hloc).
  cbn [snd device]. by rewrite !Hwrite.
Qed.

(** The shader of [main], before its first [use]. *)
Lemma setter_without_use_is_rejected_witness :
  let r1 := Shader.Shader vertexShaderSource fragmentShaderSource
              (context_world sample_platform) in
  ∃ d1, device r1.2 = Some d1
        ∧ device (Shader.setMat4 r1.1 "mvp" view r1.2).2
          = Some (gl_fail GL_INVALID_OPERATION d1).
Proof.
  intros r1.
  destruct (setter_without_use_is_rejected vertexShaderSource
              fragmentShaderSource "mvp" lit_0_5 view
              (context_world sample_platform) new_device eq_refl eq_refl)
    as (d1 & H1 & _ & H3).
  exists d1. split; [exact H1|exact H3].
Defined.

(** X10. Text after a zero character is not passed on.  The sources and the
    uniform names reach OpenGL through [c_str()] with no length, so that
    OpenGL reads them up to the first zero character: the constructor and
    the setters behave on a string exactly as on the part of it before its
    first zero character. *)
Theorem text_after_nul_is_ignored
    (vs fs name pre post : string) (v : float) (m : mat4) (sh : Shader.t)
    (w : World) :
  Shader.Shader vs fs w = Shader.Shader (c_str vs) (c_str fs) w
  ∧ Shader.setFloat sh name v w = Shader.setFloat sh (c_str name) v w
  ∧ Shader.setMat4 sh name m w = Shader.setMat4 sh (c_str name) m w
  ∧ c_str (pre +:+ String Ascii.zero post) = c_str pre
  ∧ Shader.Shader (pre +:+ String Ascii.zero post) fs w = Shader.Shader pre fs w.
Proof.
  assert (∀ a b, Shader.Shader a b w = Shader.Shader (c_str a) (c_str b) w) as H.
  { intros a b. unfold Shader.Shader. by rewrite !c_str_idemp. }
  split_and!.
  - apply H.
  - unfold Shader.setFloat. by rewrite c_str_idemp.
  - unfold Shader.setMat4. by rewrite c_str_idemp.
  - apply c_str_cut.
  - rewrite H, (H pre). by rewrite c_str_cut.
Qed.
(** ** main: from the start to the loop and from the loop to the end *)

Lemma runs_SDL_Init flags P i wi ctx d con cs :
  runs (SDL_Init flags) (Build_World P i wi ctx d con cs) (plat_SDL_Init P)
       (Build_World P (0 <=? plat_SDL_Init P) wi ctx d con
          (cs ++ [Call_SDL_Init flags (plat_SDL_Init P)])).
Proof. reflexivity. Qed.

Lemma runs_SDL_GL_SetAttribute attr value P i wi ctx d con cs :
  runs (SDL_GL_SetAttribute attr value) (Build_World P i wi ctx d con cs) tt
       (Build_World P i wi ctx d con (cs ++ [Call_SDL_GL_SetAttribute attr value])).
Proof. reflexivity. Qed.

Lemma runs_SDL_CreateWindow title x y w h flags P i wi ctx d con cs :
  plat_SDL_CreateWindow P ≠ 0%N →
  runs (SDL_CreateWindow title x y w h flags) (Build_World P i wi ctx d con cs)
       (plat_SDL_CreateWindow P)
       (Build_World P i (Some (plat_SDL_CreateWindow P)) ctx d con
          (cs ++ [Call_SDL_CreateWindow title x y w h flags
                    (plat_SDL_CreateWindow P)])).
Proof.
  intros H. unfold runs, SDL_CreateWindow. cbn [platform].
  by rewrite decide_False.
Qed.

Lemma runs_SDL_GL_CreateContext win P i wi ctx d con cs :
  plat_SDL_GL_CreateContext P ≠ 0%N →
  runs (SDL_GL_CreateContext win) (Build_World P i wi ctx d con cs)
       (plat_SDL_GL_CreateContext P)
       (Build_World P i wi (Some (plat_SDL_GL_CreateContext P))
          (Some new_device) con
          (cs ++ [Call_SDL_GL_CreateContext win (plat_SDL_GL_CreateContext P)])).
Proof.
  intros H. unfold runs, SDL_GL_CreateContext. cbn [platform].
  by rewrite decide_False.
Qed.

Lemma runs_set_glewExperimental b P i wi ctx d con cs :
  runs (set_glewExperimental b) (Build_World P i wi ctx d con cs) tt
       (Build_World P i wi ctx d con (cs ++ [Store_glewExperimental b])).
Proof. reflexivity. Qed.

Lemma runs_glewInit P i wi ctx d con cs :
  runs glewInit (Build_World P i wi ctx d con cs) (plat_glewInit P)
       (Build_World P i wi ctx d con (cs ++ [Call_glewInit (plat_glewInit P)])).
Proof. reflexivity. Qed.

Lemma runs_SDL_GetKeyboardState P i wi ctx d con cs :
  runs SDL_GetKeyboardState (Build_World P i wi ctx d con cs) tt
       (Build_World P i wi ctx d con (cs ++ [Call_SDL_GetKeyboardState])).
Proof. reflexivity. Qed.

Lemma runs_SDL_PollEvent r P i wi ctx d con cs :
  runs (SDL_PollEvent r) (Build_World P i wi ctx d con cs) tt
       (Build_World P i wi ctx d con (cs ++ [Call_SDL_PollEvent r])).
Proof. reflexivity. Qed.

Lemma runs_SDL_GL_SwapWindow win P i wi ctx d con cs :
  runs (SDL_GL_SwapWindow win) (Build_World P i wi ctx d con cs) tt
       (Build_World P i wi ctx d con (cs ++ [Call_SDL_GL_SwapWindow win])).
Proof. reflexivity. Qed.

Lemma runs_SDL_GL_DeleteContext c P i wi d con cs :
  runs (SDL_GL_DeleteContext c) (Build_World P i wi (Some c) d con cs) tt
       (Build_World P i wi None None con (cs ++ [Call_SDL_GL_DeleteContext c])).
Proof.
  unfold runs, SDL_GL_DeleteContext. cbn [gl_context].
  by rewrite decide_True.
Qed.

Lemma runs_SDL_DestroyWindow win P i ctx d con cs :
  runs (SDL_DestroyWindow win) (Build_World P i (Some win) ctx d con cs) tt
       (Build_World P i None ctx d con (cs ++ [Call_SDL_DestroyWindow win])).
Proof.
  unfold runs, SDL_DestroyWindow. cbn [window]. by rewrite decide_True.
Qed.

Lemma runs_SDL_Quit P i wi ctx d con cs :
  runs SDL_Quit (Build_World P i wi ctx d con cs) tt
       (Build_World P false None ctx d con (cs ++ [Call_SDL_Quit])).
Proof. reflexivity. Qed.

(** The destructors of [cube] and [shader] when no context is current. *)
Lemma Mesh_destructor_stray cube P i wi ctx con cs :
  runs (Mesh.destructor cube) (Build_World P i wi ctx None con cs) tt
       (Build_World P i wi ctx None con
          (cs ++ Mesh_destructor_calls (Mesh.VAO cube) (Mesh.VBO cube)
                   (Mesh.EBO cube))).
Proof.
  unfold Mesh.destructor, glDeleteVertexArrays, glDeleteBuffers.
  eapply runs_to.
  - step_with ltac:(apply runs_gl_command_stray).
    step_with ltac:(apply runs_gl_command_stray).
    apply runs_gl_command_stray.
  - f_equal. unfold Mesh_destructor_calls. by rewrite <- !(assoc_L (++)).
Qed.

Lemma Shader_destructor_stray shader P i wi ctx con cs :
  runs (Shader.destructor shader) (Build_World P i wi ctx None con cs) tt
       (Build_World P i wi ctx None con
          (cs ++ [Call_glDeleteProgram (Shader.programID shader)])).
Proof. apply runs_gl_command_stray. Qed.

Lemma runs_to_value {A} (m : M A) w a a' w' :
  runs m w a w' → a = a' → runs m w a' w'.
Proof. by intros H <-. Qed.

Lemma runs_from {A} (m : M A) w w' a w2 :
  w = w' → runs m w' a w2 → runs m w a w2.
Proof. by intros ->. Qed.

(** [main] when the initialisation chain succeeds: the calls up to the loop
    lead to the entry world; the loop runs from there; when it ends, the
    teardown and the two destructors follow. *)
Lemma main_runs (P : Platform) :
  ¬ init_fails P →
  ∃ s1 s2 p vao vbo ebo,
    (s1 ≠ s2 ∧ p ≠ 0%N ∧ vao ≠ 0%N ∧ vbo ≠ ebo)
    ∧ ∀ inputs : list FrameInput,
      let shader := {| Shader.programID := p |} in
      let cube := {| Mesh.VAO := vao; Mesh.VBO := vbo; Mesh.EBO := ebo;
                     Mesh.indexCount := 36 |} in
      let r := main_loop (plat_SDL_CreateWindow P) shader cube inputs
                 initial_locals (entry_world P s1 s2 p vao vbo ebo) in
      main inputs (initial_world P)
      = if running r.1 then (None, r.2)
        else (Some 0, exit_world r.2 p vao vbo ebo).
Proof.
  intros Hok. unfold init_fails in Hok.
  assert ((plat_SDL_Init P <? 0) = false) as Hb by (apply Z.ltb_ge; lia).
  assert ((0 <=? plat_SDL_Init P) = true) as Hb' by (apply Z.leb_le; lia).
  assert (plat_SDL_CreateWindow P ≠ 0%N) as Hw by tauto.
  assert (plat_SDL_GL_CreateContext P ≠ 0%N) as Hc by tauto.
  assert (plat_glewInit P = GLEW_OK) as Hg.
  { destruct (decide (plat_glewInit P = GLEW_OK)); [done|tauto]. }
  destruct (Shader_names_fresh (∅ : gmap N ShaderObject)
              (∅ : gmap N ProgramObject) _ _ _ eq_refl eq_refl eq_refl)
    as (Hs1 & Hs2 & Hp & Hs21 & _).
  destruct (Mesh_names_fresh (∅ : gmap N VertexArrayObject)
              (∅ : gmap N BufferObject) new_buffer _ _ _ eq_refl eq_refl eq_refl)
    as (Hn1 & _ & _ & Hn32 & _).
  set (s1 := fresh_name (dom (∅ : gmap N ShaderObject)
                         ∪ dom (∅ : gmap N ProgramObject))) in *.
  set (s2 := fresh_name ({[s1]} ∪ dom (∅ : gmap N ShaderObject)
                         ∪ dom (∅ : gmap N ProgramObject))) in *.
  set (p := fresh_name ({[s2]} ∪ ({[s1]} ∪ dom (∅ : gmap N ShaderObject))
                        ∪ dom (∅ : gmap N ProgramObject))) in *.
  set (vao := fresh_name (dom (∅ : gmap N VertexArrayObject))) in *.
  set (vbo := fresh_name (dom (∅ : gmap N BufferObject))) in *.
  set (ebo := fresh_name (dom (<[vbo := new_buffer]> (∅ : gmap N BufferObject))))
    in *.
  exists s1, s2, p, vao, vbo, ebo.
  split; [split_and!; [|exact Hp|exact Hn1|]; by apply not_eq_sym|].
  intros inputs shader cube r.
  assert (runs (main inputs) (initial_world P)
            (if running r.1 then None else Some 0)
            (if running r.1 then r.2 else exit_world r.2 p vao vbo ebo)) as H.
  { unfold main, initial_world.
    step_with ltac:(apply runs_SDL_Init). rewrite Hb, Hb'.
    step_with ltac:(apply runs_SDL_GL_SetAttribute).
    step_with ltac:(apply runs_SDL_GL_SetAttribute).
    step_with ltac:(apply runs_SDL_GL_SetAttribute).
    step_with ltac:(by apply runs_SDL_CreateWindow).
    rewrite (decide_False (P := plat_SDL_CreateWindow P = 0%N)) by done.
    step_with ltac:(by apply runs_SDL_GL_CreateContext).
    rewrite (decide_False (P := plat_SDL_GL_CreateContext P = 0%N)) by done.
    step_with ltac:(apply runs_set_glewExperimental).
    step_with ltac:(apply runs_glewInit).
    rewrite (decide_False (P := plat_glewInit P ≠ GLEW_OK)) by (by intros ?).
    unfold glEnable.
    step_command ltac:(reflexivity).
    step_with ltac:(apply (Shader_runs vertexShaderSource fragmentShaderSource
                             _ _ _ _ _ _ _ _ _ _ _ _ _ _ _ _ s1 s2 p);
                    reflexivity).
    step_with ltac:(apply (Mesh_lifecycle vertices indices
                             _ _ _ _ _ _ _ _ _ _ _ _ _ _ _ _ vao vbo ebo);
                    reflexivity).
    step_with ltac:(apply runs_SDL_GetKeyboardState).
    eapply (runs_from _ _ (entry_world P s1 s2 p vao vbo ebo)).
    { unfold entry_world, entry_device, startup_calls. f_equal.
      by rewrite <- !(assoc_L (++)). }
    change (vector_size indices) with 36%N. fold shader cube.
    destruct (main_loop_steps (plat_SDL_CreateWindow P) shader cube inputs
                initial_locals (entry_world P s1 s2 p vao vbo ebo))
      as (delta & w5 & (Hrun & Hext & _) & _).
    assert (r = (loop_locals inputs initial_locals, w5)) as Hr by exact Hrun.
    eapply runs_bind; [exact Hrun|]. cbv beta.
    rewrite Hr. cbn [fst snd].
    destruct (running (loop_locals inputs initial_locals)); [apply runs_ret|].
    destruct Hext as (Ep & Ei & Ew & Ec & _ & Ecalls).
    destruct w5 as [P5 i5 wi5 ctx5 dev5 con5 cs5].
    cbn [platform sdl_initialized window gl_context calls entry_world]
      in Ep, Ei, Ew, Ec, Ecalls.
    subst P5 i5 wi5 ctx5.
    step_with ltac:(apply runs_SDL_GL_DeleteContext).
    step_with ltac:(apply runs_SDL_DestroyWindow).
    step_with ltac:(apply runs_SDL_Quit).
    step_with ltac:(apply Mesh_destructor_stray).
    step_with ltac:(apply Shader_destructor_stray).
    eapply runs_to; [apply runs_ret|].
    unfold exit_world, teardown_calls.
    cbn [platform console calls Mesh.VAO Mesh.VBO Mesh.EBO Shader.programID cube shader].
    f_equal. by rewrite <- !(assoc_L (++)). }
  apply runs_eq in H. rewrite H. by destruct (running r.1).
Qed.

(** ** The state of the context across the iterations *)

Lemma runs_poll_events evs : ∀ b P i wi ctx d con cs,
  runs (poll_events evs b) (Build_World P i wi ctx d con cs)
       (b && negb (existsb is_quit evs))
       (Build_World P i wi ctx d con
          (cs ++ map (λ e, Call_SDL_PollEvent (Some e)) evs
              ++ [Call_SDL_PollEvent None])).
Proof.
  induction evs as [|e evs IH]; intros b P i wi ctx d con cs.
  - cbn [poll_events existsb negb map app]. rewrite andb_true_r.
    step_with ltac:(apply runs_SDL_PollEvent). apply runs_ret.
  - cbn [poll_events existsb map].
    step_with ltac:(apply runs_SDL_PollEvent).
    eapply runs_to; [eapply runs_to_value; [apply IH|]|].
    + unfold is_quit. case_bool_decide;
        [rewrite decide_True by done|rewrite decide_False by done]; cbn;
        [by rewrite andb_false_r|done].
    + f_equal. by rewrite <- !(assoc_L (++)).
Qed.

(** One iteration in a world with a current context. *)
Lemma iteration_runs win shader cube input l P i wi ctx d con cs :
  runs (iteration win shader cube input l)
       (Build_World P i wi ctx (Some d) con cs)
       (iteration_locals input l)
       (Build_World P i wi ctx
          (Some (frame_device shader cube (angle l) d).2) con
          (cs ++ iteration_calls win shader cube input (angle l)
                   (frame_device shader cube (angle l) d).1)).
Proof.
  unfold iteration, Shader.use, Shader.setMat4, Mesh.draw, glClearColor,
    glClear, glUseProgram, glGetUniformLocation, glUniformMatrix4fv,
    glBindVertexArray, glDrawElements.
  change (c_str "mvp") with "mvp".
  eapply runs_to.
  - step_with ltac:(apply runs_poll_events).
    step_command ltac:(reflexivity).
    step_command ltac:(reflexivity).
    step_command ltac:(reflexivity).
    step_with ltac:(step_with ltac:(step_platform; eapply runs_gl_query;
                                    apply surjective_pairing);
                    eapply runs_gl_command; reflexivity).
    step_with ltac:(step_command ltac:(reflexivity);
                    step_command ltac:(reflexivity);
                    eapply runs_gl_command; reflexivity).
    step_with ltac:(apply runs_SDL_GL_SwapWindow).
    apply runs_ret.
  - unfold frame_device, iteration_calls, frame_mvp. cbn [fst snd].
    f_equal. rewrite <- !(assoc_L (++)). reflexivity.
Qed.

Lemma main_loop_device win shader cube inputs : ∀ l w d,
  device w = Some d →
  device (main_loop win shader cube inputs l w).2
  = Some (loop_device shader cube inputs l d).
Proof.
  induction inputs as [|input rest IH]; intros l w d Hd; [done|].
  cbn [main_loop loop_device]. destruct (running l); [|done].
  rewrite bind_eq. destruct w as [P i wi ctx dev con cs]. cbn in Hd. subst dev.
  rewrite (runs_eq _ _ _ _ (iteration_runs win shader cube input l P i wi ctx
                              d con cs)).
  cbn [fst snd]. by apply IH.
Qed.

(** The calls of a frame on a state that is ready for them. *)
Lemma frame_device_ready p vao vbo ebo count idx a
    va bufs shs prgs vab abb cp dt cc err o :
  ready p vao idx (Build_Device va bufs shs prgs vab abb cp dt cc err) →
  prgs !! p = Some o →
  0 <= to_GLsizei count →
  frame_device {| Shader.programID := p |}
    {| Mesh.VAO := vao; Mesh.VBO := vbo; Mesh.EBO := ebo;
       Mesh.indexCount := count |} a
    (Build_Device va bufs shs prgs vab abb cp dt cc err)
  = (Z.of_nat idx,
     Build_Device va bufs shs
       (<[p := GL.set_value (N.of_nat idx) (UMat4 (frame_mvp a)) o]> prgs)
       0%N abb p dt (lit_0_2, lit_0_3, lit_0_3, lit_1_0) err).
Proof.
  intros (Hp & Hvao & Hcp & H0 & [vo Hvo] & o' & Ho' & Hl & Hidx & Hty) Ho Hc.
  cbn [current_program programs vertex_arrays] in *.
  rewrite Ho in Ho'. injection Ho' as <-.
  unfold frame_device. cbn [Shader.programID Mesh.VAO Mesh.indexCount].
  cbv zeta.
  assert (GL.UseProgram p
            (GL.Clear (N.lor GL_COLOR_BUFFER_BIT GL_DEPTH_BUFFER_BIT)
               (GL.ClearColor lit_0_2 lit_0_3 lit_0_3 lit_1_0
                  (Build_Device va bufs shs prgs vab abb cp dt cc err)))
          = Build_Device va bufs shs prgs vab abb p dt
              (lit_0_2, lit_0_3, lit_0_3, lit_1_0) err) as ->.
  { change (GL.Clear _ (GL.ClearColor _ _ _ _ ?d))
      with (GL.ClearColor lit_0_2 lit_0_3 lit_0_3 lit_1_0 d).
    unfold GL.ClearColor, GL.UseProgram; dev_unfold.
    rewrite decide_False by done. rewrite Ho, Hl.
    unfold GL.make_current; cbv zeta; dev_unfold.
    destruct Hcp as [->| ->].
    - rewrite Ho. by rewrite bool_decide_eq_true_2, andb_false_r.
    - by rewrite H0. }
  erewrite GetUniformLocation_present; [|exact Ho|done|done].
  cbn [fst snd]. unfold GL.UniformMatrix4fv.
  erewrite write_uniform_stores; [|done|exact Ho|exact Hty].
  f_equal.
  unfold GL.BindVertexArray, GL.DrawElements, GL.bound_vertex_array; dev_unfold.
  rewrite (decide_False (P := vao = 0%N)) by done. rewrite Hvo. dev_cbn.
  rewrite (proj2 (Z.ltb_ge _ _)) by done.
  rewrite (decide_False (P := vao = 0%N)) by done. rewrite Hvo.
  rewrite decide_True by done. reflexivity.
Qed.

(** The calls of a frame when the program of the shader is not linked. *)
Lemma frame_device_unlinked p vao vbo ebo count a
    va bufs shs prgs vab abb cp dt cc err o vo :
  p ≠ 0%N → vao ≠ 0%N → prgs !! p = Some o → pr_linked o = false →
  va !! vao = Some vo → 0 <= to_GLsizei count →
  frame_device {| Shader.programID := p |}
    {| Mesh.VAO := vao; Mesh.VBO := vbo; Mesh.EBO := ebo;
       Mesh.indexCount := count |} a
    (Build_Device va bufs shs prgs vab abb cp dt cc err)
  = (-1,
     Build_Device va bufs shs prgs 0%N abb cp dt
       (lit_0_2, lit_0_3, lit_0_3, lit_1_0)
       (Some (default GL_INVALID_OPERATION err))).
Proof.
  intros Hp Hvao Ho Hl Hvo Hc.
  unfold frame_device. cbn [Shader.programID Mesh.VAO Mesh.indexCount].
  cbv zeta.
  set (d1 := Build_Device va bufs shs prgs vab abb cp dt
               (lit_0_2, lit_0_3, lit_0_3, lit_1_0) err).
  assert (GL.UseProgram p
            (GL.Clear (N.lor GL_COLOR_BUFFER_BIT GL_DEPTH_BUFFER_BIT)
               (GL.ClearColor lit_0_2 lit_0_3 lit_0_3 lit_1_0
                  (Build_Device va bufs shs prgs vab abb cp dt cc err)))
          = gl_fail GL_INVALID_OPERATION d1) as ->.
  { change (GL.Clear _ (GL.ClearColor _ _ _ _ ?d)) with d1.
    unfold GL.UseProgram. rewrite decide_False by done.
    unfold d1; dev_cbn. by rewrite Ho, Hl. }
  erewrite GetUniformLocation_unlinked; [|exact Ho|exact Hl].
  cbn [fst snd]. unfold GL.UniformMatrix4fv.
  rewrite gl_fail_again, write_uniform_after_failure.
  f_equal. unfold d1, gl_fail; dev_cbn.
  unfold GL.BindVertexArray, GL.DrawElements, GL.bound_vertex_array; dev_unfold.
  rewrite (decide_False (P := vao = 0%N)) by done. rewrite Hvo. dev_cbn.
  rewrite (proj2 (Z.ltb_ge _ _)) by done.
  rewrite (decide_False (P := vao = 0%N)) by done. rewrite Hvo.
  rewrite decide_True by done. by destruct err.
Qed.

Lemma set_value_again i v v' o :
  GL.set_value i v (GL.set_value i v' o) = GL.set_value i v o.
Proof.
  unfold GL.set_value. cbn [pr_attached pr_linked pr_log pr_uniforms pr_values
    pr_delete_pending]. by rewrite insert_insert_eq.
Qed.

(** The state after the loop, from a state that is ready: nothing changes
    but the program in use, the clear colour and the value of [mvp], which
    is the matrix of the last iteration executed. *)
Lemma loop_device_ready p vao vbo ebo count idx inputs : ∀ l
    va bufs shs prgs vab abb cp dt cc err o,
  ready p vao idx (Build_Device va bufs shs prgs vab abb cp dt cc err) →
  prgs !! p = Some o →
  0 <= to_GLsizei count →
  running l = true → inputs ≠ [] →
  loop_device {| Shader.programID := p |}
    {| Mesh.VAO := vao; Mesh.VBO := vbo; Mesh.EBO := ebo;
       Mesh.indexCount := count |} inputs l
    (Build_Device va bufs shs prgs vab abb cp dt cc err)
  = Build_Device va bufs shs
      (<[p := GL.set_value (N.of_nat idx)
                (UMat4 (frame_mvp
                          (Nat.iter (pred (iterations inputs true))
                                    (λ x, b32_add x lit_0_0025) (angle l)))) o]>
         prgs)
      0%N abb p dt (lit_0_2, lit_0_3, lit_0_3, lit_1_0) err.
Proof.
  induction inputs as [|input rest IH];
    intros l va bufs shs prgs vab abb cp dt cc err o Hready Ho Hc Hrun Hne;
    [done|].
  cbn [loop_device]. rewrite Hrun.
  rewrite (frame_device_ready p vao vbo ebo count idx (angle l) va bufs shs
             prgs vab abb cp dt cc err o Hready Ho Hc).
  cbn [snd iterations].
  assert (ready p vao idx
            (Build_Device va bufs shs
               (<[p := GL.set_value (N.of_nat idx) (UMat4 (frame_mvp (angle l))) o]>
                  prgs)
               0%N abb p dt (lit_0_2, lit_0_3, lit_0_3, lit_1_0) err)) as Hready'.
  { destruct Hready as (Hp & Hvao & Hcp & H0 & Hvo & o' & Ho' & Hl & Hidx & Hty).
    cbn [current_program programs vertex_arrays] in *.
    rewrite Ho in Ho'. injection Ho' as <-.
    split_and!; try done; cbn [current_program programs vertex_arrays].
    - by left.
    - by rewrite lookup_insert_ne.
    - eexists. rewrite lookup_insert_eq. split; [reflexivity|]. done. }
  destruct (running (iteration_locals input l)) eqn:Hrun1;
    [destruct rest as [|input' rest']|].
  - reflexivity.
  - rewrite (IH (iteration_locals input l) _ _ _ _ _ _ _ _ _ _ _ Hready'
               (lookup_insert_eq _ _ _) Hc Hrun1 ltac:(done)).
    cbn [iteration_locals running] in Hrun1. rewrite Hrun in Hrun1.
    cbn in Hrun1. apply negb_true_iff in Hrun1. rewrite Hrun1.
    cbn [negb]. rewrite insert_insert_eq, set_value_again.
    cbn [iteration_locals angle iterations pred].
    by rewrite Nat.iter_succ_r.
  - cbn [iteration_locals running] in Hrun1. rewrite Hrun in Hrun1.
    cbn in Hrun1. apply negb_false_iff in Hrun1. rewrite Hrun1. cbn [negb].
    rewrite iterations_stopped. cbn [pred Nat.iter].
    destruct rest; cbn [loop_device]; [done|]. cbn [iteration_locals running].
    rewrite Hrun, Hrun1. reflexivity.
Qed.

Lemma loop_device_fixed shader cube inputs : ∀ l d,
  (∀ a, (frame_device shader cube a d).2 = d) →
  loop_device shader cube inputs l d = d.
Proof.
  induction inputs as [|input rest IH]; intros l d Hfix; [done|].
  cbn [loop_device]. destruct (running l); [|done].
  rewrite Hfix. by apply IH.
Qed.

(** The state after the loop when the program of the shader is not
    linked. *)
Lemma loop_device_unlinked p vao vbo ebo count inputs l
    va bufs shs prgs vab abb cp dt cc err o vo :
  p ≠ 0%N → vao ≠ 0%N → prgs !! p = Some o → pr_linked o = false →
  va !! vao = Some vo → 0 <= to_GLsizei count →
  running l = true → inputs ≠ [] →
  loop_device {| Shader.programID := p |}
    {| Mesh.VAO := vao; Mesh.VBO := vbo; Mesh.EBO := ebo;
       Mesh.indexCount := count |} inputs l
    (Build_Device va bufs shs prgs vab abb cp dt cc err)
  = Build_Device va bufs shs prgs 0%N abb cp dt
      (lit_0_2, lit_0_3, lit_0_3, lit_1_0)
      (Some (default GL_INVALID_OPERATION err)).
Proof.
  intros Hp Hvao Ho Hl Hvo Hc Hrun Hne.
  destruct inputs as [|input rest]; [done|].
  cbn [loop_device]. rewrite Hrun.
  rewrite (frame_device_unlinked p vao vbo ebo count (angle l) va bufs shs
             prgs vab abb cp dt cc err o vo) by done.
  cbn [snd]. apply loop_device_fixed. intros a.
  by rewrite (frame_device_unlinked p vao vbo ebo count a va bufs shs prgs
                0%N abb cp dt _ _ o vo).
Qed.

(** ** Runs of main *)

Lemma filter_compile_check s o :
  filter is_milestone (compile_check_calls s o) = [].
Proof. unfold compile_check_calls. by destruct (sh_compiled o). Qed.

Lemma filter_link_check p o :
  filter is_milestone (link_check_calls p o) = [].
Proof. unfold link_check_calls. by destruct (pr_linked o). Qed.

Lemma filter_startup_calls P s1 s2 p vao vbo ebo :
  filter is_milestone (startup_calls P s1 s2 p vao vbo ebo)
  = startup_milestones P.
Proof.
  unfold startup_calls, Shader_calls.
  rewrite !filter_app, !filter_compile_check, filter_link_check.
  reflexivity.
Qed.

Lemma iterations_until_quit pre q post :
  quits pre = false → has_quit q = true →
  iterations (pre ++ q :: post) true = S (length pre).
Proof.
  intros Hpre Hq. induction pre as [|input pre IH].
  - cbn. by rewrite Hq, iterations_stopped.
  - unfold quits in Hpre. cbn [existsb] in Hpre.
    apply orb_false_elim in Hpre as [Hi Hpre].
    cbn [app iterations length]. rewrite Hi. cbn [negb]. by rewrite IH.
Qed.

(** The loop does not look at the inputs that follow the iteration that
    sees a quit event. *)
Lemma main_loop_stops win shader cube pre q post : ∀ l w,
  quits pre = false → has_quit q = true → running l = true →
  main_loop win shader cube (pre ++ q :: post) l w
  = main_loop win shader cube (pre ++ [q]) l w.
Proof.
  induction pre as [|input pre IH]; intros l w Hpre Hq Hrun.
  - cbn [app main_loop]. rewrite Hrun. rewrite !bind_eq.
    destruct (iteration_steps win shader cube q l w) as (loc & w1 & Hr & _).
    rewrite (runs_eq _ _ _ _ Hr). cbn [fst snd].
    assert (running (iteration_locals q l) = false) as Hstop.
    { cbn [iteration_locals running]. by rewrite Hq, andb_false_r. }
    destruct post; cbn [main_loop]; by rewrite ?Hstop.
  - unfold quits in Hpre. cbn [existsb] in Hpre.
    apply orb_false_elim in Hpre as [Hi Hpre].
    cbn [app main_loop]. rewrite Hrun. rewrite !bind_eq.
    destruct (iteration_steps win shader cube input l w) as (loc & w1 & Hr & _).
    rewrite (runs_eq _ _ _ _ Hr). cbn [fst snd].
    apply IH; [done|done|]. cbn [iteration_locals running].
    by rewrite Hrun, Hi.
Qed.

(** *** The frames keep the objects *)

Lemma same_objects_refl d : same_objects d d.
Proof. by unfold same_objects. Qed.

Lemma same_objects_trans d1 d2 d3 :
  same_objects d1 d2 → same_objects d2 d3 → same_objects d1 d3.
Proof.
  unfold same_objects. intros (?&?&?&?) (?&?&?&?). split_and!; congruence.
Qed.

Lemma gl_fail_keeps e d :
  same_objects d (gl_fail e d) ∧ programs (gl_fail e d) = programs d.
Proof. by unfold same_objects. Qed.

Lemma not_a_program_keeps p d :
  same_objects d (GL.not_a_program p d)
  ∧ programs (GL.not_a_program p d) = programs d.
Proof. unfold GL.not_a_program. destruct (shaders d !! p); apply gl_fail_keeps. Qed.

Lemma make_current_keeps p d :
  no_pending d →
  same_objects d (GL.make_current p d)
  ∧ programs (GL.make_current p d) = programs d.
Proof.
  intros Hd. unfold GL.make_current.
  destruct (programs d !! current_program d) as [o|] eqn:Ho; [|done].
  by rewrite (Hd _ _ Ho).
Qed.

Lemma UseProgram_keeps p d :
  no_pending d →
  same_objects d (GL.UseProgram p d) ∧ programs (GL.UseProgram p d) = programs d.
Proof.
  intros Hd. unfold GL.UseProgram.
  destruct (decide (p = 0%N)); [by apply make_current_keeps|].
  destruct (programs d !! p) as [o|]; [|apply not_a_program_keeps].
  destruct (pr_linked o); [by apply make_current_keeps|apply gl_fail_keeps].
Qed.

Lemma GetUniformLocation_keeps p name d :
  same_objects d (GL.GetUniformLocation p name d).2
  ∧ programs (GL.GetUniformLocation p name d).2 = programs d.
Proof.
  unfold GL.GetUniformLocation.
  destruct (programs d !! p) as [o|]; [|apply not_a_program_keeps].
  destruct (pr_linked o); [done|apply gl_fail_keeps].
Qed.

Lemma write_uniform_keeps t loc v d :
  no_pending d →
  same_objects d (GL.write_uniform t loc v d)
  ∧ no_pending (GL.write_uniform t loc v d).
Proof.
  intros Hd. unfold GL.write_uniform.
  destruct (decide (current_program d = 0%N)) as [|Hcp]; [done|].
  destruct (programs d !! current_program d) as [o|] eqn:Ho; [|done].
  destruct (decide (loc = -1)); [done|].
  destruct (pr_uniforms o !! Z.to_nat loc) as [[nm t']|]; [|done].
  destruct (decide (0 <= loc ∧ t' = t)); [|done].
  split.
  - unfold same_objects. cbn. split_and!; try done.
    rewrite dom_insert_L. apply (elem_of_dom_2 (programs d)) in Ho.
    apply set_eq. intros x. rewrite elem_of_union, elem_of_singleton.
    split; [by intros [->|]|by right].
  - intros p o'. cbn. destruct (decide (p = current_program d)) as [->|Hne].
    + rewrite lookup_insert_eq. intros [= <-]. cbn. by apply (Hd _ _ Ho).
    + rewrite lookup_insert_ne by done. apply Hd.
Qed.

Lemma BindVertexArray_keeps n d :
  same_objects d (GL.BindVertexArray n d)
  ∧ programs (GL.BindVertexArray n d) = programs d.
Proof.
  unfold GL.BindVertexArray. destruct (decide (n = 0%N)); [done|].
  by destruct (vertex_arrays d !! n).
Qed.

Lemma DrawElements_keeps mode count type i d :
  same_objects d (GL.DrawElements mode count type i d)
  ∧ programs (GL.DrawElements mode count type i d) = programs d.
Proof.
  unfold GL.DrawElements. destruct (count <? 0); [done|].
  by destruct (GL.bound_vertex_array d).
Qed.

Lemma Clear_keeps mask d :
  same_objects d (GL.Clear mask d) ∧ programs (GL.Clear mask d) = programs d.
Proof. unfold GL.Clear. by destruct (decide _). Qed.

Lemma no_pending_programs d d' :
  programs d' = programs d → no_pending d → no_pending d'.
Proof. unfold no_pending. by intros ->. Qed.

(** One frame neither creates nor deletes an object. *)
Lemma frame_device_keeps shader cube a d :
  no_pending d →
  same_objects d (frame_device shader cube a d).2
  ∧ no_pending (frame_device shader cube a d).2.
Proof.
  intros Hd. unfold frame_device. cbv zeta. cbn [snd].
  set (d0 := GL.ClearColor lit_0_2 lit_0_3 lit_0_3 lit_1_0 d).
  assert (same_objects d d0 ∧ no_pending d0) as [S0 N0] by done.
  destruct (Clear_keeps (N.lor GL_COLOR_BUFFER_BIT GL_DEPTH_BUFFER_BIT) d0)
    as [S1 P1].
  set (d1 := GL.Clear _ d0) in *.
  pose proof (no_pending_programs _ _ P1 N0) as N1.
  destruct (UseProgram_keeps (Shader.programID shader) d1 N1) as [S2 P2].
  set (d2 := GL.UseProgram _ d1) in *.
  pose proof (no_pending_programs _ _ P2 N1) as N2.
  destruct (GetUniformLocation_keeps (Shader.programID shader) "mvp" d2)
    as [S3 P3].
  set (r := GL.GetUniformLocation _ "mvp" d2) in *.
  pose proof (no_pending_programs _ _ P3 N2) as N3.
  destruct (write_uniform_keeps U_mat4 r.1 (UMat4 (frame_mvp a)) r.2 N3)
    as [S4 N4].
  change (GL.write_uniform U_mat4 r.1 (UMat4 (frame_mvp a)) r.2)
    with (GL.UniformMatrix4fv r.1 1 false (frame_mvp a) r.2) in S4, N4.
  set (d4 := GL.UniformMatrix4fv _ _ _ _ _) in *.
  destruct (BindVertexArray_keeps (Mesh.VAO cube) d4) as [S5 P5].
  set (d5 := GL.BindVertexArray _ d4) in *.
  destruct (DrawElements_keeps GL_TRIANGLES (to_GLsizei (Mesh.indexCount cube))
              GL_UNSIGNED_INT 0 d5) as [S6 P6].
  set (d6 := GL.DrawElements _ _ _ _ d5) in *.
  destruct (BindVertexArray_keeps 0 d6) as [S7 P7].
  split.
  - repeat (eapply same_objects_trans; [eassumption|]). apply same_objects_refl.
  - eapply no_pending_programs; [exact P7|].
    eapply no_pending_programs; [exact P6|].
    eapply no_pending_programs; [exact P5|]. exact N4.
Qed.

Lemma loop_device_keeps shader cube inputs : ∀ l d,
  no_pending d →
  same_objects d (loop_device shader cube inputs l d).
Proof.
  induction inputs as [|input rest IH]; intros l d Hd; cbn [loop_device].
  - apply same_objects_refl.
  - destruct (running l); [|apply same_objects_refl].
    destruct (frame_device_keeps shader cube (angle l) d Hd) as [S1 N1].
    eapply same_objects_trans; [exact S1|]. by apply IH.
Qed.

Lemma entry_device_no_pending P s1 s2 p vao vbo ebo :
  no_pending (entry_device P s1 s2 p vao vbo ebo).
Proof.
  intros q o. cbn [entry_device programs].
  destruct (decide (q = p)) as [->|Hne].
  - rewrite lookup_insert_eq. by intros [= <-].
  - by rewrite lookup_insert_ne, lookup_empty.
Qed.

(** *** Whole runs of [main] *)

(** [main] while no iteration sees a quit event. *)
Lemma main_running (P : Platform) (inputs : list FrameInput) :
  ¬ init_fails P → quits inputs = false →
  ∃ s1 s2 p vao vbo ebo,
    (s1 ≠ s2 ∧ p ≠ 0%N ∧ vao ≠ 0%N ∧ vbo ≠ ebo)
    ∧ let r := main inputs (initial_world P) in
      r.1 = None
      ∧ (platform r.2 = P ∧ sdl_initialized r.2 = true
         ∧ window r.2 = Some (plat_SDL_CreateWindow P)
         ∧ gl_context r.2 = Some (plat_SDL_GL_CreateContext P))
      ∧ console r.2 = Shader_output P vertexShaderSource fragmentShaderSource
      ∧ device r.2
        = Some (loop_device {| Shader.programID := p |}
                  {| Mesh.VAO := vao; Mesh.VBO := vbo; Mesh.EBO := ebo;
                     Mesh.indexCount := 36 |} inputs initial_locals
                  (entry_device P s1 s2 p vao vbo ebo))
      ∧ filter is_milestone (calls r.2)
        = startup_milestones P
          ++ mjoin (replicate (length inputs)
               [ Call_glDrawElements GL_TRIANGLES 36 GL_UNSIGNED_INT 0;
                 Call_SDL_GL_SwapWindow (plat_SDL_CreateWindow P) ]).
Proof.
  intros Hok Hq.
  destruct (main_runs P Hok) as (s1 & s2 & p & vao & vbo & ebo & Hn & Hmain).
  specialize (Hmain inputs).
  exists s1, s2, p, vao, vbo, ebo. split; [done|].
  intros r. subst r. cbv zeta in Hmain.
  set (E := entry_world P s1 s2 p vao vbo ebo) in *.
  set (shader := {| Shader.programID := p |}) in *.
  set (cube := {| Mesh.VAO := vao |}) in *.
  destruct (main_loop_steps (plat_SDL_CreateWindow P) shader cube inputs
              initial_locals E) as (delta & w5 & (Hrun & Hext & Hcon) & Hmil).
  pose proof (main_loop_device (plat_SDL_CreateWindow P) shader cube inputs
                initial_locals E _ eq_refl) as Hdev.
  rewrite (runs_eq _ _ _ _ Hrun) in Hmain, Hdev. cbn [fst snd] in Hmain, Hdev.
  rewrite running_loop_locals, Hq in Hmain. cbn in Hmain.
  rewrite Hmain. cbn [fst snd].
  destruct Hext as (HP & Hi & Hw & Hc & _ & Hcs).
  split_and!; try done.
  rewrite Hcs, filter_app, Hmil.
  unfold E. cbn [entry_world calls]. rewrite filter_startup_calls.
  cbn [initial_locals running]. by rewrite iterations_executed.
Qed.

(** [main] when an iteration sees a quit event. *)
Lemma main_quitting (P : Platform) (pre : list FrameInput) (q : FrameInput)
    (post : list FrameInput) :
  ¬ init_fails P → quits pre = false → has_quit q = true →
  ∃ s1 s2 p vao vbo ebo wl,
    (s1 ≠ s2 ∧ p ≠ 0%N ∧ vao ≠ 0%N ∧ vbo ≠ ebo)
    ∧ main (pre ++ q :: post) (initial_world P)
      = (Some 0, exit_world wl p vao vbo ebo)
    ∧ main (pre ++ [q]) (initial_world P)
      = (Some 0, exit_world wl p vao vbo ebo)
    ∧ platform wl = P
    ∧ console wl = Shader_output P vertexShaderSource fragmentShaderSource
    ∧ device wl
      = Some (loop_device {| Shader.programID := p |}
                {| Mesh.VAO := vao; Mesh.VBO := vbo; Mesh.EBO := ebo;
                   Mesh.indexCount := 36 |} (pre ++ [q]) initial_locals
                (entry_device P s1 s2 p vao vbo ebo))
    ∧ filter is_milestone (calls wl)
      = startup_milestones P
        ++ mjoin (replicate (S (length pre))
             [ Call_glDrawElements GL_TRIANGLES 36 GL_UNSIGNED_INT 0;
               Call_SDL_GL_SwapWindow (plat_SDL_CreateWindow P) ]).
Proof.
  intros Hok Hpre Hq.
  assert (quits (pre ++ [q]) = true) as Hquit.
  { unfold quits. rewrite existsb_app. cbn. by rewrite Hq, orb_true_r. }
  assert (quits (pre ++ q :: post) = true) as Hquit'.
  { unfold quits. rewrite existsb_app. cbn. by rewrite Hq, orb_true_r. }
  destruct (main_runs P Hok) as (s1 & s2 & p & vao & vbo & ebo & Hn & Hruns).
  pose proof (Hruns (pre ++ [q])) as Hmain.
  pose proof (Hruns (pre ++ q :: post)) as Hmain'.
  cbv zeta in Hmain, Hmain'.
  rewrite main_loop_stops in Hmain' by done. clear Hruns.
  set (E := entry_world P s1 s2 p vao vbo ebo) in *.
  set (shader := {| Shader.programID := p |}) in *.
  set (cube := {| Mesh.VAO := vao |}) in *.
  exists s1, s2, p, vao, vbo, ebo,
    (main_loop (plat_SDL_CreateWindow P) shader cube (pre ++ [q])
       initial_locals E).2.
  destruct (main_loop_steps (plat_SDL_CreateWindow P) shader cube (pre ++ [q])
              initial_locals E) as (delta & w5 & (Hrun & Hext & Hcon) & Hmil).
  pose proof (main_loop_device (plat_SDL_CreateWindow P) shader cube
                (pre ++ [q]) initial_locals E _ eq_refl) as Hdev.
  rewrite (runs_eq _ _ _ _ Hrun) in Hmain, Hmain', Hdev |- *.
  cbn [fst snd] in Hmain, Hmain', Hdev |- *.
  rewrite running_loop_locals, Hquit in Hmain, Hmain'. cbn in Hmain, Hmain'.
  destruct Hext as (HP & Hi & Hw & Hc & _ & Hcs).
  split; [exact Hn|]. split; [exact Hmain'|]. split; [exact Hmain|].
  split; [exact HP|]. split; [exact Hcon|]. split; [exact Hdev|].
  rewrite Hcs, filter_app, Hmil.
    unfold E. cbn [entry_world calls]. rewrite filter_startup_calls.
  cbn [initial_locals running].
  by rewrite (iterations_until_quit pre q []).
Qed.




Lemma entry_device_sizes P s1 s2 p vao vbo ebo d :
  s1 ≠ s2 → vbo ≠ ebo →
  same_objects (entry_device P s1 s2 p vao vbo ebo) d →
  size (vertex_arrays d) = 1%nat ∧ size (buffers d) = 2%nat
  ∧ size (shaders d) = 2%nat ∧ size (programs d) = 1%nat.
Proof.
  intros Hs Hb (Hva & Hbu & Hsh & Hpr).
  rewrite Hva, Hbu, Hsh, <- (size_dom (programs d)), Hpr, size_dom.
  cbn [entry_device vertex_arrays buffers shaders programs].
  rewrite !map_size_insert_None, !map_size_empty; try done.
  - by rewrite lookup_insert_ne, lookup_empty by (by apply not_eq_sym).
  - by rewrite lookup_insert_ne, lookup_empty by (by apply not_eq_sym).
Qed.

(** *** Properties of whole runs *)

(** X11. When no step of the initialisation chain fails, [main] reaches the loop
    in the world [entry_world]: SDL is initialised, the window and the
    context are those of the platform, the context holds one vertex array,
    two buffers, the two shaders (still alive, because they are attached)
    and the program, nothing is bound or in use, the depth test is enabled,
    no OpenGL error is recorded, and the console holds what the constructor
    of [Shader] printed. *)
Theorem initialisation_reaches_the_loop (P : Platform) :
  ¬ init_fails P →
  ∃ s1 s2 p vao vbo ebo,
    (s1 ≠ s2 ∧ p ≠ 0%N ∧ vao ≠ 0%N ∧ vbo ≠ ebo)
    ∧ main [] (initial_world P) = (None, entry_world P s1 s2 p vao vbo ebo).
Proof.
  intros Hok.
  destruct (main_runs P Hok) as (s1 & s2 & p & vao & vbo & ebo & Hn & Hmain).
  exists s1, s2, p, vao, vbo, ebo. split; [exact Hn|]. exact (Hmain []).
Qed.

Lemma initialisation_reaches_the_loop_witness :
  ∃ s1 s2 p vao vbo ebo,
    (s1 ≠ s2 ∧ p ≠ 0%N ∧ vao ≠ 0%N ∧ vbo ≠ ebo)
    ∧ main [] (initial_world sample_platform)
      = (None, entry_world sample_platform s1 s2 p vao vbo ebo).
Proof.
  apply (initialisation_reaches_the_loop sample_platform).
  intros [H|[H|[H|H]]]; [discriminate H..|by apply H].
Defined.

(** X12. While no iteration sees a quit event the loop goes on: [main] has not
    returned, SDL, the window and the context are alive, the loop has
    printed nothing, and each input has been answered by exactly one draw
    followed by one presentation of the frame. *)
Theorem loop_draws_once_per_input (P : Platform) (inputs : list FrameInput) :
  ¬ init_fails P → quits inputs = false →
  let r := main inputs (initial_world P) in
  r.1 = None
  ∧ (sdl_initialized r.2 = true
     ∧ window r.2 = Some (plat_SDL_CreateWindow P)
     ∧ gl_context r.2 = Some (plat_SDL_GL_CreateContext P)
     ∧ is_Some (device r.2))
  ∧ console r.2 = Shader_output P vertexShaderSource fragmentShaderSource
  ∧ filter is_milestone (calls r.2)
    = startup_milestones P
      ++ mjoin (replicate (length inputs)
           [ Call_glDrawElements GL_TRIANGLES 36 GL_UNSIGNED_INT 0;
             Call_SDL_GL_SwapWindow (plat_SDL_CreateWindow P) ]).
Proof.
  intros Hok Hq r.
  destruct (main_running P inputs Hok Hq)
    as (s1 & s2 & p & vao & vbo & ebo & _ & H).
  cbv zeta in H. fold r in H.
  destruct H as (Hr & (_ & Hi & Hw & Hc) & Hcon & Hdev & Hmil).
  split; [exact Hr|]. split; [|split; [exact Hcon|exact Hmil]].
  split; [exact Hi|]. split; [exact Hw|]. split; [exact Hc|].
  rewrite Hdev. by eexists.
Qed.

Lemma loop_draws_once_per_input_witness :
  let r := main [idle_frame; idle_frame] (initial_world sample_platform) in
  r.1 = None
  ∧ (sdl_initialized r.2 = true
     ∧ window r.2 = Some (plat_SDL_CreateWindow sample_platform)
     ∧ gl_context r.2 = Some (plat_SDL_GL_CreateContext sample_platform)
     ∧ is_Some (device r.2))
  ∧ console r.2
    = Shader_output sample_platform vertexShaderSource fragmentShaderSource
  ∧ filter is_milestone (calls r.2)
    = startup_milestones sample_platform
      ++ mjoin (replicate (length [idle_frame; idle_frame])
           [ Call_glDrawElements GL_TRIANGLES 36 GL_UNSIGNED_INT 0;
             Call_SDL_GL_SwapWindow (plat_SDL_CreateWindow sample_platform) ]).
Proof.
  apply (loop_draws_once_per_input sample_platform [idle_frame; idle_frame]).
  - intros [H|[H|[H|H]]]; [discriminate H..|by apply H].
  - reflexivity.
Defined.

(** X13. The first iteration that sees a quit event is the last one: the inputs
    after it are not looked at, [main] returns 0 with the context, the
    window and SDL released in that order, the loop has printed nothing, and
    the frame of the quitting iteration is still drawn and presented. *)
Theorem quit_ends_the_run (P : Platform) (pre : list FrameInput)
    (q : FrameInput) (post : list FrameInput) :
  ¬ init_fails P → quits pre = false → has_quit q = true →
  let r := main (pre ++ q :: post) (initial_world P) in
  r = main (pre ++ [q]) (initial_world P)
  ∧ r.1 = Some 0
  ∧ (sdl_initialized r.2 = false ∧ window r.2 = None
     ∧ gl_context r.2 = None ∧ device r.2 = None)
  ∧ console r.2 = Shader_output P vertexShaderSource fragmentShaderSource
  ∧ filter is_milestone (calls r.2)
    = startup_milestones P
      ++ mjoin (replicate (S (length pre))
           [ Call_glDrawElements GL_TRIANGLES 36 GL_UNSIGNED_INT 0;
             Call_SDL_GL_SwapWindow (plat_SDL_CreateWindow P) ])
      ++ teardown_calls P.
Proof.
  intros Hok Hpre Hq r.
  destruct (main_quitting P pre q post Hok Hpre Hq)
    as (s1 & s2 & p & vao & vbo & ebo & wl & _ & H1 & H2 & HP & Hcon & _ & Hmil).
  fold r in H1. rewrite H1, H2. cbn [fst snd exit_world sdl_initialized window
    gl_context device console calls].
  split; [reflexivity|]. split; [reflexivity|].
  split; [by split_and!|]. split; [exact Hcon|].
  rewrite !filter_app, Hmil, HP. rewrite <- (assoc_L (++)). do 2 f_equal.
Qed.

Lemma quit_ends_the_run_witness :
  let r := main ([idle_frame] ++ quit_frame :: [idle_frame])
             (initial_world sample_platform) in
  r = main ([idle_frame] ++ [quit_frame]) (initial_world sample_platform)
  ∧ r.1 = Some 0
  ∧ (sdl_initialized r.2 = false ∧ window r.2 = None
     ∧ gl_context r.2 = None ∧ device r.2 = None)
  ∧ console r.2
    = Shader_output sample_platform vertexShaderSource fragmentShaderSource
  ∧ filter is_milestone (calls r.2)
    = startup_milestones sample_platform
      ++ mjoin (replicate (S (length [idle_frame]))
           [ Call_glDrawElements GL_TRIANGLES 36 GL_UNSIGNED_INT 0;
             Call_SDL_GL_SwapWindow (plat_SDL_CreateWindow sample_platform) ])
      ++ teardown_calls sample_platform.
Proof.
  apply (quit_ends_the_run sample_platform [idle_frame] quit_frame [idle_frame]).
  - intros [H|[H|[H|H]]]; [discriminate H..|by apply H].
  - reflexivity.
  - reflexivity.
Defined.



(** X15. The frames neither create nor delete an OpenGL object, whatever the
    platform's compiler and linker did: after any number of iterations the
    context holds the vertex array, the two buffers and the two shaders with
    which the loop was entered, unchanged, and one program of the same
    name. *)
Theorem frames_keep_the_objects (P : Platform) (inputs : list FrameInput) :
  ¬ init_fails P → quits inputs = false →
  ∃ s1 s2 p vao vbo ebo d,
    device (main [] (initial_world P)).2
    = Some (entry_device P s1 s2 p vao vbo ebo)
    ∧ device (main inputs (initial_world P)).2 = Some d
    ∧ same_objects (entry_device P s1 s2 p vao vbo ebo) d
    ∧ allocation_count d = 3%nat
    ∧ size (shaders d) = 2%nat ∧ size (programs d) = 1%nat.
Proof.
  intros Hok Hq.
  destruct (main_runs P Hok) as (s1 & s2 & p & vao & vbo & ebo & Hn & Hruns).
  pose proof (Hruns []) as H0. pose proof (Hruns inputs) as Hmain.
  cbv zeta in H0, Hmain. clear Hruns.
  set (E := entry_world P s1 s2 p vao vbo ebo) in *.
  set (shader := {| Shader.programID := p |}) in *.
  set (cube := {| Mesh.VAO := vao |}) in *.
  pose proof (main_loop_device (plat_SDL_CreateWindow P) shader cube inputs
                initial_locals E _ eq_refl) as Hdev.
  rewrite (main_loop_locals (plat_SDL_CreateWindow P) shader cube inputs
             initial_locals E) in Hmain.
  rewrite running_loop_locals, Hq in Hmain. cbn in Hmain.
  pose proof (loop_device_keeps shader cube inputs initial_locals _
                (entry_device_no_pending P s1 s2 p vao vbo ebo)) as Hsame.
  destruct Hn as (Hs & _ & _ & Hb).
  destruct (entry_device_sizes P s1 s2 p vao vbo ebo _ Hs Hb Hsame)
    as (Hva & Hbu & Hsh & Hpr).
  exists s1, s2, p, vao, vbo, ebo,
    (loop_device shader cube inputs initial_locals
       (entry_device P s1 s2 p vao vbo ebo)).
  split; [by rewrite H0|]. split; [by rewrite Hmain|]. split; [exact Hsame|].
  split; [|by split]. unfold allocation_count. by rewrite Hva, Hbu.
Qed.

Lemma frames_keep_the_objects_witness :
  ∃ s1 s2 p vao vbo ebo d,
    device (main [] (initial_world sample_platform)).2
    = Some (entry_device sample_platform s1 s2 p vao vbo ebo)
    ∧ device (main [idle_frame; idle_frame] (initial_world sample_platform)).2
      = Some d
    ∧ same_objects (entry_device sample_platform s1 s2 p vao vbo ebo) d
    ∧ allocation_count d = 3%nat
    ∧ size (shaders d) = 2%nat ∧ size (programs d) = 1%nat.
Proof.
  apply (frames_keep_the_objects sample_platform [idle_frame; idle_frame]).
  - intros [H|[H|[H|H]]]; [discriminate H..|by apply H].
  - reflexivity.
Defined.

(** X16. When the program links and [mvp] is an active [mat4] uniform of it,
    every frame is accepted by OpenGL: after a run of at least one iteration
    no error is recorded, the state of the context is the one the loop was
    entered with but for three things, the clear colour, the program in use
    and the value of [mvp], and that value is the matrix of the last
    iteration, built from the angle that the iterations before it have
    accumulated. *)
Theorem frames_are_accepted (P : Platform) (inputs : list FrameInput) :
  ¬ init_fails P →
  links P vertexShaderSource fragmentShaderSource = true →
  uniform_type "mvp" (linked_uniforms P vertexShaderSource fragmentShaderSource)
  = Some U_mat4 →
  quits inputs = false → inputs ≠ [] →
  ∃ s1 s2 p vao vbo ebo idx d,
    GL.uniform_index "mvp"
      (linked_uniforms P vertexShaderSource fragmentShaderSource) = Some idx
    ∧ device (main inputs (initial_world P)).2 = Some d
    ∧ gl_error d = None
    ∧ d = set_clear_color frame_colour
            (set_current_program p
               (set_programs
                  (<[p := GL.set_value (N.of_nat idx)
                            (UMat4 (frame_mvp (frame_angle (pred (length inputs)))))
                            (linked_program P vertexShaderSource
                               fragmentShaderSource s1 s2)]> ∅)
                  (entry_device P s1 s2 p vao vbo ebo))).
Proof.
  intros Hok Hlink Hmvp Hq Hne.
  destruct (main_running P inputs Hok Hq)
    as (s1 & s2 & p & vao & vbo & ebo & (Hs & Hp & Hvao & Hb) & H).
  cbv zeta in H. destruct H as (_ & _ & _ & Hdev & _).
  destruct (uniform_type_index _ _ _ Hmvp) as (idx & Hidx & Hlook).
  exists s1, s2, p, vao, vbo, ebo, idx.
  eexists. split; [exact Hidx|]. split; [exact Hdev|].
  set (o := linked_program P vertexShaderSource fragmentShaderSource s1 s2).
  assert (pr_uniforms o
          = linked_uniforms P vertexShaderSource fragmentShaderSource) as Hu.
  { unfold o. by rewrite linked_program_uniforms, Hlink. }
  unfold entry_device. fold o.
  rewrite (loop_device_ready p vao vbo ebo 36 idx inputs initial_locals
             _ _ _ _ _ _ _ _ _ _ o).
  - split; [reflexivity|].
    cbn [set_clear_color set_current_program set_programs vertex_arrays buffers
         shaders programs vertex_array_binding array_buffer_binding
         current_program depth_test clear_color gl_error initial_locals angle].
    rewrite insert_insert_eq, iterations_executed by done. reflexivity.
  - unfold ready.
    cbn [vertex_arrays programs current_program].
    split; [exact Hp|]. split; [exact Hvao|]. split; [by right|].
    split; [by rewrite lookup_insert_ne, lookup_empty by done|].
    split; [rewrite lookup_insert_eq; by eexists|].
    exists o. split; [by rewrite lookup_insert_eq|].
    split; [unfold o; by rewrite linked_program_linked|].
    rewrite Hu. by split.
  - by rewrite lookup_insert_eq.
  - done.
  - reflexivity.
  - exact Hne.
Qed.

Lemma frames_are_accepted_witness :
  ∃ s1 s2 p vao vbo ebo idx d,
    GL.uniform_index "mvp"
      (linked_uniforms sample_platform vertexShaderSource fragmentShaderSource)
    = Some idx
    ∧ device (main [idle_frame; idle_frame]
                (initial_world sample_platform)).2 = Some d
    ∧ gl_error d = None
    ∧ d = set_clear_color frame_colour
            (set_current_program p
               (set_programs
                  (<[p := GL.set_value (N.of_nat idx)
                            (UMat4 (frame_mvp (frame_angle
                               (pred (length [idle_frame; idle_frame])))))
                            (linked_program sample_platform vertexShaderSource
                               fragmentShaderSource s1 s2)]> ∅)
                  (entry_device sample_platform s1 s2 p vao vbo ebo))).
Proof.
  apply (frames_are_accepted sample_platform [idle_frame; idle_frame]).
  - intros [H|[H|[H|H]]]; [discriminate H..|by apply H].
  - reflexivity.
  - reflexivity.
  - reflexivity.
  - discriminate.
Defined.

(** X17. When the program did not link, the loop runs all the same: every
    iteration still issues its draw and presents the frame, but
    [glUseProgram] is refused, so that the context records
    [GL_INVALID_OPERATION], no program is ever in use and no uniform is
    written; apart from the error flag and the clear colour the state of the
    context stays the one the loop was entered with. *)
Theorem frames_of_an_unlinked_program_fail (P : Platform)
    (inputs : list FrameInput) :
  ¬ init_fails P →
  links P vertexShaderSource fragmentShaderSource = false →
  quits inputs = false → inputs ≠ [] →
  ∃ s1 s2 p vao vbo ebo d,
    device (main inputs (initial_world P)).2 = Some d
    ∧ gl_error d = Some GL_INVALID_OPERATION
    ∧ current_program d = 0%N
    ∧ d = set_clear_color frame_colour
            (gl_fail GL_INVALID_OPERATION (entry_device P s1 s2 p vao vbo ebo))
    ∧ filter is_milestone (calls (main inputs (initial_world P)).2)
      = startup_milestones P
        ++ mjoin (replicate (length inputs)
             [ Call_glDrawElements GL_TRIANGLES 36 GL_UNSIGNED_INT 0;
               Call_SDL_GL_SwapWindow (plat_SDL_CreateWindow P) ]).
Proof.
  intros Hok Hlink Hq Hne.
  destruct (main_running P inputs Hok Hq)
    as (s1 & s2 & p & vao & vbo & ebo & (Hs & Hp & Hvao & Hb) & H).
  cbv zeta in H. destruct H as (_ & _ & _ & Hdev & Hmil).
  exists s1, s2, p, vao, vbo, ebo.
  eexists. split; [exact Hdev|].
  set (o := linked_program P vertexShaderSource fragmentShaderSource s1 s2).
  unfold entry_device. fold o.
  rewrite (loop_device_unlinked p vao vbo ebo 36 inputs initial_locals
             _ _ _ _ _ _ _ _ _ _ o (Mesh_vertex_array vbo ebo)).
  - split; [reflexivity|]. split; [reflexivity|]. split; [reflexivity|].
    exact Hmil.
  - exact Hp.
  - exact Hvao.
  - by rewrite lookup_insert_eq.
  - unfold o. by rewrite linked_program_linked.
  - by rewrite lookup_insert_eq.
  - done.
  - reflexivity.
  - exact Hne.
Qed.

Lemma frames_of_an_unlinked_program_fail_witness :
  ∃ s1 s2 p vao vbo ebo d,
    device (main [idle_frame; idle_frame]
              (initial_world unlinkable_platform)).2 = Some d
    ∧ gl_error d = Some GL_INVALID_OPERATION
    ∧ current_program d = 0%N
    ∧ d = set_clear_color frame_colour
            (gl_fail GL_INVALID_OPERATION
               (entry_device unlinkable_platform s1 s2 p vao vbo ebo))
    ∧ filter is_milestone
        (calls (main [idle_frame; idle_frame]
                  (initial_world unlinkable_platform)).2)
      = startup_milestones unlinkable_platform
        ++ mjoin (replicate (length [idle_frame; idle_frame])
             [ Call_glDrawElements GL_TRIANGLES 36 GL_UNSIGNED_INT 0;
               Call_SDL_GL_SwapWindow
                 (plat_SDL_CreateWindow unlinkable_platform) ]).
Proof.
  apply (frames_of_an_unlinked_program_fail unlinkable_platform
           [idle_frame; idle_frame]).
  - intros [H|[H|[H|H]]]; [discriminate H..|by apply H].
  - reflexivity.
  - reflexivity.
  - discriminate.
Defined.

(** X18. The inner loop empties the event queue: it polls once for each pending
    event and once more to see the queue empty, and changes nothing else.
    A quit event anywhere in the queue clears [running], the events queued
    behind it are still consumed, and nothing sets [running] again. *)
Theorem quit_event_clears_running (evs : list SDL_Event) (b : bool) (w : World) :
  let r := poll_events evs b w in
  (r.1 = true ↔ b = true ∧ ∀ e, e ∈ evs → type e ≠ SDL_QUIT)
  ∧ calls r.2
    = calls w ++ map (λ e, Call_SDL_PollEvent (Some e)) evs
              ++ [Call_SDL_PollEvent None]
  ∧ device r.2 = device w ∧ console r.2 = console w.
Proof.
  intros r. subst r.
  destruct (poll_events_spec evs b w) as (Hv & Hext & Hcon & Hdev).
  destruct Hext as (_ & _ & _ & _ & _ & Hcs).
  split; [|by split_and!].
  rewrite Hv, andb_true_iff, negb_true_iff.
  split; intros [Hb He]; (split; [exact Hb|]).
  - intros e Hin Hquit.
    assert (existsb is_quit evs = true) as Hex; [|congruence].
    apply existsb_exists. exists e. split; [by apply list_elem_of_In|].
    unfold is_quit. by apply bool_decide_eq_true.
  - destruct (existsb is_quit evs) eqn:Hex; [|done].
    apply existsb_exists in Hex as (e & Hin & Hquit).
    apply list_elem_of_In in Hin. destruct (He e Hin).
    unfold is_quit in Hquit. by apply bool_decide_eq_true in Hquit.
Qed.
